(** * ao3-fandom-analyzer: a shallow embedding of [fandom.py] and
    [AO3_analyzer.py], and the properties of their [Fandom] class.

    Both source files define a class [Fandom] over the third-party archive
    client [AO3].  The client itself is not part of the repository: it is
    taken here as an interface ([AO3.Lib]) whose [update] answers a search
    from an abstract world.  Python integers are [Z]; floats are an
    interface ([PyFloat]) that binary64 implements; dictionaries are
    [gmap]s; dictionaries that are passed in by the caller and mutated in
    place live in a store of frequency tables addressed by location. *)

From Stdlib Require Import ZArith List Lia Ascii PrimFloat SpecFloat FloatOps.
From stdpp Require Import base option list gmap strings pretty.

Local Open Scope Z_scope.

(** ** Python runtime: exceptions and outcomes *)

Inductive PyExn : Type :=
| ZeroDivisionError
| OverflowError
| UnboundLocalError (name : string)
| TypeError
| ValueError
| IndexError
| CollaboratorError (detail : string).

(** The outcome of running a piece of code: a value, an uncaught exception,
    or [OutOfFuel] when a [while] loop was cut after the number of
    iterations it was allowed. *)
Inductive Outcome (A : Type) : Type :=
| Return (a : A)
| Raise (e : PyExn)
| OutOfFuel.
Arguments Return {A} a.
Arguments Raise {A} e.
Arguments OutOfFuel {A}.

(** A frequency table is a [dict] from attribute names to counts; tables are
    objects, referred to by location. *)
Abbreviation FreqTable := (gmap string Z) (only parsing).
Abbreviation loc := positive (only parsing).

(** The line feed written ["\n"] in the source. *)
Definition nl : string := String "010"%char EmptyString.

(** [float] arithmetic is kept abstract: [truediv a b] is the [float] that
    [a / b] evaluates to for integers [a] and [b <> 0] ([None] when the
    quotient is too large for a [float], where Python raises
    [OverflowError]), [round x n] is [round(x, n)] and [str_float x] is the
    text an f-string substitutes for [x]. *)
Class PyFloat := {
  Float : Type;
  truediv : Z -> Z -> option Float;
  round : Float -> Z -> Float;
  str_float : Float -> string }.

(** ** The external archive client *)

Module AO3.

(** [AO3.utils.Constraint(min, max)]. *)
Record Constraint := { c_min : Z; c_max : option Z }.

(** A work of a result page and its three attribute lists. *)
Record Work := {
  tags : list string;
  relationships : list string;
  characters : list string }.

(** The keyword arguments of [AO3.Search(...)] that the repository
    passes. *)
Record Search (Session : Type) := {
  fandoms : string;
  single_chapter : bool;
  word_count : option Constraint;
  language : string;
  hits : option Constraint;
  bookmarks : option Constraint;
  comments : option Constraint;
  crossover : option bool;
  completion_status : option bool;
  revised_at : string;
  q_relationships : string;
  q_characters : string;
  q_tags : string;
  session : option Session;
  rating : option Z;
  warnings : option (list Z);
  sort_column : string;
  sort_direction : string;
  page : Z }.
Arguments fandoms {Session} _.
Arguments single_chapter {Session} _.
Arguments word_count {Session} _.
Arguments language {Session} _.
Arguments hits {Session} _.
Arguments bookmarks {Session} _.
Arguments comments {Session} _.
Arguments crossover {Session} _.
Arguments completion_status {Session} _.
Arguments revised_at {Session} _.
Arguments q_relationships {Session} _.
Arguments q_characters {Session} _.
Arguments q_tags {Session} _.
Arguments session {Session} _.
Arguments rating {Session} _.
Arguments warnings {Session} _.
Arguments sort_column {Session} _.
Arguments sort_direction {Session} _.
Arguments page {Session} _.

(** What a search object holds once [update()] has returned. *)
Record Updated := {
  total_results : Z;
  results : list Work }.

(** The client.  [update q w] performs the fetch of the search [q] in the
    world [w]: it raises or yields the page, and leaves a new world.
    [defaults] holds the values [AO3.Search] gives to the keyword
    arguments a call leaves out. *)
Class Lib := {
  Session : Type;
  World : Type;
  defaults : Search Session;
  update : Search Session -> World -> (PyExn + Updated) * World }.

End AO3.

(** ** Program state and the monad of the embedding *)

(** One call of [update()]: the search and what came back. *)
Abbreviation Event := (AO3.Search AO3.Session * (PyExn + AO3.Updated))%type (only parsing).

Section Runtime.
Context `{L : AO3.Lib}.

Record Env := {
  world : AO3.World;
  trace : list Event;
  heap : gmap loc FreqTable }.

Definition M (A : Type) : Type := Env -> Outcome A * Env.

Definition ret {A} (a : A) : M A := fun env => (Return a, env).

Definition raise {A} (e : PyExn) : M A := fun env => (Raise e, env).

Definition out_of_fuel {A} : M A := fun env => (OutOfFuel, env).

Definition bind {A B} (c : M A) (k : A -> M B) : M B :=
  fun env =>
    match c env with
    | (Return a, env') => k a env'
    | (Raise e, env') => (Raise e, env')
    | (OutOfFuel, env') => (OutOfFuel, env')
    end.

(** [searchObject.update()]: one fetch, recorded in the trace; an error of
    the client is raised as it is. *)
Definition Search_update (q : AO3.Search AO3.Session) : M AO3.Updated :=
  fun env =>
    let (r, w') := AO3.update q (world env) in
    let env' := {| world := w'; trace := trace env ++ [(q, r)]; heap := heap env |} in
    match r with
    | inl e => (Raise e, env')
    | inr u => (Return u, env')
    end.

(** [dict()]: a new, empty table. *)
Definition new_dict : M loc :=
  fun env =>
    let l := fresh (dom (heap env)) in
    (Return l,
     {| world := world env; trace := trace env; heap := <[l := ∅]> (heap env) |}).

(** In-place update of the table at [l].  A reference that a run holds is
    always to a table of the store; at a location the store does not hold
    nothing changes. *)
Definition modify_dict (l : loc) (f : FreqTable -> FreqTable) : M unit :=
  fun env =>
    (Return tt,
     {| world := world env; trace := trace env; heap := alter f l (heap env) |}).

(** [for x in xs: body], threading the variables the body assigns. *)
Fixpoint for_in {A S : Type} (xs : list A) (body : A -> S -> M S) (s : S) : M S :=
  match xs with
  | [] => ret s
  | x :: rest => bind (body x s) (for_in rest body)
  end.

(** [xs[i]] and [xs[i] = x] on a Python list. *)
Definition list_get {A} (xs : list A) (i : nat) : M A :=
  match xs !! i with
  | Some x => ret x
  | None => raise IndexError
  end.

Definition list_set {A} (xs : list A) (i : nat) (x : A) : M (list A) :=
  if bool_decide (i < length xs)%nat then ret (<[i := x]> xs) else raise IndexError.

Definition enumerate {A} (xs : list A) : list (nat * A) :=
  zip (seq 0 (length xs)) xs.

(** [time.sleep(secs)] raises [ValueError] on a negative length. *)
Definition sleep (secs : Z) : M unit :=
  if secs <? 0 then raise ValueError else ret tt.

End Runtime.

Notation "'let!' x ':=' c 'in' k" := (bind c (fun x => k))
  (at level 10, x pattern, c at level 100, k at level 200).

(** [a / b] on integers. *)
Definition py_truediv `{F : PyFloat} `{L : AO3.Lib} (a b : Z) : M Float :=
  if b =? 0 then raise ZeroDivisionError
  else match truediv a b with
       | Some x => ret x
       | None => raise OverflowError
       end.

Definition is_not_None {A} (o : option A) : bool :=
  match o with
  | Some _ => true
  | None => false
  end.

(** [d.setdefault(key, dflt)]: the value read and the dictionary left. *)
Definition setdefault (d : gmap string Z) (key : string) (dflt : Z) : Z * gmap string Z :=
  match d !! key with
  | Some v => (v, d)
  | None => (dflt, <[key := dflt]> d)
  end.

(** ** fandom.py *)

Module FandomPy.
Section Code.
Context `{F : PyFloat} `{L : AO3.Lib}.

(** The loop of [counter] on the table itself. *)
Fixpoint counter_items (countDict : gmap string Z) (itemList : list string) : gmap string Z :=
  match itemList with
  | [] => countDict
  | item :: rest =>
      let (currentCount, countDict1) := setdefault countDict item 0 in
      counter_items (<[item := currentCount + 1]> countDict1) rest
  end.

(** [counter(countDict, itemList)]; iterating over [None] is a
    [TypeError]. *)
Definition counter (countDict : loc) (itemList : option (list string)) : M unit :=
  match itemList with
  | None => raise TypeError
  | Some items => modify_dict countDict (fun d => counter_items d items)
  end.

Record Fandom := {
  fandomName : string;
  singleChapter : bool;
  language : string;
  crossover : option bool;
  completionStatus : option bool;
  revisedAt : string;
  session : option AO3.Session;
  characters : string;
  relationships : string;
  tags : string;
  wordCountConstraint : option AO3.Constraint;
  hitConstraint : option AO3.Constraint;
  bookmarkConstraint : option AO3.Constraint;
  commentConstraint : option AO3.Constraint;
  totalWorks : Z }.

Definition __init__ (fandomName : string) (session : option AO3.Session)
    (singleChapter : bool) (wordCountMin wordCountMax : option Z) (language : string)
    (minHits maxHits minBookmarks maxBookmarks minComments maxComments : option Z)
    (crossover completionStatus : option bool)
    (revisedAt characters relationships tags : string) : M Fandom :=
  let wordCountConstraint :=
    if is_not_None wordCountMin || is_not_None wordCountMax then
      match wordCountMin with
      | Some wordCountMin => Some (AO3.Build_Constraint wordCountMin wordCountMax)
      | None => Some (AO3.Build_Constraint 0 wordCountMax)
      end
    else None in
  let hitConstraint :=
    if is_not_None minHits || is_not_None maxHits then
      match minHits with
      | Some minHits => Some (AO3.Build_Constraint minHits maxHits)
      | None => Some (AO3.Build_Constraint 0 maxHits)
      end
    else None in
  let bookmarkConstraint :=
    if is_not_None minBookmarks || is_not_None maxBookmarks then
      match minBookmarks with
      | Some minBookmarks => Some (AO3.Build_Constraint minBookmarks maxBookmarks)
      | None => Some (AO3.Build_Constraint 0 maxBookmarks)
      end
    else None in
  let commentConstraint :=
    if is_not_None minComments || is_not_None maxComments then
      match minComments with
      | Some minComments => Some (AO3.Build_Constraint minComments maxComments)
      | None => Some (AO3.Build_Constraint 0 maxComments)
      end
    else None in
  let! searchResults :=
    Search_update
      {| AO3.fandoms := fandomName; AO3.single_chapter := singleChapter;
         AO3.word_count := wordCountConstraint; AO3.language := language;
         AO3.hits := hitConstraint; AO3.bookmarks := bookmarkConstraint;
         AO3.comments := commentConstraint; AO3.crossover := crossover;
         AO3.completion_status := completionStatus; AO3.revised_at := revisedAt;
         AO3.q_relationships := relationships; AO3.q_characters := characters;
         AO3.q_tags := tags; AO3.session := session;
         AO3.rating := AO3.rating AO3.defaults;
         AO3.warnings := AO3.warnings AO3.defaults;
         AO3.sort_column := AO3.sort_column AO3.defaults;
         AO3.sort_direction := AO3.sort_direction AO3.defaults;
         AO3.page := AO3.page AO3.defaults |} in
  ret {| fandomName := fandomName; singleChapter := singleChapter; language := language;
         crossover := crossover; completionStatus := completionStatus;
         revisedAt := revisedAt; session := session; characters := characters;
         relationships := relationships; tags := tags;
         wordCountConstraint := wordCountConstraint; hitConstraint := hitConstraint;
         bookmarkConstraint := bookmarkConstraint; commentConstraint := commentConstraint;
         totalWorks := AO3.total_results searchResults |}.

(** [self.search(...)] builds the search object; nothing is fetched before
    [update()].  Call sites pass the method's defaults ([None], [None],
    [None], [""], [""], [1]) for the arguments they leave out. *)
Definition search (self : Fandom) (rating : option Z) (warnings : option (list Z))
    (sampleSize : option Z) (sortColumn sortDirection : string) (pageNumber : Z)
    : AO3.Search AO3.Session :=
  {| AO3.fandoms := fandomName self; AO3.single_chapter := singleChapter self;
     AO3.word_count := wordCountConstraint self; AO3.language := language self;
     AO3.hits := hitConstraint self; AO3.bookmarks := bookmarkConstraint self;
     AO3.comments := commentConstraint self; AO3.crossover := crossover self;
     AO3.completion_status := completionStatus self; AO3.revised_at := revisedAt self;
     AO3.q_relationships := relationships self; AO3.q_characters := characters self;
     AO3.q_tags := tags self; AO3.session := session self;
     AO3.rating := rating; AO3.warnings := warnings;
     AO3.sort_column := sortColumn; AO3.sort_direction := sortDirection;
     AO3.page := pageNumber |}.

Definition getRatingComposition (self : Fandom) : M (gmap Z (option (Z * Float))) :=
  let ratingResults : gmap Z (option (Z * Float)) :=
    <[13 := None]> (<[12 := None]> (<[11 := None]> (<[10 := None]> {[9 := None]}))) in
  for_in [0; 1; 2; 3; 4]
    (fun i ratingResults =>
       let! searchResults := Search_update (search self (Some (i + 9)) None None "" "" 1) in
       let! quotient := py_truediv (100 * AO3.total_results searchResults) (totalWorks self) in
       let ratingPercentage := round quotient 2 in
       ret (<[i + 9 := Some (AO3.total_results searchResults, ratingPercentage)]> ratingResults))
    ratingResults.

Definition getWarningComposition (self : Fandom) (ratingRestriction : option Z) : M string :=
  let warningValues := [14; 16; 17; 18; 19; 20] in
  let warningResults :=
    ["Creator Chose Not To Use Archive Warnings: "; "No Archive Warnings Apply: ";
     "Graphic Depictions Of Violence: "; "Major Character Death: "; "Rape/Non-Con: ";
     "Underage: "]%string in
  let! warningResults :=
    for_in (enumerate warningValues)
      (fun '(index, value) warningResults =>
         let! searchResults :=
           Search_update (search self ratingRestriction (Some [value]) None "" "" 1) in
         let! quotient := py_truediv (100 * AO3.total_results searchResults) (totalWorks self) in
         let warningPercentage := round quotient 2 in
         let! old := list_get warningResults index in
         list_set warningResults index
           (old +:+ pretty (AO3.total_results searchResults) +:+ " fics, "
                +:+ str_float warningPercentage +:+ " percent of the fandom." +:+ nl))
      warningResults in
  ret (fandomName self +:+ " Fandom" +:+ nl +:+ String.concat "" warningResults).

(** The three list variables of [attributeCounter], [None] until a work
    assigns them. *)
Record Lists := {
  relationshipList : option (list string);
  characterList : option (list string);
  tagList : option (list string) }.

(** The body of [for work in currentPage.results]. *)
Definition count_work (type : string) (tagCount : gmap string loc) (work : AO3.Work)
    (st : Lists * Z) : M (Lists * Z) :=
  let '(vars, ficsCounted) := st in
  let vars :=
    if bool_decide (type = "relationships") then
      {| relationshipList := Some (AO3.relationships work);
         characterList := characterList vars; tagList := tagList vars |}
    else if bool_decide (type = "characters") then
      {| relationshipList := relationshipList vars;
         characterList := Some (AO3.characters work); tagList := tagList vars |}
    else if bool_decide (type = "tags") then
      {| relationshipList := relationshipList vars;
         characterList := characterList vars; tagList := Some (AO3.tags work) |}
    else
      {| relationshipList := Some (AO3.relationships work);
         characterList := Some (AO3.characters work);
         tagList := Some (AO3.tags work) |} in
  let! _ := match tagCount !! "relationships" with
            | Some d => counter d (relationshipList vars)
            | None => ret tt
            end in
  let! _ := match tagCount !! "characters" with
            | Some d => counter d (characterList vars)
            | None => ret tt
            end in
  let! _ := match tagCount !! "tags" with
            | Some d => counter d (tagList vars)
            | None => ret tt
            end in
  ret (vars, ficsCounted + 1).

(** [while ficsCounted < totalWorkCount: ...]; [fuel] bounds the number of
    iterations. *)
Fixpoint page_loop (fuel : nat) (self : Fandom) (type : string) (rating : option Z)
    (warnings : option (list Z)) (sortColumn sortDirection : string) (waitTime : Z)
    (tagCount : gmap string loc) (totalWorkCount : Z)
    (vars : Lists) (ficsCounted pageNumber : Z) : M unit :=
  if ficsCounted <? totalWorkCount then
    match fuel with
    | O => out_of_fuel
    | S fuel =>
        let! currentPage :=
          Search_update (search self rating warnings None sortColumn sortDirection pageNumber) in
        let! (vars, ficsCounted) :=
          for_in (AO3.results currentPage) (count_work type tagCount) (vars, ficsCounted) in
        let pageNumber := pageNumber + 1 in
        let! _ := sleep waitTime in
        page_loop fuel self type rating warnings sortColumn sortDirection waitTime
          tagCount totalWorkCount vars ficsCounted pageNumber
    end
  else ret tt.

(** [attributeCounter]; the dictionary of tables is a map from the kind to
    the table's location, and a caller's [tagCount] refers to tables that
    are already in the store. *)
Definition attributeCounter (fuel : nat) (self : Fandom) (type : string)
    (rating : option Z) (warnings : option (list Z)) (sampleSize : option Z)
    (sortColumn sortDirection : string) (startPage waitTime : Z)
    (tagCount : option (gmap string loc)) : M (gmap string loc) :=
  let! tagCount :=
    match tagCount with
    | None =>
        if bool_decide (type = "tags") || bool_decide (type = "relationships")
           || bool_decide (type = "characters") then
          let! d := new_dict in
          ret ({[type := d]} : gmap string loc)
        else
          let! dt := new_dict in
          let! dr := new_dict in
          let! dc := new_dict in
          ret (<["characters" := dc]> (<["relationships" := dr]> ({["tags" := dt]} : gmap string loc)))
    | Some tagCount => ret tagCount
    end in
  let ficsCounted := 0 in
  let pageNumber := startPage in
  let vars := {| relationshipList := None; characterList := None; tagList := None |} in
  let! totalWorkCount :=
    match sampleSize with
    | Some sampleSize => ret sampleSize
    | None =>
        let! totalWorkCountTemp := Search_update (search self rating warnings None "" "" 1) in
        ret (AO3.total_results totalWorkCountTemp)
    end in
  let! _ := page_loop fuel self type rating warnings sortColumn sortDirection waitTime
              tagCount totalWorkCount vars ficsCounted pageNumber in
  ret tagCount.

End Code.
End FandomPy.

(** ** AO3_analyzer.py *)

Module AO3Analyzer.
Section Code.
Context `{F : PyFloat} `{L : AO3.Lib}.

Record Fandom := {
  fandomName : string;
  singleChapter : bool;
  language : string;
  crossover : option bool;
  completionStatus : option bool;
  revisedAt : string;
  session : option AO3.Session;
  wordCountConstraint : option AO3.Constraint;
  hitConstraint : option AO3.Constraint;
  bookmarkConstraint : option AO3.Constraint;
  commentConstraint : option AO3.Constraint;
  totalWorks : Z }.

(** The search every method of this file builds inline: the filters of
    [self], the given overrides, and the client's defaults for
    [relationships], [characters] and [tags], which this file never
    passes. *)
Definition Search_of (self : Fandom) (rating : option Z) (warnings : option (list Z))
    (sort_column sort_direction : string) (page : Z) : AO3.Search AO3.Session :=
  {| AO3.fandoms := fandomName self; AO3.single_chapter := singleChapter self;
     AO3.word_count := wordCountConstraint self; AO3.language := language self;
     AO3.hits := hitConstraint self; AO3.bookmarks := bookmarkConstraint self;
     AO3.comments := commentConstraint self; AO3.crossover := crossover self;
     AO3.completion_status := completionStatus self; AO3.revised_at := revisedAt self;
     AO3.q_relationships := AO3.q_relationships AO3.defaults;
     AO3.q_characters := AO3.q_characters AO3.defaults;
     AO3.q_tags := AO3.q_tags AO3.defaults; AO3.session := session self;
     AO3.rating := rating; AO3.warnings := warnings;
     AO3.sort_column := sort_column; AO3.sort_direction := sort_direction;
     AO3.page := page |}.

Definition __init__ (fandomName : string) (session : option AO3.Session)
    (singleChapter : bool) (wordCountMin wordCountMax : option Z) (language : string)
    (minHits maxHits minBookmarks maxBookmarks minComments maxComments : option Z)
    (crossover completionStatus : option bool) (revisedAt : string) : M Fandom :=
  let wordCountConstraint :=
    if is_not_None wordCountMin || is_not_None wordCountMax then
      match wordCountMin with
      | Some wordCountMin => Some (AO3.Build_Constraint wordCountMin wordCountMax)
      | None => Some (AO3.Build_Constraint 0 wordCountMax)
      end
    else None in
  let hitConstraint :=
    if is_not_None minHits || is_not_None maxHits then
      match minHits with
      | Some minHits => Some (AO3.Build_Constraint minHits maxHits)
      | None => Some (AO3.Build_Constraint 0 maxHits)
      end
    else None in
  let bookmarkConstraint :=
    if is_not_None minBookmarks || is_not_None maxBookmarks then
      match minBookmarks with
      | Some minBookmarks => Some (AO3.Build_Constraint minBookmarks maxBookmarks)
      | None => Some (AO3.Build_Constraint 0 maxBookmarks)
      end
    else None in
  let commentConstraint :=
    if is_not_None minComments || is_not_None maxComments then
      match minComments with
      | Some minComments => Some (AO3.Build_Constraint minComments maxComments)
      | None => Some (AO3.Build_Constraint 0 maxComments)
      end
    else None in
  let! searchResults :=
    Search_update
      {| AO3.fandoms := fandomName; AO3.single_chapter := singleChapter;
         AO3.word_count := wordCountConstraint; AO3.language := language;
         AO3.hits := hitConstraint; AO3.bookmarks := bookmarkConstraint;
         AO3.comments := commentConstraint; AO3.crossover := crossover;
         AO3.completion_status := completionStatus; AO3.revised_at := revisedAt;
         AO3.q_relationships := AO3.q_relationships AO3.defaults;
         AO3.q_characters := AO3.q_characters AO3.defaults;
         AO3.q_tags := AO3.q_tags AO3.defaults; AO3.session := session;
         AO3.rating := AO3.rating AO3.defaults;
         AO3.warnings := AO3.warnings AO3.defaults;
         AO3.sort_column := AO3.sort_column AO3.defaults;
         AO3.sort_direction := AO3.sort_direction AO3.defaults;
         AO3.page := AO3.page AO3.defaults |} in
  ret {| fandomName := fandomName; singleChapter := singleChapter; language := language;
         crossover := crossover; completionStatus := completionStatus;
         revisedAt := revisedAt; session := session;
         wordCountConstraint := wordCountConstraint; hitConstraint := hitConstraint;
         bookmarkConstraint := bookmarkConstraint; commentConstraint := commentConstraint;
         totalWorks := AO3.total_results searchResults |}.

Definition getRatingComposition (self : Fandom) : M string :=
  let ratingResults :=
    ["Not Rated: "; "General Audiences: "; "Teen and Up Audiences: "; "Mature: ";
     "Explicit: "]%string in
  let! ratingResults :=
    for_in [0; 1; 2; 3; 4]%nat
      (fun i ratingResults =>
         let! searchResults :=
           Search_update
             (Search_of self (Some (Z.of_nat i + 9)) (AO3.warnings AO3.defaults)
                (AO3.sort_column AO3.defaults) (AO3.sort_direction AO3.defaults)
                (AO3.page AO3.defaults)) in
         let! quotient := py_truediv (100 * AO3.total_results searchResults) (totalWorks self) in
         let ratingPercentage := round quotient 2 in
         let! old := list_get ratingResults i in
         list_set ratingResults i
           (old +:+ pretty (AO3.total_results searchResults) +:+ " fics, "
                +:+ str_float ratingPercentage +:+ " percent of the fandom." +:+ nl))
      ratingResults in
  ret (fandomName self +:+ " Fandom" +:+ nl +:+ String.concat "" ratingResults).

Definition getWarningComposition (self : Fandom) (ratingRestriction : option Z) : M string :=
  let warningValues := [14; 16; 17; 18; 19; 20] in
  let warningResults :=
    ["Creator Chose Not To Use Archive Warnings: "; "No Archive Warnings Apply: ";
     "Graphic Depictions Of Violence: "; "Major Character Death: "; "Rape/Non-Con: ";
     "Underage: "]%string in
  let! warningResults :=
    for_in (enumerate warningValues)
      (fun '(index, value) warningResults =>
         let! searchResults :=
           Search_update
             (Search_of self ratingRestriction (Some [value])
                (AO3.sort_column AO3.defaults) (AO3.sort_direction AO3.defaults)
                (AO3.page AO3.defaults)) in
         let! quotient := py_truediv (100 * AO3.total_results searchResults) (totalWorks self) in
         let warningPercentage := round quotient 2 in
         let! old := list_get warningResults index in
         list_set warningResults index
           (old +:+ pretty (AO3.total_results searchResults) +:+ " fics, "
                +:+ str_float warningPercentage +:+ " percent of the fandom." +:+ nl))
      warningResults in
  ret (fandomName self +:+ " Fandom" +:+ nl +:+ String.concat "" warningResults).

(** [for attribute in attributeList: ...], on the local table. *)
Fixpoint attribute_loop (tagCount : gmap string Z) (attributeList : list string)
    : gmap string Z :=
  match attributeList with
  | [] => tagCount
  | attribute :: rest =>
      let (currentCount, tagCount1) := setdefault tagCount attribute 0 in
      attribute_loop (<[attribute := currentCount + 1]> tagCount1) rest
  end.

(** The body of [for work in currentPage.results]. *)
Definition count_work (type : string) (work : AO3.Work) (st : gmap string Z * Z)
    : M (gmap string Z * Z) :=
  let '(tagCount, ficsCounted) := st in
  let attributeList :=
    if bool_decide (type = "relationships") then AO3.relationships work
    else if bool_decide (type = "characters") then AO3.characters work
    else AO3.tags work in
  ret (attribute_loop tagCount attributeList, ficsCounted + 1).

(** [while ficsCounted <= totalWorkCount: ...].  [totalWorkCount] is
    [None] while the local variable of that name has not been assigned;
    reading it then raises [UnboundLocalError]. *)
Fixpoint page_loop (fuel : nat) (self : Fandom) (type : string) (rating : option Z)
    (warnings : option (list Z)) (sortColumn sortDirection : string)
    (totalWorkCount : option Z) (tagCount : gmap string Z)
    (ficsCounted pageNumber : Z) : M (gmap string Z) :=
  let! bound := match totalWorkCount with
                | Some n => ret n
                | None => raise (UnboundLocalError "totalWorkCount")
                end in
  if ficsCounted <=? bound then
    match fuel with
    | O => out_of_fuel
    | S fuel =>
        let! currentPage :=
          Search_update (Search_of self rating warnings sortColumn sortDirection pageNumber) in
        let! (tagCount, ficsCounted) :=
          for_in (AO3.results currentPage) (count_work type) (tagCount, ficsCounted) in
        let pageNumber := pageNumber + 1 in
        page_loop fuel self type rating warnings sortColumn sortDirection
          totalWorkCount tagCount ficsCounted pageNumber
    end
  else ret tagCount.

(** [attributeCounter].  With [sampleSize = None] the total is stored in
    [totalWrokCount], a name nothing reads, and [totalWorkCount] stays
    unassigned. *)
Definition attributeCounter (fuel : nat) (self : Fandom) (type : string)
    (rating : option Z) (warnings : option (list Z)) (sampleSize : option Z)
    (sortColumn sortDirection : string) : M (gmap string Z) :=
  let tagCount : gmap string Z := ∅ in
  let ficsCounted := 0 in
  let pageNumber := 1 in
  let! totalWorkCount :=
    match sampleSize with
    | Some sampleSize => ret (Some sampleSize)
    | None =>
        let! totalWorkCountTemp :=
          Search_update
            (Search_of self rating warnings (AO3.sort_column AO3.defaults)
               (AO3.sort_direction AO3.defaults) (AO3.page AO3.defaults)) in
        let totalWrokCount := AO3.total_results totalWorkCountTemp in
        ret None
    end in
  page_loop fuel self type rating warnings sortColumn sortDirection
    totalWorkCount tagCount ficsCounted pageNumber.

End Code.
End AO3Analyzer.

(** ** Vocabulary of the statements *)

(** The constraint policy in the words of the specification: no bound gives
    no constraint, a maximum alone gives [[0, max]], a minimum gives
    [[min, max]] with [max] possibly unset. *)
Definition constraint_policy (minimum maximum : option Z) : option AO3.Constraint :=
  match minimum, maximum with
  | None, None => None
  | None, Some mx => Some {| AO3.c_min := 0; AO3.c_max := Some mx |}
  | Some mn, _ => Some {| AO3.c_min := mn; AO3.c_max := maximum |}
  end.

(** How often [k] occurs in a list of attribute values. *)
Fixpoint occurrences (k : string) (items : list string) : Z :=
  match items with
  | [] => 0
  | item :: rest => (if bool_decide (item = k) then 1 else 0) + occurrences k rest
  end.

(** The count of [k] in a table built from nothing out of [n] occurrences:
    no entry for none. *)
Definition count_entry (n : Z) : option Z :=
  if n =? 0 then None else Some n.

(** The attribute list of a work for one of the three kinds. *)
Definition kind_list (kind : string) (w : AO3.Work) : list string :=
  if bool_decide (kind = "relationships") then AO3.relationships w
  else if bool_decide (kind = "characters") then AO3.characters w
  else AO3.tags w.

Definition is_kind (s : string) : bool :=
  bool_decide (s = "tags") || bool_decide (s = "relationships")
  || bool_decide (s = "characters").

(** The kinds a type selector of [fandom.py] selects: itself when it is a
    kind, all three otherwise. *)
Definition selected (type kind : string) : bool :=
  is_kind kind && (bool_decide (type = kind) || negb (is_kind type)).

(** The works of the pages that the fetches [evs] returned. *)
Definition consumed `{L : AO3.Lib} (evs : list Event) : list AO3.Work :=
  concat (map (fun ev : Event =>
                 match snd ev with
                 | inr u => AO3.results u
                 | inl _ => []
                 end) evs).

(** The queries of [evs] ask for consecutive pages from [p] on. *)
Fixpoint consecutive_pages `{L : AO3.Lib} (q : Z -> AO3.Search AO3.Session) (p : Z)
    (evs : list Event) : Prop :=
  match evs with
  | [] => True
  | ev :: rest => fst ev = q p /\ consecutive_pages q (p + 1) rest
  end.

Section Store.
Context `{L : AO3.Lib}.

(** The state after one fetch of [q] that the client answered with [r],
    leaving the world [w']. *)
Definition after_fetch (env : Env) (q : AO3.Search AO3.Session)
    (r : PyExn + AO3.Updated) (w' : AO3.World) : Env :=
  {| world := w'; trace := trace env ++ [(q, r)]; heap := heap env |}.

Definition with_heap (env : Env) (h : gmap loc (gmap string Z)) : Env :=
  {| world := world env; trace := trace env; heap := h |}.

(** What a composition method does when [totalWorks] is zero and its
    first fetch is [q]: the fetch fails with the client's error, or the
    first division raises. *)
Definition first_fetch_or_division {A} (q : AO3.Search AO3.Session) (env : Env)
    : Outcome A * Env :=
  (Raise (match fst (AO3.update q (world env)) with
          | inl e => e
          | inr _ => ZeroDivisionError
          end),
   after_fetch env q (fst (AO3.update q (world env))) (snd (AO3.update q (world env)))).

(** Counting [items] into the table that [tagCount] holds for [kind]. *)
Definition count_into (tagCount : gmap string loc) (kind : string) (items : list string)
    (h : gmap loc (gmap string Z)) : gmap loc (gmap string Z) :=
  match tagCount !! kind with
  | Some d => alter (fun t => FandomPy.counter_items t items) d h
  | None => h
  end.

(** The store after a work, and after a list of works, have been counted
    into every table of [tagCount]. *)
Definition heap_after_work (tagCount : gmap string loc) (h : gmap loc (gmap string Z))
    (w : AO3.Work) : gmap loc (gmap string Z) :=
  count_into tagCount "tags" (AO3.tags w)
    (count_into tagCount "characters" (AO3.characters w)
       (count_into tagCount "relationships" (AO3.relationships w) h)).

Definition heap_after_works (tagCount : gmap string loc) (ws : list AO3.Work)
    (h : gmap loc (gmap string Z)) : gmap loc (gmap string Z) :=
  foldl (heap_after_work tagCount) h ws.

(** No entry of any table of [h] is missing or smaller in [h']. *)
Definition tables_grow (h h' : gmap loc (gmap string Z)) : Prop :=
  forall l t k v, h !! l = Some t -> t !! k = Some v ->
    exists t' v', h' !! l = Some t' /\ t' !! k = Some v' /\ v <= v'.

(** A computation under which tables only grow, whatever its outcome. *)
Definition grows {A} (c : M A) : Prop :=
  forall env, tables_grow (heap env) (heap (snd (c env))).

(** A failed fetch among [evs] is the last one, and its error is the
    outcome. *)
Definition failure_is_last {A} (evs : list Event) (out : Outcome A) : Prop :=
  forall evs1 q e evs2, evs = evs1 ++ (q, inl e) :: evs2 -> evs2 = [] /\ out = Raise e.

Definition ends_in_failure (evs : list Event) : Prop :=
  exists evs1 q e, evs = evs1 ++ [(q, inl e)].

(** Every fetch of [evs] was made while the works consumed before it,
    added to [n], were fewer than [total]. *)
Definition fetched_while_below (n total : Z) (evs : list Event) : Prop :=
  forall evs1 ev evs2, evs = evs1 ++ ev :: evs2 ->
    n + Z.of_nat (length (consumed evs1)) < total.

(** The fetches of a run of [attributeCounter] that asked for pages: all
    of them when a sample size was given; otherwise all but the first,
    which asked for the total. *)
Definition page_fetches (sampleSize : option Z) (evs : list Event) : list Event :=
  match sampleSize with
  | Some _ => evs
  | None => tail evs
  end.

(** The client answers every fetch, each time with a page of exactly
    [size] works. *)
Definition full_pages (size : nat) : Prop :=
  forall q w, exists u w', AO3.update q w = (inr u, w') /\ length (AO3.results u) = size.

(** The tables of the three kinds are different objects. *)
Definition distinct_tables (tagCount : gmap string loc) : Prop :=
  forall k1 k2 d, is_kind k1 = true -> is_kind k2 = true ->
    tagCount !! k1 = Some d -> tagCount !! k2 = Some d -> k1 = k2.

(** What [attributeCounter] creates when it is given no tables: an empty
    table in [h0] for each kind that [type] selects, each a new object, and
    nothing else. *)
Definition new_tables (type : string) (tagCount : gmap string loc)
    (h h0 : gmap loc (gmap string Z)) : Prop :=
  distinct_tables tagCount
  /\ (forall kind, is_kind kind = true ->
        if selected type kind
        then exists d, tagCount !! kind = Some d /\ h !! d = None /\ h0 !! d = Some ∅
        else tagCount !! kind = None)
  /\ (forall l t, h !! l = Some t -> h0 !! l = Some t).

(** The list variables before the first work. *)
Definition no_lists : FandomPy.Lists :=
  {| FandomPy.relationshipList := None; FandomPy.characterList := None;
     FandomPy.tagList := None |}.

(** A variable of an unselected kind has never been assigned. *)
Definition unassigned_unless_selected (type : string) (vars : FandomPy.Lists) : Prop :=
  (selected type "relationships" = false -> FandomPy.relationshipList vars = None)
  /\ (selected type "characters" = false -> FandomPy.characterList vars = None)
  /\ (selected type "tags" = false -> FandomPy.tagList vars = None).

(** [tagCount] has a table only for kinds that [type] selects. *)
Definition tables_selected (type : string) (tagCount : gmap string loc) : Prop :=
  forall kind, is_kind kind = true -> is_Some (tagCount !! kind) -> selected type kind = true.

(** The search [q] carries the filters of the object [self]: each keyword
    argument that the constructor stored is passed as it was stored. *)
Definition carries_filters (self : FandomPy.Fandom) (q : AO3.Search AO3.Session) : Prop :=
  AO3.fandoms q = FandomPy.fandomName self
  /\ AO3.single_chapter q = FandomPy.singleChapter self
  /\ AO3.word_count q = FandomPy.wordCountConstraint self
  /\ AO3.language q = FandomPy.language self
  /\ AO3.hits q = FandomPy.hitConstraint self
  /\ AO3.bookmarks q = FandomPy.bookmarkConstraint self
  /\ AO3.comments q = FandomPy.commentConstraint self
  /\ AO3.crossover q = FandomPy.crossover self
  /\ AO3.completion_status q = FandomPy.completionStatus self
  /\ AO3.revised_at q = FandomPy.revisedAt self
  /\ AO3.q_relationships q = FandomPy.relationships self
  /\ AO3.q_characters q = FandomPy.characters self
  /\ AO3.q_tags q = FandomPy.tags self
  /\ AO3.session q = FandomPy.session self.

(** [q] is the query for the bucket of the rating [r]: the filters of
    [self] restricted to the works rated [r], with no warning asked for, in
    no particular order, first page. *)
Definition rating_query (self : FandomPy.Fandom) (r : Z) (q : AO3.Search AO3.Session)
    : Prop :=
  carries_filters self q
  /\ AO3.rating q = Some r
  /\ AO3.warnings q = None
  /\ AO3.sort_column q = ""
  /\ AO3.sort_direction q = ""
  /\ AO3.page q = 1.

End Store.

(** ** The floats of CPython *)

(** A Python [float] is an IEEE 754 binary64 number, here the primitive
    [float] of Rocq.  The three operations that the repository applies to
    floats are written out on the exact value [m * 2 ^ e] of a float, as
    CPython computes them. *)
Module Binary64.

(** [a / b] on integers of any size: the float nearest to the quotient,
    ties to even, with the sign of zero that CPython gives ([0 / -5] is
    [-0.0]). *)
Definition quotient (a b : Z) : spec_float :=
  match Z.abs a, Z.abs b with
  | Zpos m, Zpos n =>
      SFdiv prec emax (S754_finite (xorb (a <? 0) (b <? 0)) m 0) (S754_finite false n 0)
  | Z0, Zpos _ => S754_zero (b <? 0)
  | _, _ => S754_nan
  end.

(** [None] where the quotient is beyond the largest float and CPython
    raises [OverflowError]. *)
Definition truediv (a b : Z) : option float :=
  match quotient a b with
  | S754_infinity _ => None
  | x => Some (SF2Prim x)
  end.

(** [p / q] rounded to the nearest integer, ties to even, for [0 < q]. *)
Definition nearest_even (p q : Z) : Z :=
  let fl := p `div` q in
  let twice := 2 * (p `mod` q) in
  if twice <? q then fl
  else if q <? twice then fl + 1
  else if Z.even fl then fl else fl + 1.

(** [round(x, n)]: the exact value of [x] is rounded to [n] decimal
    places, ties to even, and the decimal is read back as a float; zeros,
    infinities and [nan] round to themselves.  For [n < 0] the decimal can
    be beyond the largest float, where CPython raises [OverflowError]: it
    is given as the infinity. *)
Definition round (x : float) (n : Z) : float :=
  match Prim2SF x with
  | S754_finite s m e =>
      if 323 <? n then x
      else if n <? -308 then SF2Prim (S754_zero s)
      else
        let r := nearest_even (Zpos m * 2 ^ Z.max 0 e * 10 ^ Z.max 0 n)
                   (2 ^ Z.max 0 (- e) * 10 ^ Z.max 0 (- n)) in
        SF2Prim (match quotient (r * 10 ^ Z.max 0 (- n)) (10 ^ Z.max 0 n) with
                 | S754_finite _ m' e' => S754_finite s m' e'
                 | S754_infinity _ => S754_infinity s
                 | _ => S754_zero s
                 end)
  | _ => x
  end.

(** The shortest decimal [c * 10 ^ k] that reads back as the float
    [m * 2 ^ e], and the nearest to it of that length: [k] is tried from
    above.  A decimal reads back as the float when it lies between the
    midpoints to the two neighbouring floats, the midpoints included when
    [m] is even; all are compared in units of [2 ^ (e - 2)]. *)
Fixpoint shortest (fuel : nat) (m : positive) (e k : Z) : Z * Z :=
  let scale x := x * 2 ^ Z.max 0 (e - 2) * 10 ^ Z.max 0 (- k) in
  let unit := 2 ^ Z.max 0 (2 - e) * 10 ^ Z.max 0 k in
  let v := scale (4 * Zpos m) in
  let lo := scale (4 * Zpos m - (if (Zpos m =? 2 ^ 52) && (-1074 <? e) then 1 else 2)) in
  let hi := scale (4 * Zpos m + 2) in
  let inside c :=
    if Z.even (Zpos m) then (lo <=? c * unit) && (c * unit <=? hi)
    else (lo <? c * unit) && (c * unit <? hi) in
  let c := v `div` unit in
  match inside c, inside (c + 1) with
  | true, true => (if v - c * unit <=? (c + 1) * unit - v then c else c + 1, k)
  | true, false => (c, k)
  | false, true => (c + 1, k)
  | false, false =>
      match fuel with
      | O => (c, k)
      | S fuel => shortest fuel m e (k - 1)
      end
  end.

Definition zeros (n : Z) : string := String.concat "" (replicate (Z.to_nat n) "0"%string).

(** [repr(x)], which is also what [str(x)] and an f-string give: the
    digits of the shortest decimal, with an exponent when the decimal point
    is more than 16 places to the right of the first digit or more than 3
    to its left. *)
Definition repr (x : float) : string :=
  match Prim2SF x with
  | S754_zero s => if s then "-0.0" else "0.0"
  | S754_infinity s => if s then "-inf" else "inf"
  | S754_nan => "nan"
  | S754_finite s m e =>
      let '(c, k) :=
        shortest 20 m e (((Zpos (digits2_pos m) + e) * 30103) `div` 100000 + 2) in
      let digits := pretty c in
      let len := Z.of_nat (String.length digits) in
      let decpt := len + k in
      (if s then "-" else "")
      +:+ (if (16 <? decpt) || (decpt <? -3) then
             String.substring 0 1 digits
             +:+ (if len =? 1 then ""
                  else "." +:+ String.substring 1 (String.length digits - 1) digits)
             +:+ "e" +:+ (if decpt - 1 <? 0 then "-" else "+")
             +:+ (if Z.abs (decpt - 1) <? 10 then "0" else "")
             +:+ pretty (Z.abs (decpt - 1))
           else if decpt <=? 0 then "0." +:+ zeros (- decpt) +:+ digits
           else if len <=? decpt then digits +:+ zeros (decpt - len) +:+ ".0"
           else String.substring 0 (Z.to_nat decpt) digits +:+ "."
                +:+ String.substring (Z.to_nat decpt)
                      (String.length digits - Z.to_nat decpt) digits)
  end.

End Binary64.

(** ** A concrete archive *)

Module Archive.

(** The [float]s of CPython: binary64. *)
Definition binary64 : PyFloat :=
  {| Float := float;
     truediv := Binary64.truediv;
     round := Binary64.round;
     str_float := Binary64.repr |}.

Definition kwargs : AO3.Search unit :=
  {| AO3.fandoms := ""; AO3.single_chapter := false; AO3.word_count := None;
     AO3.language := ""; AO3.hits := None; AO3.bookmarks := None; AO3.comments := None;
     AO3.crossover := None; AO3.completion_status := None; AO3.revised_at := "";
     AO3.q_relationships := ""; AO3.q_characters := ""; AO3.q_tags := "";
     AO3.session := None; AO3.rating := None; AO3.warnings := None;
     AO3.sort_column := ""; AO3.sort_direction := ""; AO3.page := 1 |}.

(** An archive that holds [works] and serves them twenty a page; the
    fetch of page [down] fails. *)
Definition serve (works : list AO3.Work) (down : Z) : AO3.Lib :=
  {| AO3.Session := unit;
     AO3.World := unit;
     AO3.defaults := kwargs;
     AO3.update := fun q w =>
       if AO3.page q =? down then (inl (CollaboratorError "503"), w)
       else (inr {| AO3.total_results := Z.of_nat (length works);
                    AO3.results := take 20 (drop (20 * Z.to_nat (AO3.page q - 1)) works) |},
             w) |}.

Definition start (works : list AO3.Work) (down : Z) (h : gmap loc (gmap string Z))
    : @Env (serve works down) :=
  {| world := tt : @AO3.World (serve works down); trace := []; heap := h |}.

Definition work1 : AO3.Work :=
  {| AO3.tags := ["fluff"; "angst"]; AO3.relationships := ["a/b"];
     AO3.characters := ["a"; "b"] |}.

Definition fandom (works : list AO3.Work) (down : Z) (total : Z)
    : @FandomPy.Fandom (serve works down) :=
  {| FandomPy.fandomName := "x"; FandomPy.singleChapter := false;
     FandomPy.language := ""; FandomPy.crossover := None;
     FandomPy.completionStatus := None; FandomPy.revisedAt := "";
     FandomPy.session := None; FandomPy.characters := "";
     FandomPy.relationships := ""; FandomPy.tags := "";
     FandomPy.wordCountConstraint := None; FandomPy.hitConstraint := None;
     FandomPy.bookmarkConstraint := None; FandomPy.commentConstraint := None;
     FandomPy.totalWorks := total |}.

Definition old_fandom (works : list AO3.Work) (down : Z) (total : Z)
    : @AO3Analyzer.Fandom (serve works down) :=
  {| AO3Analyzer.fandomName := "x"; AO3Analyzer.singleChapter := false;
     AO3Analyzer.language := ""; AO3Analyzer.crossover := None;
     AO3Analyzer.completionStatus := None; AO3Analyzer.revisedAt := "";
     AO3Analyzer.session := None;
     AO3Analyzer.wordCountConstraint := None; AO3Analyzer.hitConstraint := None;
     AO3Analyzer.bookmarkConstraint := None; AO3Analyzer.commentConstraint := None;
     AO3Analyzer.totalWorks := total |}.

(** An archive that knows its works by their rating only: a search
    restricted to the rating [r] finds [counts r] works, an unrestricted
    one [total]; no page holds a work. *)
Definition rated (counts : Z -> Z) (total : Z) : AO3.Lib :=
  {| AO3.Session := unit;
     AO3.World := unit;
     AO3.defaults := kwargs;
     AO3.update := fun q w =>
       (inr {| AO3.total_results := match AO3.rating q with
                                    | Some r => counts r
                                    | None => total
                                    end;
               AO3.results := [] |}, w) |}.

(** Seven works: one not rated, two for general audiences, none for teens,
    three mature and one explicit. *)
Definition shelf (r : Z) : Z :=
  if r =? 9 then 1 else if r =? 10 then 2 else if r =? 12 then 3
  else if r =? 13 then 1 else 0.

Definition rated_start : @Env (rated shelf 7) :=
  {| world := tt : @AO3.World (rated shelf 7); trace := []; heap := ∅ |}.

(** The fandom of all English works of [shelf] that are complete. *)
Definition rated_fandom : @FandomPy.Fandom (rated shelf 7) :=
  {| FandomPy.fandomName := "x"; FandomPy.singleChapter := false;
     FandomPy.language := "en"; FandomPy.crossover := None;
     FandomPy.completionStatus := Some true; FandomPy.revisedAt := "";
     FandomPy.session := None; FandomPy.characters := "";
     FandomPy.relationships := ""; FandomPy.tags := "";
     FandomPy.wordCountConstraint := None; FandomPy.hitConstraint := None;
     FandomPy.bookmarkConstraint := None; FandomPy.commentConstraint := None;
     FandomPy.totalWorks := 7 |}.

(** The search for the works of [rated_fandom] that are rated [r], written
    out argument by argument. *)
Definition rated_search (r : Z) : AO3.Search unit :=
  {| AO3.fandoms := "x"; AO3.single_chapter := false; AO3.word_count := None;
     AO3.language := "en"; AO3.hits := None; AO3.bookmarks := None; AO3.comments := None;
     AO3.crossover := None; AO3.completion_status := Some true; AO3.revised_at := "";
     AO3.q_relationships := ""; AO3.q_characters := ""; AO3.q_tags := "";
     AO3.session := None; AO3.rating := Some r; AO3.warnings := None;
     AO3.sort_column := ""; AO3.sort_direction := ""; AO3.page := 1 |}.

(** The page [p] of [works], twenty works a page. *)
Definition page_of (works : list AO3.Work) (p : Z) : list AO3.Work :=
  take 20 (drop (20 * Z.to_nat (p - 1)) works).

End Archive.

(** ** Vocabulary of the further properties *)

Section Reports.
Context `{F : PyFloat} `{L : AO3.Lib}.

(** The client answers the fetches [qs], one after the other from the world
    [w], with [us], and leaves the world [w']. *)
Fixpoint answers (w : AO3.World) (qs : list (AO3.Search AO3.Session))
    (us : list AO3.Updated) (w' : AO3.World) : Prop :=
  match qs, us with
  | [], [] => w' = w
  | q :: qs, u :: us => exists w1, AO3.update q w = (inr u, w1) /\ answers w1 qs us w'
  | _, _ => False
  end.

(** The state after the fetches [qs] were answered with [us]. *)
Definition after_fetches (env : Env) (qs : list (AO3.Search AO3.Session))
    (us : list AO3.Updated) (w' : AO3.World) : Env :=
  {| world := w'; trace := trace env ++ zip qs (map inr us); heap := heap env |}.

(** The line of a report for one bucket: the label, the count and the
    percentage rounded to two digits. *)
Definition report_line (label : string) (u : AO3.Updated) (x : Float) : string :=
  label +:+ pretty (AO3.total_results u) +:+ " fics, " +:+ str_float (round x 2)
        +:+ " percent of the fandom." +:+ nl.

Fixpoint report_lines (labels : list string) (us : list AO3.Updated) (xs : list Float)
    : list string :=
  match labels, us, xs with
  | label :: labels, u :: us, x :: xs => report_line label u x :: report_lines labels us xs
  | _, _, _ => []
  end.

(** [xs] are the quotients [100 * count / total] of the counts of [us]. *)
Definition quotients (total : Z) (us : list AO3.Updated) (xs : list Float) : Prop :=
  Forall2 (fun u x => truediv (100 * AO3.total_results u) total = Some x) us xs.

(** The body that the loops of the three methods that return a report
    share: the fetch of [q], the percentage, and the line appended to the
    entry [index] of [results]. *)
Definition report_step (total : Z) (index : nat) (q : AO3.Search AO3.Session)
    (results : list string) : M (list string) :=
  let! searchResults := Search_update q in
  let! quotient := py_truediv (100 * AO3.total_results searchResults) total in
  let percentage := round quotient 2 in
  let! old := list_get results index in
  list_set results index
    (old +:+ pretty (AO3.total_results searchResults) +:+ " fics, "
         +:+ str_float percentage +:+ " percent of the fandom." +:+ nl).

End Reports.

Section Quiet.
Context `{L : AO3.Lib}.

(** A computation that neither fetches nor touches the store. *)
Definition pure_op {A} (c : M A) : Prop :=
  exists o, forall env, c env = (o, env).

(** [evs] are fetches of the first queries of [qs], in their order. *)
Definition first_fetches_of (qs : list (AO3.Search AO3.Session)) (evs : list Event) : Prop :=
  map fst evs = take (length evs) qs.

End Quiet.

Section Targets.
Context `{L : AO3.Lib}.

(** The number of works a run of [attributeCounter] is to cover: the sample
    size, or else the total that its first fetch reported. *)
Definition target_of (sampleSize : option Z) (evs : list Event) : option Z :=
  match sampleSize with
  | Some t => Some t
  | None =>
      match evs with
      | (_, inr u) :: _ => Some (AO3.total_results u)
      | _ => None
      end
  end.

(** The condition under which a work is counted without error: a caller's
    dictionary has tables only for selected kinds; the one that
    [attributeCounter] creates itself always has. *)
Definition tables_fit (type : string) (tagCount : option (gmap string loc)) : Prop :=
  match tagCount with
  | Some tc => tables_selected type tc
  | None => True
  end.

(** The client answers every fetch of a page from [first] on, and the page
    [p] always holds the works [pages p]. *)
Definition serves_pages (pages : Z -> list AO3.Work) (first : Z) : Prop :=
  forall q w, first <= AO3.page q ->
    exists u w', AO3.update q w = (inr u, w') /\ AO3.results u = pages (AO3.page q).

(** The works on the pages from [first] up to, and without, [last]. *)
Definition works_on (pages : Z -> list AO3.Work) (first last : Z) : list AO3.Work :=
  concat (map pages (seqZ first (last - first))).

End Targets.

(** An archive without end that answers every fetch with a page of [size]
    copies of one work. *)
Definition endless (size : nat) : AO3.Lib :=
  {| AO3.Session := unit;
     AO3.World := unit;
     AO3.defaults := Archive.kwargs;
     AO3.update := fun q w =>
       (inr {| AO3.total_results := 1000;
               AO3.results := replicate size Archive.work1 |}, w) |}.

Definition endless_fandom (size : nat) : @FandomPy.Fandom (endless size) :=
  {| FandomPy.fandomName := "x"; FandomPy.singleChapter := false;
     FandomPy.language := ""; FandomPy.crossover := None;
     FandomPy.completionStatus := None; FandomPy.revisedAt := "";
     FandomPy.session := None; FandomPy.characters := "";
     FandomPy.relationships := ""; FandomPy.tags := "";
     FandomPy.wordCountConstraint := None; FandomPy.hitConstraint := None;
     FandomPy.bookmarkConstraint := None; FandomPy.commentConstraint := None;
     FandomPy.totalWorks := 1000 |}.

Definition endless_old_fandom (size : nat) : @AO3Analyzer.Fandom (endless size) :=
  {| AO3Analyzer.fandomName := "x"; AO3Analyzer.singleChapter := false;
     AO3Analyzer.language := ""; AO3Analyzer.crossover := None;
     AO3Analyzer.completionStatus := None; AO3Analyzer.revisedAt := "";
     AO3Analyzer.session := None;
     AO3Analyzer.wordCountConstraint := None; AO3Analyzer.hitConstraint := None;
     AO3Analyzer.bookmarkConstraint := None; AO3Analyzer.commentConstraint := None;
     AO3Analyzer.totalWorks := 1000 |}.

Definition endless_start (size : nat) : @Env (endless size) :=
  {| world := tt : @AO3.World (endless size); trace := []; heap := ∅ |}.

Section Frames.
Context `{L : AO3.Lib}.

(** A computation that leaves the table at [l] as it is, whatever its
    outcome. *)
Definition keeps (l : loc) {A} (c : M A) : Prop :=
  forall env, heap (snd (c env)) !! l = heap env !! l.

(** [l] is none of the tables that [tagCount] has for the three kinds. *)
Definition not_a_table (tagCount : gmap string loc) (l : loc) : Prop :=
  forall kind, is_kind kind = true -> tagCount !! kind <> Some l.

(** The list that the type selector of [AO3_analyzer.py] selects. *)
Definition old_list (type : string) (w : AO3.Work) : list string :=
  if bool_decide (type = "relationships") then AO3.relationships w
  else if bool_decide (type = "characters") then AO3.characters w
  else AO3.tags w.

(** Every fetch of [evs] was made while the works consumed before it, added
    to [n], were at most [total]. *)
Definition fetched_while_at_most (n total : Z) (evs : list Event) : Prop :=
  forall evs1 ev evs2, evs = evs1 ++ ev :: evs2 ->
    n + Z.of_nat (length (consumed evs1)) <= total.

(** The entry of [k] after [n] more occurrences were counted into a table
    that held [before] for it. *)
Definition added_entry (before : option Z) (n : Z) : option Z :=
  if n =? 0 then before else Some (default 0 before + n).

End Frames.

(** ** Running the monad *)

Lemma Search_update_eq `{L : AO3.Lib} (q : AO3.Search AO3.Session) (env : Env) :
  Search_update q env =
    (match fst (AO3.update q (world env)) with
     | inl e => Raise e
     | inr u => Return u
     end,
     after_fetch env q (fst (AO3.update q (world env))) (snd (AO3.update q (world env)))).
Proof.
  unfold Search_update, after_fetch.
  destruct (AO3.update q (world env)) as [[e | u] w']; reflexivity.
Qed.

Lemma bind_Return `{L : AO3.Lib} {A B} (c : M A) (k : A -> M B) env a env' :
  c env = (Return a, env') -> bind c k env = k a env'.
Proof. intros H. unfold bind. rewrite H. reflexivity. Qed.

(** ** The constructor *)

Lemma constraint_policy_inline (minimum maximum : option Z) :
  (if is_not_None minimum || is_not_None maximum then
     match minimum with
     | Some mn => Some (AO3.Build_Constraint mn maximum)
     | None => Some (AO3.Build_Constraint 0 maximum)
     end
   else None) = constraint_policy minimum maximum.
Proof. destruct minimum, maximum; reflexivity. Qed.

(** C4.  In both files the constructor builds, for word count, hits,
    bookmarks and comments, no constraint when both bounds are unset, the
    interval [[0, max]] for a maximum without a minimum and [[min, unset]]
    for a minimum without a maximum.  The constructor returns whenever the
    client answers its one fetch, the object holds these constraints and the
    fetch was filtered by them. *)
Theorem constructor_builds_constraints `{L : AO3.Lib} :
  (constraint_policy None None = None
   /\ (forall mx, constraint_policy None (Some mx)
                  = Some {| AO3.c_min := 0; AO3.c_max := Some mx |})
   /\ (forall mn, constraint_policy (Some mn) None
                  = Some {| AO3.c_min := mn; AO3.c_max := None |}))
  /\ (forall fandomName session singleChapter wordCountMin wordCountMax language
        minHits maxHits minBookmarks maxBookmarks minComments maxComments
        crossover completionStatus revisedAt characters relationships tags env,
      match FandomPy.__init__ fandomName session singleChapter wordCountMin wordCountMax
              language minHits maxHits minBookmarks maxBookmarks minComments maxComments
              crossover completionStatus revisedAt characters relationships tags env with
      | (Return self, env') =>
          FandomPy.wordCountConstraint self = constraint_policy wordCountMin wordCountMax
          /\ FandomPy.hitConstraint self = constraint_policy minHits maxHits
          /\ FandomPy.bookmarkConstraint self = constraint_policy minBookmarks maxBookmarks
          /\ FandomPy.commentConstraint self = constraint_policy minComments maxComments
          /\ exists q u, trace env' = trace env ++ [(q, inr u)]
                         /\ AO3.word_count q = FandomPy.wordCountConstraint self
                         /\ AO3.hits q = FandomPy.hitConstraint self
                         /\ AO3.bookmarks q = FandomPy.bookmarkConstraint self
                         /\ AO3.comments q = FandomPy.commentConstraint self
      | (Raise e, env') => exists q, fst (AO3.update q (world env)) = inl e
      | (OutOfFuel, env') => False
      end)
  /\ (forall fandomName session singleChapter wordCountMin wordCountMax language
        minHits maxHits minBookmarks maxBookmarks minComments maxComments
        crossover completionStatus revisedAt env,
      match AO3Analyzer.__init__ fandomName session singleChapter wordCountMin wordCountMax
              language minHits maxHits minBookmarks maxBookmarks minComments maxComments
              crossover completionStatus revisedAt env with
      | (Return self, env') =>
          AO3Analyzer.wordCountConstraint self = constraint_policy wordCountMin wordCountMax
          /\ AO3Analyzer.hitConstraint self = constraint_policy minHits maxHits
          /\ AO3Analyzer.bookmarkConstraint self = constraint_policy minBookmarks maxBookmarks
          /\ AO3Analyzer.commentConstraint self = constraint_policy minComments maxComments
          /\ exists q u, trace env' = trace env ++ [(q, inr u)]
                         /\ AO3.word_count q = AO3Analyzer.wordCountConstraint self
                         /\ AO3.hits q = AO3Analyzer.hitConstraint self
                         /\ AO3.bookmarks q = AO3Analyzer.bookmarkConstraint self
                         /\ AO3.comments q = AO3Analyzer.commentConstraint self
      | (Raise e, env') => exists q, fst (AO3.update q (world env)) = inl e
      | (OutOfFuel, env') => False
      end).
Proof.
  split; [repeat split; reflexivity |].
  split; intros.
  - unfold FandomPy.__init__, bind. rewrite !constraint_policy_inline.
    rewrite Search_update_eq.
    match goal with |- context [AO3.update ?q ?w] =>
      destruct (AO3.update q w) as [[e | u] w'] eqn:Hu; simpl end.
    + eexists. rewrite Hu. reflexivity.
    + repeat split. eexists _, u. repeat split.
  - unfold AO3Analyzer.__init__, bind. rewrite !constraint_policy_inline.
    rewrite Search_update_eq.
    match goal with |- context [AO3.update ?q ?w] =>
      destruct (AO3.update q w) as [[e | u] w'] eqn:Hu; simpl end.
    + eexists. rewrite Hu. reflexivity.
    + repeat split. eexists _, u. repeat split.
Qed.

(** ** Composition reports on an empty fandom *)

Ltac first_bucket H0 :=
  simpl for_in; unfold bind; rewrite Search_update_eq; unfold first_fetch_or_division;
  change (0 + 9) with 9; change (Z.of_nat 0 + 9) with 9;
  match goal with
  | |- context [fst (AO3.update ?q ?w)] => destruct (fst (AO3.update q w))
  end; [reflexivity | rewrite H0; reflexivity].

(** C1, as the code has it.  Neither file checks for an empty fandom: with
    [totalWorks = 0] every composition method performs its first bucket
    fetch and then raises the uncaught [ZeroDivisionError] of the
    percentage (or the client's own error when that fetch fails); nothing is
    returned and no later bucket is fetched. *)
Theorem zero_total_raises_ZeroDivisionError `{F : PyFloat} `{L : AO3.Lib} :
  (forall (self : FandomPy.Fandom) env,
      FandomPy.totalWorks self = 0 ->
      FandomPy.getRatingComposition self env
      = first_fetch_or_division (FandomPy.search self (Some 9) None None "" "" 1) env)
  /\ (forall (self : FandomPy.Fandom) ratingRestriction env,
      FandomPy.totalWorks self = 0 ->
      FandomPy.getWarningComposition self ratingRestriction env
      = first_fetch_or_division
          (FandomPy.search self ratingRestriction (Some [14]) None "" "" 1) env)
  /\ (forall (self : AO3Analyzer.Fandom) env,
      AO3Analyzer.totalWorks self = 0 ->
      AO3Analyzer.getRatingComposition self env
      = first_fetch_or_division
          (AO3Analyzer.Search_of self (Some 9) (AO3.warnings AO3.defaults)
             (AO3.sort_column AO3.defaults) (AO3.sort_direction AO3.defaults)
             (AO3.page AO3.defaults)) env)
  /\ (forall (self : AO3Analyzer.Fandom) ratingRestriction env,
      AO3Analyzer.totalWorks self = 0 ->
      AO3Analyzer.getWarningComposition self ratingRestriction env
      = first_fetch_or_division
          (AO3Analyzer.Search_of self ratingRestriction (Some [14])
             (AO3.sort_column AO3.defaults) (AO3.sort_direction AO3.defaults)
             (AO3.page AO3.defaults)) env).
Proof.
  repeat split; intros self.
  - intros env H0. unfold FandomPy.getRatingComposition. first_bucket H0.
  - intros rr env H0. unfold FandomPy.getWarningComposition. first_bucket H0.
  - intros env H0. unfold AO3Analyzer.getRatingComposition. first_bucket H0.
  - intros rr env H0. unfold AO3Analyzer.getWarningComposition. first_bucket H0.
Qed.

(** The theorem on an archive without works. *)
Lemma zero_total_raises_witness :
  @FandomPy.getRatingComposition Archive.binary64 (Archive.serve [] 0)
    (Archive.fandom [] 0 0) (Archive.start [] 0 ∅)
  = first_fetch_or_division
      (FandomPy.search (Archive.fandom [] 0 0) (Some 9) None None "" "" 1)
      (Archive.start [] 0 ∅).
Proof.
  apply (proj1 (@zero_total_raises_ZeroDivisionError Archive.binary64 (Archive.serve [] 0))).
  reflexivity.
Defined.

(** C1 as the claim states it does not hold: on an archive without works,
    and a fandom whose total is therefore zero, both composition methods
    of [fandom.py] end in the uncaught [ZeroDivisionError] itself, not in a
    report of the empty fandom. *)
Lemma zero_total_is_an_uncaught_fault :
  FandomPy.totalWorks (Archive.fandom [] 0 0) = 0
  /\ fst (@FandomPy.getRatingComposition Archive.binary64 (Archive.serve [] 0)
            (Archive.fandom [] 0 0) (Archive.start [] 0 ∅))
     = Raise ZeroDivisionError
  /\ fst (@FandomPy.getWarningComposition Archive.binary64 (Archive.serve [] 0)
            (Archive.fandom [] 0 0) None (Archive.start [] 0 ∅))
     = Raise ZeroDivisionError.
Proof. repeat split. Qed.

(** ** The misspelled total of AO3_analyzer.py *)

(** C10.  In [AO3_analyzer.py], [attributeCounter] without a sample size
    never succeeds, whatever the fuel: it performs the one fetch that asks
    for the total, and then either propagates the client's error or raises
    [UnboundLocalError] on reading [totalWorkCount], which was never
    assigned.  No page is fetched and no work is consumed. *)
Theorem old_attributeCounter_without_sampleSize_fails `{L : AO3.Lib} :
  forall fuel (self : AO3Analyzer.Fandom) type rating warnings sortColumn sortDirection env,
    let q := AO3Analyzer.Search_of self rating warnings (AO3.sort_column AO3.defaults)
               (AO3.sort_direction AO3.defaults) (AO3.page AO3.defaults) in
    let r := fst (AO3.update q (world env)) in
    AO3Analyzer.attributeCounter fuel self type rating warnings None sortColumn sortDirection env
    = (Raise (match r with
              | inl e => e
              | inr _ => UnboundLocalError "totalWorkCount"
              end),
       after_fetch env q r (snd (AO3.update q (world env)))).
Proof.
  intros. unfold AO3Analyzer.attributeCounter, bind. rewrite Search_update_eq.
  subst r q. destruct (fst (AO3.update _ (world env))); [reflexivity |].
  destruct fuel; reflexivity.
Qed.

(** ** Counting into one table *)

Lemma occurrences_nonneg (k : string) (items : list string) : 0 <= occurrences k items.
Proof. induction items as [| item rest IH]; simpl; [lia |]. case_bool_decide; lia. Qed.

Lemma counter_items_cons (d : gmap string Z) (item : string) (rest : list string) :
  FandomPy.counter_items d (item :: rest)
  = FandomPy.counter_items (<[item := default 0 (d !! item) + 1]> d) rest.
Proof.
  simpl. unfold setdefault. destruct (d !! item) as [v |]; simpl; [reflexivity |].
  rewrite insert_insert_eq. reflexivity.
Qed.

Lemma counter_items_app (d : gmap string Z) (xs ys : list string) :
  FandomPy.counter_items d (xs ++ ys)
  = FandomPy.counter_items (FandomPy.counter_items d xs) ys.
Proof.
  revert d. induction xs as [| x xs IH]; intros d; [reflexivity |].
  rewrite <- app_comm_cons, !counter_items_cons. apply IH.
Qed.

Lemma counter_items_lookup (items : list string) (d : gmap string Z) (k : string) :
  FandomPy.counter_items d items !! k
  = if occurrences k items =? 0 then d !! k
    else Some (default 0 (d !! k) + occurrences k items).
Proof.
  revert d. induction items as [| item rest IH]; intros d; [reflexivity |].
  rewrite counter_items_cons, IH. simpl occurrences.
  pose proof (occurrences_nonneg k rest) as Hge.
  case_bool_decide as Hk.
  - subst item. rewrite lookup_insert_eq. simpl.
    destruct (Z.eqb_spec (occurrences k rest) 0) as [H0 | H0];
      destruct (Z.eqb_spec (1 + occurrences k rest) 0); try lia; f_equal; lia.
  - rewrite lookup_insert_ne by done. rewrite Z.add_0_l. reflexivity.
Qed.

Lemma attribute_loop_counter_items (items : list string) (d : gmap string Z) :
  AO3Analyzer.attribute_loop d items = FandomPy.counter_items d items.
Proof.
  revert d. induction items as [| item rest IH]; intros d; [reflexivity |].
  simpl. destruct (setdefault d item 0). apply IH.
Qed.

Lemma counter_items_grows (items : list string) (d : gmap string Z) (k : string) (v : Z) :
  d !! k = Some v ->
  FandomPy.counter_items d items !! k = Some (v + occurrences k items).
Proof.
  intros Hk. rewrite counter_items_lookup, Hk. simpl.
  destruct (Z.eqb_spec (occurrences k items) 0) as [-> |]; f_equal; lia.
Qed.

Lemma counter_items_fresh (items : list string) (k : string) :
  FandomPy.counter_items ∅ items !! k = count_entry (occurrences k items).
Proof.
  rewrite counter_items_lookup, lookup_empty. unfold count_entry. simpl.
  destruct (occurrences k items =? 0); reflexivity.
Qed.

(** ** Tables only grow *)

Section Growth.
Context `{L : AO3.Lib}.

Lemma tables_grow_refl (h : gmap loc (gmap string Z)) : tables_grow h h.
Proof. intros l t k v Hl Hk. exists t, v. repeat split; [done | done | lia]. Qed.

Lemma tables_grow_trans (h1 h2 h3 : gmap loc (gmap string Z)) :
  tables_grow h1 h2 -> tables_grow h2 h3 -> tables_grow h1 h3.
Proof.
  intros H12 H23 l t k v Hl Hk.
  destruct (H12 l t k v Hl Hk) as (t2 & v2 & Hl2 & Hk2 & Hle).
  destruct (H23 l t2 k v2 Hl2 Hk2) as (t3 & v3 & Hl3 & Hk3 & Hle3).
  exists t3, v3. repeat split; [done | done | lia].
Qed.

Lemma tables_grow_alter (h : gmap loc (gmap string Z)) (d : loc) (items : list string) :
  tables_grow h (alter (fun t => FandomPy.counter_items t items) d h).
Proof.
  intros l t k v Hl Hk. destruct (decide (d = l)) as [-> | Hne].
  - exists (FandomPy.counter_items t items), (v + occurrences k items).
    rewrite lookup_alter_eq, Hl. simpl.
    pose proof (occurrences_nonneg k items).
    repeat split; [by apply counter_items_grows | lia].
  - exists t, v. rewrite lookup_alter_ne by done. repeat split; [done | done | lia].
Qed.

Lemma tables_grow_fresh (h : gmap loc (gmap string Z)) (t0 : gmap string Z) :
  tables_grow h (<[fresh (dom h) := t0]> h).
Proof.
  intros l t k v Hl Hk. exists t, v. repeat split; [| done | lia].
  rewrite lookup_insert_ne; [done |]. intros <-.
  apply (is_fresh (dom h)). apply elem_of_dom. eauto.
Qed.

Lemma grows_ret {A} (a : A) : grows (ret a).
Proof. intros env. apply tables_grow_refl. Qed.

Lemma grows_raise {A} (e : PyExn) : grows (raise e : M A).
Proof. intros env. apply tables_grow_refl. Qed.

Lemma grows_out_of_fuel {A} : grows (out_of_fuel : M A).
Proof. intros env. apply tables_grow_refl. Qed.

Lemma grows_bind {A B} (c : M A) (k : A -> M B) :
  grows c -> (forall a, grows (k a)) -> grows (bind c k).
Proof.
  intros Hc Hk env. unfold bind. specialize (Hc env).
  destruct (c env) as [[a | e |] env1]; simpl in *; [| done | done].
  eapply tables_grow_trans; [exact Hc | apply Hk].
Qed.

Lemma grows_Search_update (q : AO3.Search AO3.Session) : grows (Search_update q).
Proof.
  intros env. rewrite Search_update_eq. simpl. apply tables_grow_refl.
Qed.

Lemma grows_new_dict : grows new_dict.
Proof. intros env. simpl. apply tables_grow_fresh. Qed.

Lemma grows_sleep (secs : Z) : grows (sleep secs).
Proof. unfold sleep. destruct (secs <? 0); [apply grows_raise | apply grows_ret]. Qed.

Lemma grows_counter (d : loc) (itemList : option (list string)) :
  grows (FandomPy.counter d itemList).
Proof.
  destruct itemList as [items |]; [| apply grows_raise].
  intros env. simpl. apply tables_grow_alter.
Qed.

Lemma grows_for_in {A S} (xs : list A) (body : A -> S -> M S) (s : S) :
  (forall x s, grows (body x s)) -> grows (for_in xs body s).
Proof.
  intros Hbody. revert s. induction xs as [| x xs IH]; intros s; simpl.
  - apply grows_ret.
  - apply grows_bind; [apply Hbody | exact IH].
Qed.

Lemma grows_count_work (type : string) (tagCount : gmap string loc) (w : AO3.Work)
    (st : FandomPy.Lists * Z) :
  grows (FandomPy.count_work type tagCount w st).
Proof.
  destruct st as [vars n]. unfold FandomPy.count_work.
  repeat (apply grows_bind; [| intros ?]);
    try (destruct (tagCount !! _); [apply grows_counter | apply grows_ret]).
  apply grows_ret.
Qed.

Lemma grows_page_loop fuel self type rating warnings sortColumn sortDirection waitTime
    tagCount totalWorkCount vars ficsCounted pageNumber :
  grows (FandomPy.page_loop fuel self type rating warnings sortColumn sortDirection
           waitTime tagCount totalWorkCount vars ficsCounted pageNumber).
Proof.
  revert vars ficsCounted pageNumber.
  induction fuel as [| fuel IH]; intros vars ficsCounted pageNumber; simpl;
    destruct (ficsCounted <? totalWorkCount); try apply grows_ret.
  - apply grows_out_of_fuel.
  - apply grows_bind; [apply grows_Search_update | intros currentPage].
    apply grows_bind; [apply grows_for_in; intros; apply grows_count_work |].
    intros [vars' n']. apply grows_bind; [apply grows_sleep | intros _; apply IH].
Qed.

Lemma grows_attributeCounter fuel self type rating warnings sampleSize sortColumn
    sortDirection startPage waitTime tagCount :
  grows (FandomPy.attributeCounter fuel self type rating warnings sampleSize sortColumn
           sortDirection startPage waitTime tagCount).
Proof.
  unfold FandomPy.attributeCounter.
  apply grows_bind.
  { destruct tagCount; [apply grows_ret |].
    destruct (_ || _).
    - apply grows_bind; [apply grows_new_dict | intros; apply grows_ret].
    - repeat (apply grows_bind; [apply grows_new_dict | intros ?]). apply grows_ret. }
  intros tc. apply grows_bind.
  { destruct sampleSize; [apply grows_ret |].
    apply grows_bind; [apply grows_Search_update | intros; apply grows_ret]. }
  intros total. apply grows_bind; [apply grows_page_loop | intros; apply grows_ret].
Qed.

End Growth.

(** ** One page of works *)

Lemma selected_other (type kind : string) :
  type <> "relationships" -> type <> "characters" -> type <> "tags" ->
  selected type kind = is_kind kind.
Proof.
  intros Hr Hc Ht. unfold selected, is_kind at 2.
  rewrite (bool_decide_eq_false_2 (type = "tags")) by done.
  rewrite (bool_decide_eq_false_2 (type = "relationships")) by done.
  rewrite (bool_decide_eq_false_2 (type = "characters")) by done.
  simpl. rewrite orb_true_r, andb_true_r. reflexivity.
Qed.

Ltac type_cases ty :=
  destruct (decide (ty = "relationships")) as [-> | ?Hr];
  [ | destruct (decide (ty = "characters")) as [-> | ?Hc];
      [ | destruct (decide (ty = "tags")) as [-> | ?Ht] ] ].

Section OnePage.
Context `{L : AO3.Lib}.
Variable type : string.
Variable tagCount : gmap string loc.

Lemma count_work_spec (w : AO3.Work) (vars : FandomPy.Lists) (n : Z) (env : Env) :
  unassigned_unless_selected type vars ->
  world (snd (FandomPy.count_work type tagCount w (vars, n) env)) = world env
  /\ trace (snd (FandomPy.count_work type tagCount w (vars, n) env)) = trace env
  /\ match fst (FandomPy.count_work type tagCount w (vars, n) env) with
     | Return (vars', n') =>
         unassigned_unless_selected type vars' /\ n' = n + 1
         /\ heap (snd (FandomPy.count_work type tagCount w (vars, n) env))
            = heap_after_work tagCount (heap env) w
         /\ FandomPy.relationshipList vars'
            = (if selected type "relationships" then Some (AO3.relationships w) else None)
         /\ FandomPy.characterList vars'
            = (if selected type "characters" then Some (AO3.characters w) else None)
         /\ FandomPy.tagList vars'
            = (if selected type "tags" then Some (AO3.tags w) else None)
     | Raise e => e = TypeError /\ ~ tables_selected type tagCount
     | OutOfFuel => False
     end.
Proof.
  intros (Hrl & Hcl & Htl). destruct vars as [rl cl tl]. simpl in Hrl, Hcl, Htl.
  unfold FandomPy.count_work, heap_after_work, count_into, unassigned_unless_selected.
  type_cases type.
  - rewrite Hcl, Htl by reflexivity.
    destruct (tagCount !! "relationships") as [dr |] eqn:Er;
      destruct (tagCount !! "characters") as [dc |] eqn:Ec;
      destruct (tagCount !! "tags") as [dt |] eqn:Et; simpl;
      repeat split; try done;
      intros Hsel;
      first [ specialize (Hsel "characters" eq_refl); rewrite Ec in Hsel;
              specialize (Hsel (mk_is_Some _ _ eq_refl)); discriminate
            | specialize (Hsel "tags" eq_refl); rewrite Et in Hsel;
              specialize (Hsel (mk_is_Some _ _ eq_refl)); discriminate ].
  - rewrite Hrl, Htl by reflexivity.
    destruct (tagCount !! "relationships") as [dr |] eqn:Er;
      destruct (tagCount !! "characters") as [dc |] eqn:Ec;
      destruct (tagCount !! "tags") as [dt |] eqn:Et; simpl;
      repeat split; try done;
      intros Hsel;
      first [ specialize (Hsel "relationships" eq_refl); rewrite Er in Hsel;
              specialize (Hsel (mk_is_Some _ _ eq_refl)); discriminate
            | specialize (Hsel "tags" eq_refl); rewrite Et in Hsel;
              specialize (Hsel (mk_is_Some _ _ eq_refl)); discriminate ].
  - rewrite Hrl, Hcl by reflexivity.
    destruct (tagCount !! "relationships") as [dr |] eqn:Er;
      destruct (tagCount !! "characters") as [dc |] eqn:Ec;
      destruct (tagCount !! "tags") as [dt |] eqn:Et; simpl;
      repeat split; try done;
      intros Hsel;
      first [ specialize (Hsel "relationships" eq_refl); rewrite Er in Hsel;
              specialize (Hsel (mk_is_Some _ _ eq_refl)); discriminate
            | specialize (Hsel "characters" eq_refl); rewrite Ec in Hsel;
              specialize (Hsel (mk_is_Some _ _ eq_refl)); discriminate ].
  - rewrite (bool_decide_eq_false_2 (type = "relationships")) by done.
    rewrite (bool_decide_eq_false_2 (type = "characters")) by done.
    rewrite (bool_decide_eq_false_2 (type = "tags")) by done.
    rewrite !selected_other by done.
    destruct (tagCount !! "relationships") as [dr |] eqn:Er;
      destruct (tagCount !! "characters") as [dc |] eqn:Ec;
      destruct (tagCount !! "tags") as [dt |] eqn:Et; simpl;
      repeat split; done.
Qed.

Lemma count_page_spec (ws : list AO3.Work) (vars : FandomPy.Lists) (n : Z) (env : Env) :
  unassigned_unless_selected type vars ->
  world (snd (for_in ws (FandomPy.count_work type tagCount) (vars, n) env)) = world env
  /\ trace (snd (for_in ws (FandomPy.count_work type tagCount) (vars, n) env)) = trace env
  /\ match fst (for_in ws (FandomPy.count_work type tagCount) (vars, n) env) with
     | Return (vars', n') =>
         unassigned_unless_selected type vars' /\ n' = n + Z.of_nat (length ws)
         /\ heap (snd (for_in ws (FandomPy.count_work type tagCount) (vars, n) env))
            = heap_after_works tagCount ws (heap env)
     | Raise e => e = TypeError /\ ~ tables_selected type tagCount
     | OutOfFuel => False
     end.
Proof.
  revert vars n env. induction ws as [| w ws IH]; intros vars n env Hinv.
  - simpl. split; [done |]. split; [done |]. split; [done |]. split; [lia | done].
  - cbn [for_in]. unfold bind.
    pose proof (count_work_spec w vars n env Hinv) as (Hw & Ht & Hout).
    destruct (FandomPy.count_work type tagCount w (vars, n) env)
      as [[[vars1 n1] | e |] env1]; simpl in Hw, Ht, Hout; [| done | done].
    destruct Hout as (Hinv1 & -> & Hheap & _).
    pose proof (IH vars1 (n + 1) env1 Hinv1) as (Hw' & Ht' & Hout').
    rewrite Hw', Ht', Hw, Ht. split; [done |]. split; [done |].
    destruct (for_in ws (FandomPy.count_work type tagCount) (vars1, n + 1) env1)
      as [[[vars2 n2] | e |] env2]; simpl in *; [| done | done].
    destruct Hout' as (Hinv2 & -> & Hheap2). split; [done |]. split; [lia |].
    rewrite Hheap2, Hheap. reflexivity.
Qed.

(** When every table is for a selected kind the page is counted through. *)
Lemma count_page_selected (ws : list AO3.Work) (vars : FandomPy.Lists) (n : Z) (env : Env) :
  unassigned_unless_selected type vars ->
  tables_selected type tagCount ->
  exists vars',
    unassigned_unless_selected type vars'
    /\ for_in ws (FandomPy.count_work type tagCount) (vars, n) env
       = (Return (vars', n + Z.of_nat (length ws)),
          with_heap env (heap_after_works tagCount ws (heap env))).
Proof.
  intros Hinv Hsel.
  pose proof (count_page_spec ws vars n env Hinv) as (Hw & Ht & Hout).
  destruct (for_in ws (FandomPy.count_work type tagCount) (vars, n) env)
    as [[[vars1 n1] | e |] env1]; simpl in *; [| tauto | done].
  destruct Hout as (Hinv1 & -> & Hheap). exists vars1. split; [done |].
  f_equal. destruct env1; unfold with_heap; simpl in *; congruence.
Qed.

End OnePage.

(** ** The page loop of fandom.py *)

Lemma consumed_cons `{L : AO3.Lib} (ev : Event) (evs : list Event) :
  consumed (ev :: evs)
  = match snd ev with inr u => AO3.results u | inl _ => [] end ++ consumed evs.
Proof. reflexivity. Qed.

Lemma heap_after_works_app `{L : AO3.Lib} (tagCount : gmap string loc)
    (ws1 ws2 : list AO3.Work) (h : gmap loc (gmap string Z)) :
  heap_after_works tagCount (ws1 ++ ws2) h
  = heap_after_works tagCount ws2 (heap_after_works tagCount ws1 h).
Proof. unfold heap_after_works. apply foldl_app. Qed.

Section PageLoop.
Context `{L : AO3.Lib}.
Variable self : FandomPy.Fandom.
Variable type : string.
Variable rating : option Z.
Variable warnings : option (list Z).
Variables sortColumn sortDirection : string.
Variable waitTime : Z.
Variable tagCount : gmap string loc.
Variable totalWorkCount : Z.

Local Abbreviation loop fuel :=
  (FandomPy.page_loop fuel self type rating warnings sortColumn sortDirection waitTime
     tagCount totalWorkCount).
Local Abbreviation page_query :=
  (fun p => FandomPy.search self rating warnings None sortColumn sortDirection p).

Lemma page_loop_done fuel vars n p env :
  totalWorkCount <= n -> loop fuel vars n p env = (Return tt, env).
Proof.
  intros Hn. destruct fuel; simpl;
    (destruct (Z.ltb_spec n totalWorkCount); [lia | reflexivity]).
Qed.

(** One iteration, when the client answers and every table is for a
    selected kind. *)
Lemma page_loop_step fuel vars n p env u w' :
  n < totalWorkCount ->
  AO3.update (page_query p) (world env) = (inr u, w') ->
  unassigned_unless_selected type vars ->
  tables_selected type tagCount ->
  0 <= waitTime ->
  exists vars',
    unassigned_unless_selected type vars'
    /\ loop (S fuel) vars n p env
       = loop fuel vars' (n + Z.of_nat (length (AO3.results u))) (p + 1)
           (with_heap (after_fetch env (page_query p) (inr u) w')
              (heap_after_works tagCount (AO3.results u) (heap env))).
Proof.
  intros Hn Hu Hinv Hsel Hwait.
  destruct (count_page_selected type tagCount (AO3.results u) vars n
              (after_fetch env (page_query p) (inr u) w') Hinv Hsel) as (vars' & Hinv' & Hpage).
  exists vars'. split; [done |].
  cbn [FandomPy.page_loop]. destruct (Z.ltb_spec n totalWorkCount); [| lia].
  unfold bind at 1. rewrite Search_update_eq, Hu. cbn [fst snd].
  unfold bind at 1. rewrite Hpage.
  unfold bind at 1, sleep. destruct (Z.ltb_spec waitTime 0); [lia |]. reflexivity.
Qed.

Lemma page_loop_unfold fuel vars n p env :
  loop (S fuel) vars n p env
  = if n <? totalWorkCount then
      match AO3.update (page_query p) (world env) with
      | (inl e, w') => (Raise e, after_fetch env (page_query p) (inl e) w')
      | (inr u, w') =>
          match for_in (AO3.results u) (FandomPy.count_work type tagCount) (vars, n)
                  (after_fetch env (page_query p) (inr u) w') with
          | (Return (vars', n'), env2) =>
              if waitTime <? 0 then (Raise ValueError, env2)
              else loop fuel vars' n' (p + 1) env2
          | (Raise e, env2) => (Raise e, env2)
          | (OutOfFuel, env2) => (OutOfFuel, env2)
          end
      end
    else (Return tt, env).
Proof.
  cbn [FandomPy.page_loop]. destruct (n <? totalWorkCount); [| reflexivity].
  unfold bind at 1. rewrite Search_update_eq.
  destruct (AO3.update (page_query p) (world env)) as [[e | u] w']; cbn [fst snd];
    [reflexivity |].
  unfold bind at 1.
  destruct (for_in (AO3.results u) (FandomPy.count_work type tagCount) (vars, n) _)
    as [[[vars1 n1] | e |] env2]; [| reflexivity | reflexivity].
  unfold bind at 1, sleep. destruct (waitTime <? 0); reflexivity.
Qed.

Lemma page_loop_post fuel : forall vars n p env,
  unassigned_unless_selected type vars ->
  exists evs,
    trace (snd (loop fuel vars n p env)) = trace env ++ evs
    /\ consecutive_pages page_query p evs
    /\ failure_is_last evs (fst (loop fuel vars n p env))
    /\ fetched_while_below n totalWorkCount evs
    /\ (fst (loop fuel vars n p env) = Return tt ->
        totalWorkCount <= n + Z.of_nat (length (consumed evs)))
    /\ (fst (loop fuel vars n p env) <> Raise TypeError \/ ends_in_failure evs ->
        heap (snd (loop fuel vars n p env))
        = heap_after_works tagCount (consumed evs) (heap env)).
Proof.
  induction fuel as [| fuel IH]; intros vars n p env Hinv.
  - exists []. simpl. destruct (Z.ltb_spec n totalWorkCount); simpl;
      (split; [by rewrite app_nil_r |]); (split; [done |]);
      (split; [by intros [] ? ? ? ? |]); (split; [by intros [] ? ? ? |]);
      (split; [intros; simpl; first [done | lia] | intros; reflexivity]).
  - rewrite page_loop_unfold. destruct (Z.ltb_spec n totalWorkCount) as [Hlt | Hge].
    2:{ exists []. simpl.
        (split; [by rewrite app_nil_r |]); (split; [done |]);
        (split; [by intros [] ? ? ? ? |]); (split; [by intros [] ? ? ? |]);
        (split; [intros; simpl; lia | intros; reflexivity]). }
    destruct (AO3.update (page_query p) (world env)) as [[e | u] w'] eqn:Hu.
    { exists [(page_query p, inl e)]. simpl.
      split; [done |]. split; [done |].
      split. { intros [| ? [| ? ?]] q0 e0 evs2 Heq; simplify_eq/=. done. }
      split. { intros [| ? [| ? ?]] ev evs2 Heq; simplify_eq/=. lia. }
      split; [done | done]. }
    set (env1 := after_fetch env (page_query p) (inr u) w').
    pose proof (count_page_spec type tagCount (AO3.results u) vars n env1 Hinv)
      as (Hw & Ht & Hout).
    destruct (for_in (AO3.results u) (FandomPy.count_work type tagCount) (vars, n) env1)
      as [[[vars1 n1] | e |] env2]; cbn [fst snd] in Hw, Ht, Hout; [| | done].
    2:{ destruct Hout as [-> Hnsel]. exists [(page_query p, inr u)]. simpl.
        split; [by rewrite Ht |]. split; [done |].
        split. { intros [| ? [| ? ?]] q0 e0 evs2 Heq; simplify_eq/=. }
        split. { intros [| ? [| ? ?]] ev evs2 Heq; simplify_eq/=. lia. }
        split; [done |].
        intros [Hne | (evs1 & q0 & e0 & Heq)]; [done |].
        destruct evs1 as [| ? [| ? ?]]; simplify_eq/=. }
    destruct Hout as (Hinv1 & -> & Hheap).
    destruct (Z.ltb_spec waitTime 0) as [Hneg | Hpos].
    { exists [(page_query p, inr u)]. simpl.
      split; [by rewrite Ht |]. split; [done |].
      split. { intros [| ? [| ? ?]] q0 e0 evs2 Heq; simplify_eq/=. }
      split. { intros [| ? [| ? ?]] ev evs2 Heq; simplify_eq/=. lia. }
      split; [done |].
      intros _.
      change (heap env2 = heap_after_works tagCount (AO3.results u ++ []) (heap env)).
      rewrite app_nil_r. exact Hheap. }
    destruct (IH vars1 (n + Z.of_nat (length (AO3.results u))) (p + 1) env2 Hinv1)
      as (evs & Htr & Hcons & Hfail & Hbelow & Hret & Hhp).
    exists ((page_query p, inr u) :: evs).
    split. { rewrite Htr, Ht. simpl. rewrite <- app_assoc. reflexivity. }
    split; [done |].
    split.
    { intros [| ev1 evs1] q0 e0 evs2 Heq; simplify_eq/=. by eapply Hfail. }
    split.
    { intros [| ev1 evs1] ev evs2 Heq; simpl in Heq; simplify_eq; [simpl; lia |].
      specialize (Hbelow evs1 ev evs2 eq_refl).
      rewrite consumed_cons, length_app. simpl. lia. }
    split.
    { intros Hr. specialize (Hret Hr). rewrite consumed_cons, length_app. simpl. lia. }
    intros Hc. rewrite consumed_cons, heap_after_works_app. cbn [snd].
    rewrite Hhp, Hheap; [reflexivity |].
    destruct Hc as [Hne | (evs1 & q0 & e0 & Heq)]; [by left |]. right.
    destruct evs1 as [| ev1 evs1]; simplify_eq/=. by exists evs1, q0, e0.
Qed.

(** With full pages of twenty the loop returns once it has enough fuel,
    after as many fetches as twenties are needed to cover what is left. *)
Lemma page_loop_twenty fuel : forall vars n p env,
  full_pages 20 ->
  unassigned_unless_selected type vars ->
  tables_selected type tagCount ->
  0 <= waitTime ->
  totalWorkCount - n <= 20 * Z.of_nat fuel ->
  exists env',
    loop fuel vars n p env = (Return tt, env')
    /\ length (trace env')
       = (length (trace env) + Z.to_nat ((totalWorkCount - n + 19) `div` 20))%nat.
Proof.
  assert (Hnone : forall n, totalWorkCount <= n ->
                    Z.to_nat ((totalWorkCount - n + 19) `div` 20) = 0%nat).
  { intros n Hn. assert ((totalWorkCount - n + 19) `div` 20 < 1)
      by (apply Z.div_lt_upper_bound; lia). lia. }
  induction fuel as [| fuel IH]; intros vars n p env Hfull Hinv Hsel Hwait Hfuel.
  - exists env. rewrite page_loop_done, Hnone by lia. split; [done | lia].
  - destruct (Z.le_gt_cases totalWorkCount n) as [Hge | Hlt].
    + exists env. rewrite page_loop_done, Hnone by lia. split; [done | lia].
    + destruct (Hfull (page_query p) (world env)) as (u & w' & Hu & Hlen).
      destruct (page_loop_step fuel vars n p env u w') as (vars' & Hinv' & ->);
        [lia | done | done | done | done |].
      rewrite Hlen.
      edestruct (IH vars' (n + Z.of_nat 20) (p + 1)) as (env' & -> & Htr);
        [done | done | done | done | lia |].
      exists env'. split; [done |].
      simpl in Htr. rewrite length_app in Htr. simpl in Htr.
      assert (Hdiv : (totalWorkCount - n + 19) `div` 20
                     = (totalWorkCount - (n + Z.of_nat 20) + 19) `div` 20 + 1).
      { rewrite <- Z.div_add by lia. f_equal. lia. }
      assert (0 <= (totalWorkCount - (n + Z.of_nat 20) + 19) `div` 20)
        by (apply Z.div_pos; lia).
      rewrite Htr, Hdiv. lia.
Qed.

End PageLoop.

(** ** attributeCounter of fandom.py *)

Lemma consumed_app `{L : AO3.Lib} (evs1 evs2 : list Event) :
  consumed (evs1 ++ evs2) = consumed evs1 ++ consumed evs2.
Proof. unfold consumed. rewrite map_app, concat_app. reflexivity. Qed.

Lemma bind_ret_fst `{L : AO3.Lib} {A B} (c : M A) (b : B) env :
  fst (bind c (fun _ => ret b) env)
  = match fst (c env) with
    | Return _ => Return b
    | Raise e => Raise e
    | OutOfFuel => OutOfFuel
    end.
Proof. unfold bind. destruct (c env) as [[a | e |] env']; reflexivity. Qed.

Lemma bind_ret_snd `{L : AO3.Lib} {A B} (c : M A) (b : B) env :
  snd (bind c (fun _ => ret b) env) = snd (c env).
Proof. unfold bind. destruct (c env) as [[a | e |] env']; reflexivity. Qed.

Lemma no_lists_unassigned (type : string) : unassigned_unless_selected type no_lists.
Proof. repeat split. Qed.

Section AttributeCounter.
Context `{L : AO3.Lib}.
Variable self : FandomPy.Fandom.
Variable type : string.
Variable rating : option Z.
Variable warnings : option (list Z).
Variables sortColumn sortDirection : string.
Variables startPage waitTime : Z.

Local Abbreviation page_query :=
  (fun p => FandomPy.search self rating warnings None sortColumn sortDirection p).
Local Abbreviation total_query := (FandomPy.search self rating warnings None "" "" 1).

(** A run on the caller's tables with a sample size is the page loop. *)
Lemma attributeCounter_sample fuel t tagCount env :
  FandomPy.attributeCounter fuel self type rating warnings (Some t) sortColumn sortDirection
    startPage waitTime (Some tagCount) env
  = bind (FandomPy.page_loop fuel self type rating warnings sortColumn sortDirection
            waitTime tagCount t no_lists 0 startPage)
      (fun _ => ret tagCount) env.
Proof. reflexivity. Qed.

(** Without a sample size the total is fetched first. *)
Lemma attributeCounter_total fuel tagCount env :
  FandomPy.attributeCounter fuel self type rating warnings None sortColumn sortDirection
    startPage waitTime (Some tagCount) env
  = match AO3.update total_query (world env) with
    | (inl e, w') => (Raise e, after_fetch env total_query (inl e) w')
    | (inr u, w') =>
        bind (FandomPy.page_loop fuel self type rating warnings sortColumn sortDirection
                waitTime tagCount (AO3.total_results u) no_lists 0 startPage)
          (fun _ => ret tagCount) (after_fetch env total_query (inr u) w')
    end.
Proof.
  unfold FandomPy.attributeCounter. unfold bind at 1. cbn [ret]. unfold bind at 1 2.
  rewrite Search_update_eq.
  destruct (AO3.update total_query (world env)) as [[e | u] w']; reflexivity.
Qed.

(** What a run on the caller's tables leaves, in terms of its fetches. *)
Lemma attributeCounter_post fuel sampleSize tagCount env :
  exists evs,
    trace (snd (FandomPy.attributeCounter fuel self type rating warnings sampleSize
                  sortColumn sortDirection startPage waitTime (Some tagCount) env))
    = trace env ++ evs
    /\ failure_is_last evs
         (fst (FandomPy.attributeCounter fuel self type rating warnings sampleSize
                 sortColumn sortDirection startPage waitTime (Some tagCount) env))
    /\ consecutive_pages page_query startPage (page_fetches sampleSize evs)
    /\ (fst (FandomPy.attributeCounter fuel self type rating warnings sampleSize
               sortColumn sortDirection startPage waitTime (Some tagCount) env)
        <> Raise TypeError \/ ends_in_failure evs ->
        heap (snd (FandomPy.attributeCounter fuel self type rating warnings sampleSize
                     sortColumn sortDirection startPage waitTime (Some tagCount) env))
        = heap_after_works tagCount (consumed (page_fetches sampleSize evs)) (heap env)).
Proof.
  destruct sampleSize as [t |].
  - rewrite attributeCounter_sample, bind_ret_fst, bind_ret_snd.
    destruct (page_loop_post self type rating warnings sortColumn sortDirection waitTime
                tagCount t fuel no_lists 0 startPage env (no_lists_unassigned type))
      as (evs & Htr & Hcons & Hfail & _ & _ & Hheap).
    exists evs. split; [done |]. split; [| split; [done |]].
    + intros evs1 q e evs2 Heq. destruct (Hfail evs1 q e evs2 Heq) as [-> ->]. done.
    + intros Hc. apply Hheap. destruct Hc as [Hne | Hend]; [left | by right].
      intros Heq. rewrite Heq in Hne. done.
  - rewrite attributeCounter_total.
    destruct (AO3.update total_query (world env)) as [[e | u] w'] eqn:Hu.
    + exists [(total_query, inl e)]. simpl. split; [done |]. split; [| done].
      intros [| ? [| ? ?]] q0 e0 evs2 Heq; simplify_eq/=. done.
    + rewrite bind_ret_fst, bind_ret_snd.
      destruct (page_loop_post self type rating warnings sortColumn sortDirection waitTime
                  tagCount (AO3.total_results u) fuel no_lists 0 startPage
                  (after_fetch env total_query (inr u) w') (no_lists_unassigned type))
        as (evs & Htr & Hcons & Hfail & _ & _ & Hheap).
      exists ((total_query, inr u) :: evs). split.
      { rewrite Htr. simpl. rewrite <- app_assoc. reflexivity. }
      split; [| split; [done |]].
      * intros [| ev1 evs1] q e evs2 Heq; simpl in Heq; simplify_eq.
        destruct (Hfail evs1 q e evs2 eq_refl) as [-> ->]. done.
      * intros Hc. simpl. apply Hheap. destruct Hc as [Hne | (evs1 & q & e & Heq)].
        -- left. intros Heq. rewrite Heq in Hne. done.
        -- right. destruct evs1 as [| ev1 evs1]; simpl in Heq; simplify_eq.
           by exists evs1, q, e.
Qed.

End AttributeCounter.

Lemma alter_present {A} (f : A -> A) (d : loc) (h : gmap loc A) (t : A) :
  h !! d = Some t -> alter f d h = <[d := f t]> h.
Proof.
  intros Hd. apply map_eq. intros l. destruct (decide (d = l)) as [<- | Hne].
  - rewrite lookup_alter_eq, lookup_insert_eq, Hd. reflexivity.
  - rewrite lookup_alter_ne, lookup_insert_ne by done. reflexivity.
Qed.

Lemma tags_table_selected (type : string) (d : loc) :
  type = "tags" \/ is_kind type = false ->
  tables_selected type {["tags" := d]}.
Proof.
  intros Htype kind Hkind [d' Hd']. apply lookup_singleton_Some in Hd' as [<- _].
  unfold selected. destruct Htype as [-> | ->]; [reflexivity |].
  simpl. by rewrite orb_true_r.
Qed.

(** C6.  A run of [attributeCounter] of [fandom.py] on the caller's
    [{"tags": {"fluff": 3}}], over a stream of one item tagged
    [["fluff", "angst"]], returns the caller's dictionary, whose table is
    then [{"fluff": 4, "angst": 1}].  The target is one item: the sample
    size is 1, or there is none and the total that the client reports is 1;
    the type selector is ['tags'] or one that selects every kind. *)
Theorem seeded_table_is_extended `{L : AO3.Lib} :
  forall fuel (self : FandomPy.Fandom) type rating warnings sampleSize sortColumn
         sortDirection startPage waitTime (d : loc) env env1 u w' item,
    type = "tags" \/ is_kind type = false ->
    0 <= waitTime ->
    heap env !! d = Some {["fluff" := 3]} ->
    (sampleSize = Some 1 /\ env1 = env)
    \/ (exists u0 w0,
          sampleSize = None
          /\ AO3.update (FandomPy.search self rating warnings None "" "" 1) (world env)
             = (inr u0, w0)
          /\ AO3.total_results u0 = 1
          /\ env1 = after_fetch env (FandomPy.search self rating warnings None "" "" 1)
                      (inr u0) w0) ->
    AO3.update (FandomPy.search self rating warnings None sortColumn sortDirection startPage)
      (world env1) = (inr u, w') ->
    AO3.results u = [item] ->
    AO3.tags item = ["fluff"; "angst"] ->
    FandomPy.attributeCounter (S fuel) self type rating warnings sampleSize sortColumn
      sortDirection startPage waitTime (Some {["tags" := d]}) env
    = (Return {["tags" := d]},
       with_heap
         (after_fetch env1
            (FandomPy.search self rating warnings None sortColumn sortDirection startPage)
            (inr u) w')
         (<[d := {["fluff" := 4; "angst" := 1]}]> (heap env))).
Proof.
  intros fuel self type rating warnings sampleSize sortColumn sortDirection startPage
    waitTime d env env1 u w' item Htype Hwait Hd Htarget Hu Hres Htags.
  assert (Hloop :
    bind (FandomPy.page_loop (S fuel) self type rating warnings sortColumn sortDirection
            waitTime {["tags" := d]} 1 no_lists 0 startPage)
      (fun _ => ret ({["tags" := d]} : gmap string loc)) env1
    = (Return {["tags" := d]},
       with_heap
         (after_fetch env1
            (FandomPy.search self rating warnings None sortColumn sortDirection startPage)
            (inr u) w')
         (<[d := {["fluff" := 4; "angst" := 1]}]> (heap env)))).
  { assert (Hd1 : heap env1 !! d = Some {["fluff" := 3]}).
    { destruct Htarget as [[_ ->] | (u0 & w0 & _ & _ & _ & ->)]; exact Hd. }
    assert (Hh : heap env1 = heap env).
    { destruct Htarget as [[_ ->] | (u0 & w0 & _ & _ & _ & ->)]; reflexivity. }
    destruct (page_loop_step self type rating warnings sortColumn sortDirection waitTime
                {["tags" := d]} 1 fuel no_lists 0 startPage env1 u w')
      as (vars' & _ & Hstep);
      [lia | done | apply no_lists_unassigned | by apply tags_table_selected | done |].
    unfold bind. rewrite Hstep, Hres, page_loop_done by (simpl; lia).
    cbn [ret]. f_equal. f_equal.
    unfold heap_after_works, heap_after_work, count_into. simpl foldl.
    rewrite lookup_singleton_eq, !lookup_singleton_ne by done.
    rewrite Htags. rewrite (alter_present _ _ _ _ Hd1), Hh. reflexivity. }
  destruct Htarget as [[-> ->] | (u0 & w0 & -> & Hu0 & Htotal & ->)].
  - rewrite attributeCounter_sample. exact Hloop.
  - rewrite attributeCounter_total, Hu0, Htotal. exact Hloop.
Qed.

(** The run of C6 on an archive that holds the one work. *)
Lemma seeded_table_witness :
  @FandomPy.attributeCounter (Archive.serve [Archive.work1] 0) 1
    (Archive.fandom [Archive.work1] 0 1) "tags" None None (Some 1) "" "" 1 0
    (Some {["tags" := 7%positive]})
    (Archive.start [Archive.work1] 0 {[7%positive := {["fluff" := 3]}]})
  = (Return {["tags" := 7%positive]},
     with_heap
       (after_fetch (Archive.start [Archive.work1] 0 {[7%positive := {["fluff" := 3]}]})
          (FandomPy.search (Archive.fandom [Archive.work1] 0 1) None None None "" "" 1)
          (inr {| AO3.total_results := 1; AO3.results := [Archive.work1] |}) tt)
       (<[7%positive := {["fluff" := 4; "angst" := 1]}]> {[7%positive := {["fluff" := 3]}]})).
Proof.
  exact (@seeded_table_is_extended (Archive.serve [Archive.work1] 0) 0
           (Archive.fandom [Archive.work1] 0 1) "tags" None None (Some 1) "" "" 1 0
           7%positive
           (Archive.start [Archive.work1] 0 {[7%positive := {["fluff" := 3]}]})
           (Archive.start [Archive.work1] 0 {[7%positive := {["fluff" := 3]}]})
           {| AO3.total_results := 1; AO3.results := [Archive.work1] |} tt Archive.work1
           (or_introl eq_refl) (Z.le_refl 0) eq_refl (or_introl (conj eq_refl eq_refl))
           eq_refl eq_refl eq_refl).
Defined.

(** ** The floats of CPython, on known values *)

#[local] Set Warnings "-inexact-float".

(** [200 / 3], [100 / 7], [10 ** 25 / 7], [-1 / 3], [0 / -5] and
    [5 / 2 ** 1074] as CPython gives them, and the [OverflowError] of
    [10 ** 400 / 3]. *)
Example binary64_truediv :
  Binary64.truediv 200 3 = Some 66.66666666666667%float
  /\ Binary64.truediv 100 7 = Some 14.285714285714286%float
  /\ Binary64.truediv (10 ^ 25) 7 = Some 1.4285714285714285e24%float
  /\ Binary64.truediv (-1) 3 = Some (-0.3333333333333333)%float
  /\ Binary64.truediv 0 (-5) = Some (-0)%float
  /\ Binary64.truediv 5 (2 ^ 1074) = Some 2.5e-323%float
  /\ Binary64.truediv (10 ^ 400) 3 = None.
Proof. repeat split; vm_compute; reflexivity. Qed.

(** [round(x, 2)]: the float is rounded, not the decimal it was written
    as ([2.675] is a little less than 2.675), and ties go to the even
    digit. *)
Example binary64_round :
  Binary64.round 66.66666666666667 2 = 66.67%float
  /\ Binary64.round 2.675 2 = 2.67%float
  /\ Binary64.round 0.125 2 = 0.12%float
  /\ Binary64.round 0.375 2 = 0.38%float
  /\ Binary64.round (-0.001) 2 = (-0)%float
  /\ Binary64.round 1e300 2 = 1e300%float
  /\ Binary64.round 123456789012345.678 2 = 123456789012345.67%float.
Proof. repeat split; vm_compute; reflexivity. Qed.

(** The text that an f-string substitutes. *)
Example binary64_repr :
  map Binary64.repr
    [100; 66.67; 0; (-0); 14.29; 1e16; 1e-5; 0.30000000000000004; 1e23; 5e-324;
     infinity; 1152921504606846976; 1234.5]%float
  = ["100.0"; "66.67"; "0.0"; "-0.0"; "14.29"; "1e+16"; "1e-05"; "0.30000000000000004";
     "1e+23"; "5e-324"; "inf"; "1.152921504606847e+18"; "1234.5"]%string.
Proof. vm_compute. reflexivity. Qed.

(** ** The rating composition of fandom.py *)

(** One bucket of [getRatingComposition]: the fetch, the percentage, the
    entry. *)
Lemma rating_bucket `{F : PyFloat} `{L : AO3.Lib} (self : FandomPy.Fandom) (key : Z)
    (q : AO3.Search AO3.Session) (ratingResults : gmap Z (option (Z * Float)))
    env u w' x :
  AO3.update q (world env) = (inr u, w') ->
  FandomPy.totalWorks self <> 0 ->
  truediv (100 * AO3.total_results u) (FandomPy.totalWorks self) = Some x ->
  bind (Search_update q)
    (fun searchResults =>
       bind (py_truediv (100 * AO3.total_results searchResults) (FandomPy.totalWorks self))
         (fun quotient =>
            ret (<[key := Some (AO3.total_results searchResults, round quotient 2)]>
                   ratingResults))) env
  = (Return (<[key := Some (AO3.total_results u, round x 2)]> ratingResults),
     after_fetch env q (inr u) w').
Proof.
  intros Hu Htotal Hx. unfold bind at 1. rewrite Search_update_eq, Hu. cbn [fst snd].
  unfold bind, py_truediv. destruct (Z.eqb_spec (FandomPy.totalWorks self) 0); [done |].
  rewrite Hx. reflexivity.
Qed.

(** A query for a rating bucket is the search that the object builds for
    that rating. *)
Lemma rating_query_search `{L : AO3.Lib} (self : FandomPy.Fandom) (r : Z)
    (q : AO3.Search AO3.Session) :
  rating_query self r q -> q = FandomPy.search self (Some r) None None "" "" 1.
Proof.
  intros (Hfilters & Hrating & Hwarnings & Hcolumn & Hdirection & Hpage).
  destruct Hfilters as (H1 & H2 & H3 & H4 & H5 & H6 & H7 & H8 & H9 & H10 & H11 & H12
                          & H13 & H14).
  destruct q. unfold FandomPy.search. simpl in *. subst. reflexivity.
Qed.

(** C7.  When [totalWorks] is not zero, the client answers the five
    fetches and the five quotients are [float]s, [getRatingComposition] of
    [fandom.py] issues exactly five fetches, one for each rating 9 to 13 in
    this order, each of them the query that carries the filters of the
    object and is restricted to that rating, and returns the mapping with
    the five entries [(count, round(100 * count / totalWorks, 2))]. *)
Theorem rating_composition_has_five_buckets `{F : PyFloat} `{L : AO3.Lib} :
  forall (self : FandomPy.Fandom) env q9 u9 w9 q10 u10 w10 q11 u11 w11 q12 u12 w12
         q13 u13 w13 x9 x10 x11 x12 x13,
    FandomPy.totalWorks self <> 0 ->
    rating_query self 9 q9 ->
    rating_query self 10 q10 ->
    rating_query self 11 q11 ->
    rating_query self 12 q12 ->
    rating_query self 13 q13 ->
    AO3.update q9 (world env) = (inr u9, w9) ->
    AO3.update q10 w9 = (inr u10, w10) ->
    AO3.update q11 w10 = (inr u11, w11) ->
    AO3.update q12 w11 = (inr u12, w12) ->
    AO3.update q13 w12 = (inr u13, w13) ->
    truediv (100 * AO3.total_results u9) (FandomPy.totalWorks self) = Some x9 ->
    truediv (100 * AO3.total_results u10) (FandomPy.totalWorks self) = Some x10 ->
    truediv (100 * AO3.total_results u11) (FandomPy.totalWorks self) = Some x11 ->
    truediv (100 * AO3.total_results u12) (FandomPy.totalWorks self) = Some x12 ->
    truediv (100 * AO3.total_results u13) (FandomPy.totalWorks self) = Some x13 ->
    FandomPy.getRatingComposition self env
    = (Return {[ 9 := Some (AO3.total_results u9, round x9 2);
                 10 := Some (AO3.total_results u10, round x10 2);
                 11 := Some (AO3.total_results u11, round x11 2);
                 12 := Some (AO3.total_results u12, round x12 2);
                 13 := Some (AO3.total_results u13, round x13 2) ]},
       {| world := w13;
          trace := trace env
                   ++ [(q9, inr u9); (q10, inr u10); (q11, inr u11); (q12, inr u12);
                       (q13, inr u13)];
          heap := heap env |}).
Proof.
  intros self env q9 u9 w9 q10 u10 w10 q11 u11 w11 q12 u12 w12 q13 u13 w13
    x9 x10 x11 x12 x13 Htotal Hq9 Hq10 Hq11 Hq12 Hq13 H9 H10 H11 H12 H13
    Hx9 Hx10 Hx11 Hx12 Hx13.
  apply rating_query_search in Hq9, Hq10, Hq11, Hq12, Hq13. subst q9 q10 q11 q12 q13.
  unfold FandomPy.getRatingComposition. cbn [for_in].
  erewrite bind_Return by (apply (rating_bucket self); [exact H9 | done | exact Hx9]).
  erewrite bind_Return by (apply (rating_bucket self); [exact H10 | done | exact Hx10]).
  erewrite bind_Return by (apply (rating_bucket self); [exact H11 | done | exact Hx11]).
  erewrite bind_Return by (apply (rating_bucket self); [exact H12 | done | exact Hx12]).
  erewrite bind_Return by (apply (rating_bucket self); [exact H13 | done | exact Hx13]).
  cbn [ret]. f_equal.
  unfold after_fetch. simpl. rewrite <- !app_assoc. reflexivity.
Qed.

(** The composition of a fandom of seven works, of which one is not rated,
    two are for general audiences, three are mature and one is explicit:
    the five searches in the order of the ratings, and [100 / 7],
    [200 / 7] and [300 / 7] rounded to [14.29], [28.57] and [42.86]. *)
Lemma rating_composition_witness :
  @FandomPy.getRatingComposition Archive.binary64 (Archive.rated Archive.shelf 7)
    Archive.rated_fandom Archive.rated_start
  = (Return {[ 9 := Some (1, 14.29%float); 10 := Some (2, 28.57%float);
               11 := Some (0, 0%float); 12 := Some (3, 42.86%float);
               13 := Some (1, 14.29%float) ]},
     {| world := world Archive.rated_start;
        trace := [(Archive.rated_search 9, inr {| AO3.total_results := 1; AO3.results := [] |});
                  (Archive.rated_search 10, inr {| AO3.total_results := 2; AO3.results := [] |});
                  (Archive.rated_search 11, inr {| AO3.total_results := 0; AO3.results := [] |});
                  (Archive.rated_search 12, inr {| AO3.total_results := 3; AO3.results := [] |});
                  (Archive.rated_search 13, inr {| AO3.total_results := 1; AO3.results := [] |})];
        heap := ∅ |}).
Proof.
  refine (@rating_composition_has_five_buckets Archive.binary64
            (Archive.rated Archive.shelf 7) Archive.rated_fandom Archive.rated_start
            (Archive.rated_search 9) {| AO3.total_results := 1; AO3.results := [] |} tt
            (Archive.rated_search 10) {| AO3.total_results := 2; AO3.results := [] |} tt
            (Archive.rated_search 11) {| AO3.total_results := 0; AO3.results := [] |} tt
            (Archive.rated_search 12) {| AO3.total_results := 3; AO3.results := [] |} tt
            (Archive.rated_search 13) {| AO3.total_results := 1; AO3.results := [] |} tt
            (100 / 7)%float (200 / 7)%float 0%float (300 / 7)%float (100 / 7)%float
            _ _ _ _ _ _ eq_refl eq_refl eq_refl eq_refl eq_refl
            eq_refl eq_refl eq_refl eq_refl eq_refl).
  - discriminate.
  - repeat split.
  - repeat split.
  - repeat split.
  - repeat split.
  - repeat split.
Defined.

(** ** New tables and what a run counts into them *)

Lemma is_kind_cases (kind : string) :
  is_kind kind = true ->
  kind = "tags" \/ kind = "relationships" \/ kind = "characters".
Proof.
  unfold is_kind. intros H.
  apply orb_true_iff in H as [H | H]; [apply orb_true_iff in H as [H | H] |];
    apply bool_decide_eq_true_1 in H; auto.
Qed.

Lemma fresh_not_in (h : gmap loc (gmap string Z)) : h !! fresh (dom h) = None.
Proof. apply not_elem_of_dom. apply is_fresh. Qed.

Ltac other_table :=
  match goal with
  | Hother : forall k' d', _ |- _ =>
      first [ apply (Hother "characters"); done
            | apply (Hother "relationships"); done
            | apply (Hother "tags"); done ]
  end.

Section NewTables.
Context `{L : AO3.Lib}.

Lemma heap_after_work_lookup (tagCount : gmap string loc) h w kind d :
  distinct_tables tagCount ->
  is_kind kind = true ->
  tagCount !! kind = Some d ->
  heap_after_work tagCount h w !! d
  = (fun t => FandomPy.counter_items t (kind_list kind w)) <$> h !! d.
Proof.
  intros Hdist Hkind Hd.
  assert (Hother : forall k' d', is_kind k' = true -> k' <> kind ->
                     tagCount !! k' = Some d' -> d' <> d).
  { intros k' d' Hk' Hne Hd' ->. apply Hne. by apply (Hdist k' kind d). }
  unfold heap_after_work, count_into.
  destruct (is_kind_cases kind Hkind) as [-> | [-> | ->]]; rewrite ?Hd.
  - rewrite lookup_alter_eq.
    destruct (tagCount !! "characters") as [dc |] eqn:Ec;
      destruct (tagCount !! "relationships") as [dr |] eqn:Er;
      rewrite ?lookup_alter_ne by other_table; reflexivity.
  - destruct (tagCount !! "tags") as [dt |] eqn:Et;
      destruct (tagCount !! "characters") as [dc |] eqn:Ec;
      rewrite ?lookup_alter_ne by other_table;
      rewrite lookup_alter_eq; reflexivity.
  - destruct (tagCount !! "tags") as [dt |] eqn:Et;
      rewrite ?lookup_alter_ne by other_table;
      rewrite lookup_alter_eq;
      destruct (tagCount !! "relationships") as [dr |] eqn:Er;
      rewrite ?lookup_alter_ne by other_table; reflexivity.
Qed.

Lemma heap_after_works_lookup (tagCount : gmap string loc) ws h kind d :
  distinct_tables tagCount ->
  is_kind kind = true ->
  tagCount !! kind = Some d ->
  heap_after_works tagCount ws h !! d
  = (fun t => FandomPy.counter_items t (concat (map (kind_list kind) ws))) <$> h !! d.
Proof.
  intros Hdist Hkind Hd. revert h. induction ws as [| w ws IH]; intros h.
  - simpl. destruct (h !! d); reflexivity.
  - change (heap_after_works tagCount (w :: ws) h)
      with (heap_after_works tagCount ws (heap_after_work tagCount h w)).
    rewrite IH, (heap_after_work_lookup _ _ _ kind) by done.
    destruct (h !! d) as [t |]; simpl; [| reflexivity].
    rewrite counter_items_app. reflexivity.
Qed.

(** Without the caller's tables, [attributeCounter] first creates its own
    and then runs as it does on a caller's. *)
Lemma attributeCounter_new_tables fuel (self : FandomPy.Fandom) type rating warnings
    sampleSize sortColumn sortDirection startPage waitTime env :
  exists tagCount h0,
    new_tables type tagCount (heap env) h0
    /\ FandomPy.attributeCounter fuel self type rating warnings sampleSize sortColumn
         sortDirection startPage waitTime None env
       = FandomPy.attributeCounter fuel self type rating warnings sampleSize sortColumn
           sortDirection startPage waitTime (Some tagCount) (with_heap env h0).
Proof.
  unfold FandomPy.attributeCounter at 1.
  destruct (bool_decide (type = "tags") || bool_decide (type = "relationships")
            || bool_decide (type = "characters")) eqn:Hk.
  - change (is_kind type = true) in Hk.
    exists {[type := fresh (dom (heap env))]}, (<[fresh (dom (heap env)) := ∅]> (heap env)).
    split; [| reflexivity].
    pose proof (fresh_not_in (heap env)) as Hfresh.
    split; [| split].
    + intros k1 k2 d _ _ H1 H2.
      apply lookup_singleton_Some in H1 as [<- _].
      apply lookup_singleton_Some in H2 as [<- _]. reflexivity.
    + intros kind Hkind. unfold selected. rewrite Hkind, Hk.
      simpl. rewrite orb_false_r. case_bool_decide as Heq.
      * subst kind. eexists. rewrite lookup_singleton_eq, lookup_insert_eq. done.
      * by rewrite lookup_singleton_ne.
    + intros l t Hl. rewrite lookup_insert_ne; [done |]. intros <-. congruence.
  - change (is_kind type = false) in Hk.
    set (dt := fresh (dom (heap env))).
    set (h1 := <[dt := ∅]> (heap env)).
    set (dr := fresh (dom h1)).
    set (h2 := <[dr := ∅]> h1).
    set (dc := fresh (dom h2)).
    exists (<["characters" := dc]> (<["relationships" := dr]> {["tags" := dt]})),
      (<[dc := ∅]> h2).
    split; [| reflexivity].
    pose proof (fresh_not_in (heap env)) as Ht. fold dt in Ht.
    pose proof (fresh_not_in h1) as Hr. fold dr in Hr.
    pose proof (fresh_not_in h2) as Hc. fold dc in Hc.
    assert (Hrt : dr <> dt) by (intros Heq; rewrite Heq in Hr; unfold h1 in Hr;
                                by rewrite lookup_insert_eq in Hr).
    assert (Hcr : dc <> dr) by (intros Heq; rewrite Heq in Hc; unfold h2 in Hc;
                                by rewrite lookup_insert_eq in Hc).
    assert (Hct : dc <> dt).
    { intros Heq. rewrite Heq in Hc. unfold h2, h1 in Hc.
      rewrite lookup_insert_ne, lookup_insert_eq in Hc by done. done. }
    assert (Hr0 : heap env !! dr = None).
    { unfold h1 in Hr. by rewrite lookup_insert_ne in Hr. }
    assert (Hc0 : heap env !! dc = None).
    { unfold h2, h1 in Hc. by rewrite !lookup_insert_ne in Hc. }
    split; [| split].
    + intros k1 k2 d Hk1 Hk2 H1 H2.
      destruct (is_kind_cases k1 Hk1) as [-> | [-> | ->]];
        destruct (is_kind_cases k2 Hk2) as [-> | [-> | ->]];
        simplify_map_eq; done.
    + intros kind Hkind.
      assert (Hsel : selected type kind = true).
      { unfold selected. rewrite Hkind, Hk. simpl. by rewrite orb_true_r. }
      rewrite Hsel. unfold h2, h1.
      destruct (is_kind_cases kind Hkind) as [-> | [-> | ->]]; eexists;
        (split; [by simplify_map_eq |]); split; try done; by simplify_map_eq.
    + intros l t Hl. unfold h2, h1.
      rewrite !lookup_insert_ne; [done | | |]; intros <-; congruence.
Qed.

(** A run on the caller's tables returns the caller's dictionary. *)
Lemma attributeCounter_returns_tagCount fuel (self : FandomPy.Fandom) type rating warnings
    sampleSize sortColumn sortDirection startPage waitTime tagCount env tc :
  fst (FandomPy.attributeCounter fuel self type rating warnings sampleSize sortColumn
         sortDirection startPage waitTime (Some tagCount) env) = Return tc ->
  tc = tagCount.
Proof.
  destruct sampleSize as [t |].
  - rewrite attributeCounter_sample, bind_ret_fst.
    destruct (fst _); intros; simplify_eq. reflexivity.
  - rewrite attributeCounter_total.
    destruct (AO3.update _ (world env)) as [[e | u] w']; [done |].
    rewrite bind_ret_fst. destruct (fst _); intros; simplify_eq. reflexivity.
Qed.

End NewTables.

(** ** A fetch that fails *)

(** C9.  [attributeCounter] of [fandom.py] catches nothing: when the client
    raises [e] on a fetch of a run, that fetch is the last of the run (it
    is not tried again), the run ends in [e] itself, and the caller's
    tables hold exactly the counts of the works of the pages fetched before
    it, every one of which was counted in full: the store is the caller's
    after these works were counted, and in each table of the caller's
    dictionary, when the tables of the three kinds are different objects,
    the entry of every attribute is what it was before the run plus the
    number of its occurrences in these works. *)
Theorem collaborator_error_aborts_the_run `{L : AO3.Lib} :
  forall fuel (self : FandomPy.Fandom) type rating warnings sampleSize sortColumn
         sortDirection startPage waitTime tagCount env evs1 q e evs2,
    trace (snd (FandomPy.attributeCounter fuel self type rating warnings sampleSize
                  sortColumn sortDirection startPage waitTime (Some tagCount) env))
    = trace env ++ evs1 ++ (q, inl e) :: evs2 ->
    evs2 = []
    /\ fst (FandomPy.attributeCounter fuel self type rating warnings sampleSize
              sortColumn sortDirection startPage waitTime (Some tagCount) env)
       = Raise e
    /\ heap (snd (FandomPy.attributeCounter fuel self type rating warnings sampleSize
                    sortColumn sortDirection startPage waitTime (Some tagCount) env))
       = heap_after_works tagCount (consumed (page_fetches sampleSize evs1)) (heap env)
    /\ (distinct_tables tagCount ->
        forall kind d t0,
          is_kind kind = true ->
          tagCount !! kind = Some d ->
          heap env !! d = Some t0 ->
          exists t',
            heap (snd (FandomPy.attributeCounter fuel self type rating warnings sampleSize
                         sortColumn sortDirection startPage waitTime (Some tagCount) env))
              !! d = Some t'
            /\ forall k,
                 t' !! k
                 = added_entry (t0 !! k)
                     (occurrences k
                        (concat (map (kind_list kind)
                                   (consumed (page_fetches sampleSize evs1)))))).
Proof.
  intros fuel self type rating warnings sampleSize sortColumn sortDirection startPage
    waitTime tagCount env evs1 q e evs2 Htrace.
  destruct (attributeCounter_post self type rating warnings sortColumn sortDirection
              startPage waitTime fuel sampleSize tagCount env)
    as (evs & Htr & Hfail & _ & Hheap).
  rewrite Htr in Htrace. apply app_inv_head in Htrace. subst evs.
  destruct (Hfail evs1 q e evs2 eq_refl) as [-> Hout].
  assert (Hworks : consumed (page_fetches sampleSize (evs1 ++ [(q, inl e)]))
                   = consumed (page_fetches sampleSize evs1)).
  { destruct sampleSize as [t |]; simpl.
    - rewrite consumed_app. simpl. apply app_nil_r.
    - destruct evs1 as [| ev1 evs1]; simpl; [done |].
      rewrite consumed_app. simpl. apply app_nil_r. }
  rewrite Hheap, Hworks by (right; by exists evs1, q, e).
  split; [done |]. split; [done |]. split; [done |].
  intros Hdist kind d t0 Hkind Hd Ht0.
  exists (FandomPy.counter_items t0
            (concat (map (kind_list kind) (consumed (page_fetches sampleSize evs1))))).
  split.
  - rewrite (heap_after_works_lookup _ _ _ kind) by done. by rewrite Ht0.
  - intros k. apply counter_items_lookup.
Qed.

(** A run over forty works, each tagged [fluff] and [angst], on the
    caller's [{"tags": {"fluff": 3}}], whose second page cannot be fetched:
    the run ends in the client's error after two fetches, and the caller's
    table holds the counts of the twenty works of the first page. *)
Lemma collaborator_error_witness :
  fst (@FandomPy.attributeCounter (Archive.serve (replicate 40 Archive.work1) 2) 5
         (Archive.fandom (replicate 40 Archive.work1) 2 40) "tags" None None (Some 40)
         "" "" 1 0 (Some {["tags" := 7%positive]})
         (Archive.start (replicate 40 Archive.work1) 2 {[7%positive := {["fluff" := 3]}]}))
  = Raise (CollaboratorError "503")
  /\ heap (snd (@FandomPy.attributeCounter (Archive.serve (replicate 40 Archive.work1) 2) 5
                  (Archive.fandom (replicate 40 Archive.work1) 2 40) "tags" None None
                  (Some 40) "" "" 1 0 (Some {["tags" := 7%positive]})
                  (Archive.start (replicate 40 Archive.work1) 2
                     {[7%positive := {["fluff" := 3]}]})))
     = {[7%positive := {["fluff" := 23; "angst" := 20]}]}
  /\ length (trace (snd (@FandomPy.attributeCounter
                           (Archive.serve (replicate 40 Archive.work1) 2) 5
                           (Archive.fandom (replicate 40 Archive.work1) 2 40) "tags" None
                           None (Some 40) "" "" 1 0 (Some {["tags" := 7%positive]})
                           (Archive.start (replicate 40 Archive.work1) 2
                              {[7%positive := {["fluff" := 3]}]}))))
     = 2%nat.
Proof.
  unshelve refine (let H :=
    @collaborator_error_aborts_the_run (Archive.serve (replicate 40 Archive.work1) 2) 5
      (Archive.fandom (replicate 40 Archive.work1) 2 40) "tags" None None (Some 40)
      "" "" 1 0 {["tags" := 7%positive]}
      (Archive.start (replicate 40 Archive.work1) 2 {[7%positive := {["fluff" := 3]}]})
      [(FandomPy.search (Archive.fandom (replicate 40 Archive.work1) 2 40)
          None None None "" "" 1,
        inr {| AO3.total_results := 40; AO3.results := replicate 20 Archive.work1 |})]
      (FandomPy.search (Archive.fandom (replicate 40 Archive.work1) 2 40)
         None None None "" "" 2)
      (CollaboratorError "503") [] _ in
    conj (proj1 (proj2 H)) (conj (eq_trans (proj1 (proj2 (proj2 H))) _) _)).
  - vm_compute. reflexivity.
  - vm_compute. reflexivity.
  - vm_compute. reflexivity.
Defined.

(** C8.  Frequency tables only grow, and what they hold is the number of
    occurrences.  [counter] adds to an entry the number of times its key
    occurs in the list, never less than zero, and removes nothing; over a
    whole run of [attributeCounter], whatever its outcome, no entry of any
    table is lost or lowered; and a run that is given no tables and returns
    leaves, for each kind its type selects, a table in which every
    attribute has exactly the number of its occurrences in that list of the
    works the run consumed (no entry for none), which makes the result a
    function of the consumed works alone. *)
Theorem frequency_tables_grow_and_count `{L : AO3.Lib} :
  (forall d items k v,
      d !! k = Some v ->
      FandomPy.counter_items d items !! k = Some (v + occurrences k items)
      /\ 0 <= occurrences k items)
  /\ (forall fuel (self : FandomPy.Fandom) type rating warnings sampleSize sortColumn
             sortDirection startPage waitTime tagCount env,
        tables_grow (heap env)
          (heap (snd (FandomPy.attributeCounter fuel self type rating warnings sampleSize
                        sortColumn sortDirection startPage waitTime tagCount env))))
  /\ (forall fuel (self : FandomPy.Fandom) type rating warnings sampleSize sortColumn
             sortDirection startPage waitTime env tagCount env',
        FandomPy.attributeCounter fuel self type rating warnings sampleSize sortColumn
          sortDirection startPage waitTime None env = (Return tagCount, env') ->
        exists evs,
          trace env' = trace env ++ evs
          /\ forall kind, is_kind kind = true ->
               if selected type kind
               then exists d t,
                      tagCount !! kind = Some d /\ heap env' !! d = Some t
                      /\ forall k,
                           t !! k
                           = count_entry
                               (occurrences k
                                  (concat (map (kind_list kind)
                                             (consumed (page_fetches sampleSize evs)))))
               else tagCount !! kind = None).
Proof.
  split; [| split].
  - intros d items k v Hk. split; [by apply counter_items_grows |].
    apply occurrences_nonneg.
  - intros. apply grows_attributeCounter.
  - intros fuel self type rating warnings sampleSize sortColumn sortDirection startPage
      waitTime env tagCount env' Hrun.
    destruct (attributeCounter_new_tables fuel self type rating warnings sampleSize
                sortColumn sortDirection startPage waitTime env)
      as (tc0 & h0 & (Hdist & Hkinds & _) & Heq).
    rewrite Heq in Hrun.
    destruct (attributeCounter_post self type rating warnings sortColumn sortDirection
                startPage waitTime fuel sampleSize tc0 (with_heap env h0))
      as (evs & Htr & _ & _ & Hheap).
    pose proof (attributeCounter_returns_tagCount fuel self type rating warnings sampleSize
                  sortColumn sortDirection startPage waitTime tc0 (with_heap env h0) tagCount)
      as Htc.
    rewrite Hrun in Htr, Hheap, Htc. cbn [fst snd] in Htr, Hheap, Htc.
    specialize (Htc eq_refl). subst tc0.
    assert (Hok : Return tagCount <> (Raise TypeError : Outcome (gmap string loc)))
      by (intros Hc; inversion Hc).
    specialize (Hheap (or_introl Hok)).
    exists evs. split; [exact Htr |].
    intros kind Hkind. specialize (Hkinds kind Hkind).
    destruct (selected type kind); [| exact Hkinds].
    destruct Hkinds as (d & Hd & _ & Hd0).
    exists d, (FandomPy.counter_items ∅
                 (concat (map (kind_list kind) (consumed (page_fetches sampleSize evs))))).
    split; [exact Hd |]. split.
    + rewrite Hheap. simpl heap.
      rewrite (heap_after_works_lookup _ _ _ kind) by done. rewrite Hd0. reflexivity.
    + intros k. apply counter_items_fresh.
Qed.

(** [counter] on a table that has the key, and a run over one work. *)
Lemma frequency_tables_witness :
  FandomPy.counter_items {["fluff" := 3]} ["fluff"; "angst"] !! "fluff"
  = Some (3 + occurrences "fluff" ["fluff"; "angst"])
  /\ exists evs,
       trace (snd (@FandomPy.attributeCounter (Archive.serve [Archive.work1] 0) 1
                     (Archive.fandom [Archive.work1] 0 1) "tags" None None (Some 1)
                     "" "" 1 0 None (Archive.start [Archive.work1] 0 ∅)))
       = [] ++ evs
       /\ forall kind, is_kind kind = true ->
            if selected "tags" kind
            then exists d t,
                   ({["tags" := 1%positive]} : gmap string loc) !! kind = Some d
                   /\ heap (snd (@FandomPy.attributeCounter (Archive.serve [Archive.work1] 0) 1
                                   (Archive.fandom [Archive.work1] 0 1) "tags" None None
                                   (Some 1) "" "" 1 0 None
                                   (Archive.start [Archive.work1] 0 ∅))) !! d = Some t
                   /\ forall k,
                        t !! k
                        = count_entry
                            (occurrences k
                               (concat (map (kind_list kind)
                                          (consumed (page_fetches (Some 1) evs)))))
            else ({["tags" := 1%positive]} : gmap string loc) !! kind = None.
Proof.
  split.
  - exact (proj1 (proj1 (@frequency_tables_grow_and_count (Archive.serve [] 0))
                   {["fluff" := 3]} ["fluff"; "angst"] "fluff" 3 eq_refl)).
  - exact (proj2 (proj2 (@frequency_tables_grow_and_count (Archive.serve [Archive.work1] 0)))
             1%nat (Archive.fandom [Archive.work1] 0 1) "tags" None None (Some 1)
             "" "" 1 0 (Archive.start [Archive.work1] 0 ∅) {["tags" := 1%positive]}
             _ eq_refl).
Defined.

(** ** The type selector *)

Lemma new_tables_selected (type : string) (tagCount : gmap string loc)
    (h h0 : gmap loc (gmap string Z)) :
  new_tables type tagCount h h0 -> tables_selected type tagCount.
Proof.
  intros (_ & Hkinds & _) kind Hkind [d Hd]. specialize (Hkinds kind Hkind).
  destruct (selected type kind); [reflexivity | congruence].
Qed.

(** C5, as the code has it.  In [fandom.py], when the dictionary has tables
    only for kinds that the selector selects, as the dictionary that
    [attributeCounter] creates itself has, a work is counted without error:
    ['tags'], ['relationships'] and ['characters'] select exactly the list
    of that name, any other selector selects all three, and every value of
    a selected list adds one to its entry of the table of that kind, an
    absent entry being created at one.  In [AO3_analyzer.py] there is one
    table: ['relationships'] and ['characters'] select the list of that
    name and every other selector, ['all'] included, selects only the tag
    list. *)
Theorem type_selector_selects_lists `{L : AO3.Lib} :
  (forall type tagCount w vars n env,
      unassigned_unless_selected type vars ->
      tables_selected type tagCount ->
      exists vars',
        FandomPy.count_work type tagCount w (vars, n) env
        = (Return (vars', n + 1), with_heap env (heap_after_work tagCount (heap env) w))
        /\ FandomPy.relationshipList vars'
           = (if selected type "relationships" then Some (AO3.relationships w) else None)
        /\ FandomPy.characterList vars'
           = (if selected type "characters" then Some (AO3.characters w) else None)
        /\ FandomPy.tagList vars'
           = (if selected type "tags" then Some (AO3.tags w) else None))
  /\ (forall type kind,
        selected type kind
        = if is_kind type then is_kind kind && bool_decide (type = kind) else is_kind kind)
  /\ (forall fuel (self : FandomPy.Fandom) type rating warnings sampleSize sortColumn
             sortDirection startPage waitTime env,
        exists tagCount h0,
          new_tables type tagCount (heap env) h0
          /\ tables_selected type tagCount
          /\ FandomPy.attributeCounter fuel self type rating warnings sampleSize sortColumn
               sortDirection startPage waitTime None env
             = FandomPy.attributeCounter fuel self type rating warnings sampleSize sortColumn
                 sortDirection startPage waitTime (Some tagCount) (with_heap env h0))
  /\ (forall d items k,
        FandomPy.counter_items d items !! k
        = if occurrences k items =? 0 then d !! k
          else Some (default 0 (d !! k) + occurrences k items))
  /\ (forall type w t n env,
        AO3Analyzer.count_work type w (t, n) env
        = (Return (FandomPy.counter_items t
                     (if bool_decide (type = "relationships") then AO3.relationships w
                      else if bool_decide (type = "characters") then AO3.characters w
                      else AO3.tags w),
                   n + 1),
           env)).
Proof.
  split; [| split; [| split; [| split]]].
  - intros type tagCount w vars n env Hinv Hsel.
    pose proof (count_work_spec type tagCount w vars n env Hinv) as (Hw & Ht & Hout).
    destruct (FandomPy.count_work type tagCount w (vars, n) env)
      as [[[vars' n'] | e |] env']; simpl in Hw, Ht, Hout; [| tauto | done].
    destruct Hout as (_ & -> & Hheap & Hlists). exists vars'. split; [| exact Hlists].
    f_equal. destruct env'; unfold with_heap; simpl in *; congruence.
  - intros type kind. unfold selected. destruct (is_kind type); simpl.
    + by rewrite orb_false_r.
    + by rewrite orb_true_r, andb_true_r.
  - intros fuel self type rating warnings sampleSize sortColumn sortDirection startPage
      waitTime env.
    destruct (attributeCounter_new_tables fuel self type rating warnings sampleSize
                sortColumn sortDirection startPage waitTime env)
      as (tagCount & h0 & Hnew & Heq).
    exists tagCount, h0. split; [exact Hnew |]. split; [| exact Heq].
    by eapply new_tables_selected.
  - intros d items k. apply counter_items_lookup.
  - intros type w t n env. unfold AO3Analyzer.count_work, ret.
    rewrite attribute_loop_counter_items. reflexivity.
Qed.

(** A work counted under the selector ['all'] into a dictionary that has
    the table of tags only. *)
Lemma type_selector_witness :
  exists vars',
    @FandomPy.count_work (Archive.serve [] 0) "all" {["tags" := 1%positive]} Archive.work1
      (no_lists, 0) (Archive.start [] 0 {[1%positive := ∅]})
    = (Return (vars', 0 + 1),
       with_heap (Archive.start [] 0 {[1%positive := ∅]})
         (heap_after_work {["tags" := 1%positive]}
            (heap (Archive.start [] 0 {[1%positive := ∅]})) Archive.work1))
    /\ FandomPy.relationshipList vars'
       = (if selected "all" "relationships" then Some (AO3.relationships Archive.work1)
          else None)
    /\ FandomPy.characterList vars'
       = (if selected "all" "characters" then Some (AO3.characters Archive.work1) else None)
    /\ FandomPy.tagList vars'
       = (if selected "all" "tags" then Some (AO3.tags Archive.work1) else None).
Proof.
  apply (proj1 (@type_selector_selects_lists (Archive.serve [] 0))).
  - apply no_lists_unassigned.
  - apply tags_table_selected. right. reflexivity.
Defined.

(** C5 as the claim states it does not hold: in [AO3_analyzer.py] the
    selector ['all'] counts the tags of a work and neither its relationships
    nor its characters. *)
Lemma old_all_selects_only_tags :
  match fst (@AO3Analyzer.attributeCounter
               (Archive.serve [Archive.work1] 0) 1
               (Archive.old_fandom [Archive.work1] 0 1) "all" None None (Some 0) "" ""
               (Archive.start [Archive.work1] 0 ∅)) with
  | Return tagCount =>
      AO3.relationships Archive.work1 = ["a/b"] /\ AO3.characters Archive.work1 = ["a"; "b"]
      /\ tagCount !! "fluff" = Some 1 /\ tagCount !! "angst" = Some 1
      /\ tagCount !! "a/b" = None /\ tagCount !! "a" = None /\ tagCount !! "b" = None
  | _ => False
  end.
Proof. vm_compute. repeat split. Qed.

(** ** The page loop of AO3_analyzer.py *)

Section OldPageLoop.
Context `{L : AO3.Lib}.
Variable self : AO3Analyzer.Fandom.
Variable type : string.
Variable rating : option Z.
Variable warnings : option (list Z).
Variables sortColumn sortDirection : string.

Local Abbreviation old_loop fuel :=
  (AO3Analyzer.page_loop fuel self type rating warnings sortColumn sortDirection).
Local Abbreviation old_query :=
  (fun p => AO3Analyzer.Search_of self rating warnings sortColumn sortDirection p).

Lemma old_count_page ws t n env :
  exists t',
    for_in ws (AO3Analyzer.count_work type) (t, n) env
    = (Return (t', n + Z.of_nat (length ws)), env).
Proof.
  revert t n. induction ws as [| w ws IH]; intros t n.
  - exists t. simpl. rewrite Z.add_0_r. reflexivity.
  - destruct (IH (AO3Analyzer.attribute_loop t
                    (if bool_decide (type = "relationships") then AO3.relationships w
                     else if bool_decide (type = "characters") then AO3.characters w
                     else AO3.tags w)) (n + 1)) as (t' & Heq).
    exists t'. cbn [for_in]. unfold bind. cbn [AO3Analyzer.count_work ret].
    rewrite Heq. simpl length.
    replace (n + 1 + Z.of_nat (length ws)) with (n + Z.of_nat (S (length ws))) by lia.
    reflexivity.
Qed.

Lemma old_page_loop_unfold fuel total t n p env :
  old_loop (S fuel) (Some total) t n p env
  = if n <=? total then
      match AO3.update (old_query p) (world env) with
      | (inl e, w') => (Raise e, after_fetch env (old_query p) (inl e) w')
      | (inr u, w') =>
          match for_in (AO3.results u) (AO3Analyzer.count_work type) (t, n)
                  (after_fetch env (old_query p) (inr u) w') with
          | (Return (t', n'), env2) => old_loop fuel (Some total) t' n' (p + 1) env2
          | (Raise e, env2) => (Raise e, env2)
          | (OutOfFuel, env2) => (OutOfFuel, env2)
          end
      end
    else (Return t, env).
Proof.
  cbn [AO3Analyzer.page_loop]. unfold bind at 1. cbn [ret].
  destruct (n <=? total); [| reflexivity].
  unfold bind at 1. rewrite Search_update_eq.
  destruct (AO3.update (old_query p) (world env)) as [[e | u] w']; cbn [fst snd];
    [reflexivity |].
  unfold bind at 1.
  destruct (for_in (AO3.results u) (AO3Analyzer.count_work type) (t, n) _)
    as [[[t' n'] | e |] env2]; reflexivity.
Qed.

(** A run only adds to the trace. *)
Lemma old_page_loop_trace fuel : forall total t n p env,
  exists evs, trace (snd (old_loop fuel total t n p env)) = trace env ++ evs.
Proof.
  induction fuel as [| fuel IH]; intros [total |] t n p env;
    try (exists []; simpl; by rewrite app_nil_r).
  - exists []. simpl. unfold bind, ret. destruct (n <=? total); simpl; by rewrite app_nil_r.
  - rewrite old_page_loop_unfold. destruct (n <=? total).
    2:{ exists []. simpl. by rewrite app_nil_r. }
    destruct (AO3.update (old_query p) (world env)) as [[e | u] w'].
    { by exists [(old_query p, inl e)]. }
    destruct (old_count_page (AO3.results u) t n (after_fetch env (old_query p) (inr u) w'))
      as (t' & ->).
    destruct (IH (Some total) t' (n + Z.of_nat (length (AO3.results u))) (p + 1)
                (after_fetch env (old_query p) (inr u) w')) as (evs & ->).
    exists ((old_query p, inr u) :: evs). simpl. by rewrite <- app_assoc.
Qed.

End OldPageLoop.

(** On an archive without works the loop of [AO3_analyzer.py] for a target
    of zero uses up any fuel, one fetch an iteration. *)
Lemma old_page_loop_spins fuel : forall type t p env,
  0 < p ->
  fst (@AO3Analyzer.page_loop (Archive.serve [] 0) fuel (Archive.old_fandom [] 0 0) type
         None None "" "" (Some 0) t 0 p env) = OutOfFuel
  /\ length (trace (snd (@AO3Analyzer.page_loop (Archive.serve [] 0) fuel
                           (Archive.old_fandom [] 0 0) type None None "" "" (Some 0)
                           t 0 p env)))
     = (length (trace env) + fuel)%nat.
Proof.
  induction fuel as [| fuel IH]; intros type t p env Hp.
  - simpl. split; [reflexivity | lia].
  - rewrite old_page_loop_unfold. cbn [Z.leb Z.compare].
    cbn [AO3.update Archive.serve AO3.page AO3Analyzer.Search_of].
    destruct (Z.eqb_spec p 0) as [-> | _]; [lia |].
    rewrite drop_nil, take_nil. cbn [AO3.results for_in ret].
    destruct (IH type t (p + 1)
                (after_fetch env
                   (AO3Analyzer.Search_of (Archive.old_fandom [] 0 0) None None "" "" p)
                   (inr {| AO3.total_results := Z.of_nat (length (@nil AO3.Work));
                           AO3.results := [] |}) (world env))) as (Hout & Hlen); [lia |].
    split; [exact Hout |]. rewrite Hlen. simpl. rewrite length_app. simpl. lia.
Qed.

(** C2, where the code departs from it.  [AO3_analyzer.py] loops
    [while ficsCounted <= totalWorkCount]: on an archive of forty works,
    served twenty a page, a sample size of 20 takes two fetches, where the
    claim has one, and a sample size of 40 never stops, each further fetch
    bringing an empty page (here the five iterations allowed are used up);
    21 takes two.  [fandom.py] on the same archive takes one, two and two
    fetches. *)
Theorem old_page_loop_fetches_one_page_too_many :
  let works := replicate 40 Archive.work1 in
  let old_run sampleSize :=
    @AO3Analyzer.attributeCounter (Archive.serve works 0) 5 (Archive.old_fandom works 0 40)
      "tags" None None (Some sampleSize) "" "" (Archive.start works 0 ∅) in
  let run sampleSize :=
    @FandomPy.attributeCounter (Archive.serve works 0) 5 (Archive.fandom works 0 40)
      "tags" None None (Some sampleSize) "" "" 1 0 None (Archive.start works 0 ∅) in
  (length (trace (snd (old_run 20))) = 2%nat
   /\ fst (old_run 20) = Return {["fluff" := 40; "angst" := 40]})
  /\ length (trace (snd (old_run 21))) = 2%nat
  /\ (length (trace (snd (old_run 40))) = 5%nat /\ fst (old_run 40) = OutOfFuel)
  /\ length (trace (snd (run 20))) = 1%nat
  /\ length (trace (snd (run 21))) = 2%nat
  /\ (length (trace (snd (run 40))) = 2%nat /\ fst (run 40) = Return {["tags" := 1%positive]}).
Proof. vm_compute. repeat split. Qed.

(** C3, where the code departs from it.  [AO3_analyzer.py] with a target of
    zero does not skip the loop: since [0 <= 0] it always makes the fetch of
    page 1, and on an archive without works, where every page is empty, it
    then never stops, making one fetch for every iteration it is allowed. *)
Theorem old_zero_target_fetches_a_page :
  (forall (L : AO3.Lib) fuel (self : AO3Analyzer.Fandom) type rating warnings
          sortColumn sortDirection env,
      exists evs,
        trace (snd (AO3Analyzer.attributeCounter (S fuel) self type rating warnings
                      (Some 0) sortColumn sortDirection env))
        = trace env
          ++ (AO3Analyzer.Search_of self rating warnings sortColumn sortDirection 1,
              fst (AO3.update
                     (AO3Analyzer.Search_of self rating warnings sortColumn sortDirection 1)
                     (world env))) :: evs)
  /\ (forall fuel type,
        fst (@AO3Analyzer.attributeCounter (Archive.serve [] 0) fuel
               (Archive.old_fandom [] 0 0) type None None (Some 0) "" ""
               (Archive.start [] 0 ∅)) = OutOfFuel
        /\ length (trace (snd (@AO3Analyzer.attributeCounter (Archive.serve [] 0) fuel
                                 (Archive.old_fandom [] 0 0) type None None (Some 0) "" ""
                                 (Archive.start [] 0 ∅)))) = fuel).
Proof.
  split.
  - intros L fuel self type rating warnings sortColumn sortDirection env.
    change (AO3Analyzer.attributeCounter (S fuel) self type rating warnings (Some 0)
              sortColumn sortDirection env)
      with (AO3Analyzer.page_loop (S fuel) self type rating warnings sortColumn
              sortDirection (Some 0) ∅ 0 1 env).
    rewrite old_page_loop_unfold. cbn [Z.leb Z.compare].
    destruct (AO3.update _ (world env)) as [[e | u] w'] eqn:Hu; cbn [fst].
    { by exists []. }
    destruct (old_count_page type (AO3.results u) ∅ 0
                (after_fetch env
                   (AO3Analyzer.Search_of self rating warnings sortColumn sortDirection 1)
                   (inr u) w')) as (t' & ->).
    destruct (old_page_loop_trace self type rating warnings sortColumn sortDirection fuel
                (Some 0) t' (0 + Z.of_nat (length (AO3.results u))) (1 + 1)
                (after_fetch env
                   (AO3Analyzer.Search_of self rating warnings sortColumn sortDirection 1)
                   (inr u) w')) as (evs & ->).
    exists evs. simpl. by rewrite <- app_assoc.
  - intros fuel type.
    apply (old_page_loop_spins fuel type ∅ 1 (Archive.start [] 0 ∅)). lia.
Qed.

(** ** The page loop of fandom.py stops at the target *)

Section Conformance.
Context `{L : AO3.Lib}.
Variable self : FandomPy.Fandom.
Variable type : string.
Variable rating : option Z.
Variable warnings : option (list Z).
Variables sortColumn sortDirection : string.
Variables startPage waitTime : Z.

(** In [fandom.py] every page is fetched while the works consumed so far
    are fewer than the sample size, and a run that returns has consumed at
    least that many: the loop stops as soon as the target is reached. *)
Lemma fandom_py_stops_at_target fuel t tagCount env tc env' :
  FandomPy.attributeCounter fuel self type rating warnings (Some t) sortColumn sortDirection
    startPage waitTime (Some tagCount) env = (Return tc, env') ->
  exists evs,
    trace env' = trace env ++ evs
    /\ fetched_while_below 0 t evs
    /\ t <= Z.of_nat (length (consumed evs)).
Proof.
  rewrite attributeCounter_sample. intros Hrun.
  destruct (page_loop_post self type rating warnings sortColumn sortDirection waitTime
              tagCount t fuel no_lists 0 startPage env (no_lists_unassigned type))
    as (evs & Htr & _ & _ & Hbelow & Hret & _).
  pose proof (bind_ret_fst (FandomPy.page_loop fuel self type rating warnings sortColumn
                              sortDirection waitTime tagCount t no_lists 0 startPage)
                tagCount env) as Hfst.
  pose proof (bind_ret_snd (FandomPy.page_loop fuel self type rating warnings sortColumn
                              sortDirection waitTime tagCount t no_lists 0 startPage)
                tagCount env) as Hsnd.
  rewrite Hrun in Hfst, Hsnd. cbn [fst snd] in Hfst, Hsnd. rewrite <- Hsnd in Htr.
  exists evs. split; [exact Htr |]. split; [exact Hbelow |].
  destruct (fst (FandomPy.page_loop _ _ _ _ _ _ _ _ _ _ _ _ _ env)) as [[] | |];
    try discriminate.
  specialize (Hret eq_refl). lia.
Qed.

(** With full pages of twenty, a sample size [t] takes as many fetches as
    twenties cover [t]: two for 40, two for 21, one for 20, none for 0. *)
Lemma fandom_py_fetches_twenty fuel t tagCount env :
  full_pages 20 ->
  tables_selected type tagCount ->
  0 <= waitTime ->
  t <= 20 * Z.of_nat fuel ->
  exists env',
    FandomPy.attributeCounter fuel self type rating warnings (Some t) sortColumn
      sortDirection startPage waitTime (Some tagCount) env = (Return tagCount, env')
    /\ length (trace env') = (length (trace env) + Z.to_nat ((t + 19) `div` 20))%nat.
Proof.
  intros Hfull Hsel Hwait Hfuel. rewrite attributeCounter_sample.
  destruct (page_loop_twenty self type rating warnings sortColumn sortDirection waitTime
              tagCount t fuel no_lists 0 startPage env Hfull (no_lists_unassigned type)
              Hsel Hwait) as (env' & Hloop & Hlen); [lia |].
  exists env'. unfold bind. rewrite Hloop. split; [reflexivity |].
  rewrite Hlen. repeat f_equal. lia.
Qed.

(** A target of zero: no page is fetched, whatever the fuel, and the
    caller's tables are returned as they are. *)
Lemma fandom_py_zero_sample fuel tagCount env :
  FandomPy.attributeCounter fuel self type rating warnings (Some 0) sortColumn
    sortDirection startPage waitTime (Some tagCount) env = (Return tagCount, env).
Proof.
  rewrite attributeCounter_sample. unfold bind. rewrite page_loop_done by lia. reflexivity.
Qed.

Lemma fandom_py_zero_total fuel tagCount env u w' :
  AO3.update (FandomPy.search self rating warnings None "" "" 1) (world env) = (inr u, w') ->
  AO3.total_results u = 0 ->
  FandomPy.attributeCounter fuel self type rating warnings None sortColumn
    sortDirection startPage waitTime (Some tagCount) env
  = (Return tagCount,
     after_fetch env (FandomPy.search self rating warnings None "" "" 1) (inr u) w').
Proof.
  intros Hu H0. rewrite attributeCounter_total, Hu. unfold bind.
  rewrite page_loop_done by lia. reflexivity.
Qed.

(** The same without the caller's tables: the tables returned are the new,
    empty ones. *)
Lemma fandom_py_zero_sample_new_tables fuel env :
  exists tagCount h0,
    new_tables type tagCount (heap env) h0
    /\ FandomPy.attributeCounter fuel self type rating warnings (Some 0) sortColumn
         sortDirection startPage waitTime None env
       = (Return tagCount, with_heap env h0).
Proof.
  destruct (attributeCounter_new_tables fuel self type rating warnings (Some 0) sortColumn
              sortDirection startPage waitTime env) as (tagCount & h0 & Hnew & ->).
  exists tagCount, h0. split; [exact Hnew | apply fandom_py_zero_sample].
Qed.

End Conformance.

(** ** The reports *)

Lemma for_in_ext `{L : AO3.Lib} {A S} (xs : list A) (body body' : A -> S -> M S) s env :
  (forall x s env, body x s env = body' x s env) ->
  for_in xs body s env = for_in xs body' s env.
Proof.
  intros Hext. revert s env. induction xs as [| x xs IH]; intros s env; [reflexivity |].
  cbn [for_in]. unfold bind. rewrite Hext.
  destruct (body' x s env) as [[s' | e |] env']; [apply IH | reflexivity | reflexivity].
Qed.

Section ReportLoop.
Context `{F : PyFloat} `{L : AO3.Lib}.
Variable total : Z.
Hypothesis total_nonzero : total <> 0.

Lemma report_step_answered index q done label rest env u w' x :
  index = length done ->
  AO3.update q (world env) = (inr u, w') ->
  truediv (100 * AO3.total_results u) total = Some x ->
  report_step total index q (done ++ label :: rest) env
  = (Return (done ++ report_line label u x :: rest), after_fetch env q (inr u) w').
Proof.
  intros -> Hu Hx. unfold report_step. unfold bind at 1.
  rewrite Search_update_eq, Hu. cbn [fst snd].
  unfold bind at 1, py_truediv. destruct (Z.eqb_spec total 0); [done |]. rewrite Hx.
  cbn [ret]. unfold bind, list_get, list_set.
  rewrite list_lookup_middle by done. cbn [ret].
  rewrite bool_decide_eq_true_2 by (rewrite length_app; simpl; lia).
  rewrite insert_app_r_alt, Nat.sub_diag by lia. reflexivity.
Qed.

Lemma report_loop (iqs : list (nat * AO3.Search AO3.Session)) :
  forall done labels us xs env w',
    map fst iqs = seq (length done) (length iqs) ->
    length labels = length iqs ->
    answers (world env) (map snd iqs) us w' ->
    quotients total us xs ->
    for_in iqs (fun iq results => report_step total (fst iq) (snd iq) results)
      (done ++ labels) env
    = (Return (done ++ report_lines labels us xs),
       after_fetches env (map snd iqs) us w').
Proof.
  induction iqs as [| [i q] iqs IH]; intros done labels us xs env w' Hidx Hlen Hans Hq.
  - destruct labels; [| done]. destruct us; [| done]. simpl in Hans. subst w'.
    simpl. unfold ret, after_fetches. simpl. rewrite !app_nil_r. by destruct env.
  - destruct labels as [| label labels]; [done |].
    destruct us as [| u us]; [done |]. destruct Hans as (w1 & Hu & Hans).
    inversion Hq as [| ? x ? xs' Hx Hq']; subst.
    simpl in Hidx. injection Hidx as Hi Hidx. simpl in Hlen.
    cbn [for_in]. unfold bind. cbn [fst snd].
    rewrite (report_step_answered i q done label labels env u w1 x) by done.
    replace (done ++ report_line label u x :: labels)
      with ((done ++ [report_line label u x]) ++ labels) by (by rewrite <- app_assoc).
    rewrite (IH (done ++ [report_line label u x]) labels us xs'
               (after_fetch env q (inr u) w1) w').
    + cbn [report_lines]. rewrite <- app_assoc. simpl. f_equal.
      unfold after_fetches, after_fetch. simpl. rewrite <- app_assoc. reflexivity.
    + rewrite length_app. simpl. rewrite Nat.add_1_r. exact Hidx.
    + lia.
    + exact Hans.
    + exact Hq'.
Qed.

End ReportLoop.

(** C7's companion for the warnings ([fandom.py]): when [totalWorks] is not
    zero, the client answers the six fetches and the six quotients are
    [float]s, [getWarningComposition] makes exactly the six fetches, for the
    warnings 14, 16, 17, 18, 19 and 20 in this order, each under the rating
    restriction, and returns the fandom's name, [" Fandom"], and one line
    for each warning with its count and its percentage. *)
Theorem warning_report_has_six_lines `{F : PyFloat} `{L : AO3.Lib} :
  forall (self : FandomPy.Fandom) ratingRestriction env us xs w',
    FandomPy.totalWorks self <> 0 ->
    answers (world env)
      (map (fun value => FandomPy.search self ratingRestriction (Some [value]) None "" "" 1)
         [14; 16; 17; 18; 19; 20]) us w' ->
    quotients (FandomPy.totalWorks self) us xs ->
    FandomPy.getWarningComposition self ratingRestriction env
    = (Return
         (FandomPy.fandomName self +:+ " Fandom" +:+ nl
          +:+ String.concat ""
                (report_lines
                   ["Creator Chose Not To Use Archive Warnings: ";
                    "No Archive Warnings Apply: "; "Graphic Depictions Of Violence: ";
                    "Major Character Death: "; "Rape/Non-Con: "; "Underage: "] us xs)),
       after_fetches env
         (map (fun value => FandomPy.search self ratingRestriction (Some [value]) None "" "" 1)
            [14; 16; 17; 18; 19; 20]) us w').
Proof.
  intros self rr env us xs w' Htotal Hans Hq.
  unfold FandomPy.getWarningComposition.
  erewrite bind_Return; [reflexivity |].
  exact (report_loop (FandomPy.totalWorks self) Htotal
           (map (fun iv : nat * Z =>
                   (fst iv, FandomPy.search self rr (Some [snd iv]) None "" "" 1))
              (enumerate [14; 16; 17; 18; 19; 20]))
           []
             ["Creator Chose Not To Use Archive Warnings: "; "No Archive Warnings Apply: ";
              "Graphic Depictions Of Violence: "; "Major Character Death: ";
              "Rape/Non-Con: "; "Underage: "]%string
             us xs env w' eq_refl eq_refl Hans Hq).
Qed.

(** The report of warnings of a fandom of one work. *)
Lemma warning_report_witness :
  fst (@FandomPy.getWarningComposition Archive.binary64 (Archive.serve [Archive.work1] 0)
         (Archive.fandom [Archive.work1] 0 1) (Some 10) (Archive.start [Archive.work1] 0 ∅))
  = Return
      (FandomPy.fandomName (Archive.fandom [Archive.work1] 0 1) +:+ " Fandom" +:+ nl
       +:+ String.concat ""
             (@report_lines Archive.binary64
                ["Creator Chose Not To Use Archive Warnings: ";
                 "No Archive Warnings Apply: "; "Graphic Depictions Of Violence: ";
                 "Major Character Death: "; "Rape/Non-Con: "; "Underage: "]
                (replicate 6 {| AO3.total_results := 1; AO3.results := [Archive.work1] |})
                (replicate 6 100%float))).
Proof.
  refine (f_equal fst
    (@warning_report_has_six_lines Archive.binary64 (Archive.serve [Archive.work1] 0)
       (Archive.fandom [Archive.work1] 0 1) (Some 10) (Archive.start [Archive.work1] 0 ∅)
       (replicate 6 {| AO3.total_results := 1; AO3.results := [Archive.work1] |})
       (replicate 6 100%float) tt _ _ _)).
  - discriminate.
  - simpl. repeat (exists tt; split; [reflexivity |]). reflexivity.
  - repeat constructor.
Defined.

(** The text of the report for the works for general audiences of
    [Archive.shelf], two of seven, which that archive finds under every
    warning. *)
Example warning_report_text :
  fst (@FandomPy.getWarningComposition Archive.binary64 (Archive.rated Archive.shelf 7)
         Archive.rated_fandom (Some 10) Archive.rated_start)
  = Return
      ("x Fandom" +:+ nl
       +:+ "Creator Chose Not To Use Archive Warnings: 2 fics, 28.57 percent of the fandom."
       +:+ nl
       +:+ "No Archive Warnings Apply: 2 fics, 28.57 percent of the fandom." +:+ nl
       +:+ "Graphic Depictions Of Violence: 2 fics, 28.57 percent of the fandom." +:+ nl
       +:+ "Major Character Death: 2 fics, 28.57 percent of the fandom." +:+ nl
       +:+ "Rape/Non-Con: 2 fics, 28.57 percent of the fandom." +:+ nl
       +:+ "Underage: 2 fics, 28.57 percent of the fandom." +:+ nl).
Proof. vm_compute. reflexivity. Qed.

(** In [AO3_analyzer.py] both composition methods return such a report:
    [getRatingComposition] makes the five fetches for the ratings 9 to 13,
    [getWarningComposition] the six for the warnings, and each returns the
    fandom's name, [" Fandom"], and one line for each bucket with its count
    and its percentage. *)
Theorem old_reports_have_one_line_per_bucket `{F : PyFloat} `{L : AO3.Lib} :
  (forall (self : AO3Analyzer.Fandom) env us xs w',
      AO3Analyzer.totalWorks self <> 0 ->
      answers (world env)
        (map (fun rating =>
                AO3Analyzer.Search_of self (Some rating) (AO3.warnings AO3.defaults)
                  (AO3.sort_column AO3.defaults) (AO3.sort_direction AO3.defaults)
                  (AO3.page AO3.defaults))
           [9; 10; 11; 12; 13]) us w' ->
      quotients (AO3Analyzer.totalWorks self) us xs ->
      AO3Analyzer.getRatingComposition self env
      = (Return
           (AO3Analyzer.fandomName self +:+ " Fandom" +:+ nl
            +:+ String.concat ""
                  (report_lines
                     ["Not Rated: "; "General Audiences: "; "Teen and Up Audiences: ";
                      "Mature: "; "Explicit: "] us xs)),
         after_fetches env
           (map (fun rating =>
                   AO3Analyzer.Search_of self (Some rating) (AO3.warnings AO3.defaults)
                     (AO3.sort_column AO3.defaults) (AO3.sort_direction AO3.defaults)
                     (AO3.page AO3.defaults))
              [9; 10; 11; 12; 13]) us w'))
  /\ (forall (self : AO3Analyzer.Fandom) ratingRestriction env us xs w',
        AO3Analyzer.totalWorks self <> 0 ->
        answers (world env)
          (map (fun value =>
                  AO3Analyzer.Search_of self ratingRestriction (Some [value])
                    (AO3.sort_column AO3.defaults) (AO3.sort_direction AO3.defaults)
                    (AO3.page AO3.defaults))
             [14; 16; 17; 18; 19; 20]) us w' ->
        quotients (AO3Analyzer.totalWorks self) us xs ->
        AO3Analyzer.getWarningComposition self ratingRestriction env
        = (Return
             (AO3Analyzer.fandomName self +:+ " Fandom" +:+ nl
              +:+ String.concat ""
                    (report_lines
                       ["Creator Chose Not To Use Archive Warnings: ";
                        "No Archive Warnings Apply: "; "Graphic Depictions Of Violence: ";
                        "Major Character Death: "; "Rape/Non-Con: "; "Underage: "] us xs)),
           after_fetches env
             (map (fun value =>
                     AO3Analyzer.Search_of self ratingRestriction (Some [value])
                       (AO3.sort_column AO3.defaults) (AO3.sort_direction AO3.defaults)
                       (AO3.page AO3.defaults))
                [14; 16; 17; 18; 19; 20]) us w')).
Proof.
  split.
  - intros self env us xs w' Htotal Hans Hq.
    unfold AO3Analyzer.getRatingComposition.
    erewrite bind_Return; [reflexivity |].
    exact (report_loop (AO3Analyzer.totalWorks self) Htotal
             (map (fun i : nat =>
                     (i, AO3Analyzer.Search_of self (Some (Z.of_nat i + 9))
                           (AO3.warnings AO3.defaults) (AO3.sort_column AO3.defaults)
                           (AO3.sort_direction AO3.defaults) (AO3.page AO3.defaults)))
                [0; 1; 2; 3; 4]%nat)
             []
             ["Not Rated: "; "General Audiences: "; "Teen and Up Audiences: "; "Mature: ";
              "Explicit: "]%string
             us xs env w' eq_refl eq_refl Hans Hq).
  - intros self rr env us xs w' Htotal Hans Hq.
    unfold AO3Analyzer.getWarningComposition.
    erewrite bind_Return; [reflexivity |].
    exact (report_loop (AO3Analyzer.totalWorks self) Htotal
             (map (fun iv : nat * Z =>
                     (fst iv, AO3Analyzer.Search_of self rr (Some [snd iv])
                                (AO3.sort_column AO3.defaults)
                                (AO3.sort_direction AO3.defaults) (AO3.page AO3.defaults)))
                (enumerate [14; 16; 17; 18; 19; 20]))
             []
             ["Creator Chose Not To Use Archive Warnings: "; "No Archive Warnings Apply: ";
              "Graphic Depictions Of Violence: "; "Major Character Death: ";
              "Rape/Non-Con: "; "Underage: "]%string
             us xs env w' eq_refl eq_refl Hans Hq).
Qed.

(** The report of ratings of a fandom of one work. *)
Lemma old_reports_witness :
  fst (@AO3Analyzer.getRatingComposition Archive.binary64 (Archive.serve [Archive.work1] 0)
         (Archive.old_fandom [Archive.work1] 0 1) (Archive.start [Archive.work1] 0 ∅))
  = Return
      (AO3Analyzer.fandomName (Archive.old_fandom [Archive.work1] 0 1) +:+ " Fandom" +:+ nl
       +:+ String.concat ""
             (@report_lines Archive.binary64
                ["Not Rated: "; "General Audiences: "; "Teen and Up Audiences: ";
                 "Mature: "; "Explicit: "]
                (replicate 5 {| AO3.total_results := 1; AO3.results := [Archive.work1] |})
                (replicate 5 100%float))).
Proof.
  refine (f_equal fst
    (proj1 (@old_reports_have_one_line_per_bucket Archive.binary64
              (Archive.serve [Archive.work1] 0))
       (Archive.old_fandom [Archive.work1] 0 1) (Archive.start [Archive.work1] 0 ∅)
       (replicate 5 {| AO3.total_results := 1; AO3.results := [Archive.work1] |})
       (replicate 5 100%float) tt _ _ _)).
  - discriminate.
  - simpl. repeat (exists tt; split; [reflexivity |]). reflexivity.
  - repeat constructor.
Defined.

(** ** What the composition methods fetch, whatever the answers *)

Section Quiet.
Context `{F : PyFloat} `{L : AO3.Lib}.

Lemma pure_ret {A} (a : A) : pure_op (ret a).
Proof. by exists (Return a). Qed.

Lemma pure_raise {A} (e : PyExn) : pure_op (raise e : M A).
Proof. by exists (Raise e). Qed.

Lemma pure_bind {A B} (c : M A) (k : A -> M B) :
  pure_op c -> (forall a, pure_op (k a)) -> pure_op (bind c k).
Proof.
  intros [o Ho] Hk. destruct o as [a | e |].
  - destruct (Hk a) as [o' Ho']. exists o'. intros env. unfold bind. by rewrite Ho, Ho'.
  - exists (Raise e). intros env. unfold bind. by rewrite Ho.
  - exists OutOfFuel. intros env. unfold bind. by rewrite Ho.
Qed.

Lemma pure_py_truediv (a b : Z) : pure_op (py_truediv a b).
Proof.
  unfold py_truediv. destruct (b =? 0); [apply pure_raise |].
  destruct (truediv a b); [apply pure_ret | apply pure_raise].
Qed.

Lemma pure_list_get {A} (xs : list A) (i : nat) : pure_op (list_get xs i).
Proof. unfold list_get. destruct (xs !! i); [apply pure_ret | apply pure_raise]. Qed.

Lemma pure_list_set {A} (xs : list A) (i : nat) (x : A) : pure_op (list_set xs i x).
Proof. unfold list_set. case_bool_decide; [apply pure_ret | apply pure_raise]. Qed.

(** A loop whose body makes one fetch and then only computes: its fetches
    are of the first elements in order, it stops at the first fetch that
    fails or computation that raises, and it leaves the store alone. *)
Lemma for_in_fetches {A S} (q : A -> AO3.Search AO3.Session) (body : A -> S -> M S) :
  (forall x s, exists k, (forall u, pure_op (k u))
                         /\ forall env, body x s env = bind (Search_update (q x)) k env) ->
  forall xs s env,
    exists evs,
      trace (snd (for_in xs body s env)) = trace env ++ evs
      /\ heap (snd (for_in xs body s env)) = heap env
      /\ first_fetches_of (map q xs) evs
      /\ failure_is_last evs (fst (for_in xs body s env))
      /\ (forall s', fst (for_in xs body s env) = Return s' -> length evs = length xs).
Proof.
  intros Hbody. induction xs as [| x xs IH]; intros s env.
  - exists []. simpl. rewrite app_nil_r.
    split_and!; [done | done | done | by intros [] ? ? ? ? | done].
  - destruct (Hbody x s) as (k & Hk & Hb).
    assert (Heq : for_in (x :: xs) body s env
                  = match AO3.update (q x) (world env) with
                    | (inl e, w') => (Raise e, after_fetch env (q x) (inl e) w')
                    | (inr u, w') =>
                        match k u (after_fetch env (q x) (inr u) w') with
                        | (Return s1, env1) => for_in xs body s1 env1
                        | (Raise e, env1) => (Raise e, env1)
                        | (OutOfFuel, env1) => (OutOfFuel, env1)
                        end
                    end).
    { cbn [for_in]. unfold bind at 1. rewrite Hb. unfold bind at 1.
      rewrite Search_update_eq.
      destruct (AO3.update (q x) (world env)) as [[e | u] w']; reflexivity. }
    rewrite Heq. clear Heq.
    destruct (AO3.update (q x) (world env)) as [[e | u] w']; cbn [fst snd].
    { exists [(q x, inl e)]. simpl. split_and!; [done | done | done | | done].
      intros [| ? [| ? ?]] q0 e0 evs2 Heq; simplify_eq/=. done. }
    destruct (Hk u) as [o Ho]. rewrite Ho.
    destruct o as [s1 | e |].
    + destruct (IH s1 (after_fetch env (q x) (inr u) w'))
        as (evs & Htr & Hh & Hfirst & Hfail & Hlen).
      exists ((q x, inr u) :: evs). split; [| split; [| split; [| split]]].
      * rewrite Htr. simpl. by rewrite <- app_assoc.
      * exact Hh.
      * unfold first_fetches_of in *. simpl. by rewrite Hfirst.
      * intros [| ev1 evs1] q0 e0 evs2 Heq; simpl in Heq; simplify_eq.
        by eapply Hfail.
      * intros s' Hs'. simpl. by rewrite (Hlen s' Hs').
    + exists [(q x, inr u)]. simpl. split_and!; [done | done | done | | done].
      intros [| ? [| ? ?]] q0 e0 evs2 Heq; simplify_eq/=.
    + exists [(q x, inr u)]. simpl. split_and!; [done | done | done | | done].
      intros [| ? [| ? ?]] q0 e0 evs2 Heq; simplify_eq/=.
Qed.

Lemma first_fetches_length (qs : list (AO3.Search AO3.Session)) (evs : list Event) :
  first_fetches_of qs evs -> (length evs <= length qs)%nat.
Proof.
  unfold first_fetches_of. intros H. apply (f_equal length) in H.
  rewrite length_map, length_take in H. lia.
Qed.

Lemma bind_pure_fst {A B} (c : M A) (f : A -> B) env :
  fst (bind c (fun a => ret (f a)) env)
  = match fst (c env) with
    | Return a => Return (f a)
    | Raise e => Raise e
    | OutOfFuel => OutOfFuel
    end.
Proof. unfold bind. destruct (c env) as [[a | e |] env']; reflexivity. Qed.

Lemma bind_pure_snd {A B} (c : M A) (f : A -> B) env :
  snd (bind c (fun a => ret (f a)) env) = snd (c env).
Proof. unfold bind. destruct (c env) as [[a | e |] env']; reflexivity. Qed.

Lemma failure_is_last_map {A B} (evs : list Event) (o : Outcome A) (f : A -> B) :
  failure_is_last evs o ->
  failure_is_last evs (match o with
                       | Return a => Return (f a)
                       | Raise e => Raise e
                       | OutOfFuel => OutOfFuel
                       end).
Proof.
  intros H evs1 q e evs2 Heq. destruct (H evs1 q e evs2 Heq) as [-> ->]. done.
Qed.

End Quiet.

(** Whatever the client answers, the two composition methods of
    [fandom.py] fetch bucket after bucket in the fixed order, never more
    than five (ratings) or six (warnings) times; a fetch that fails is the
    last one and its error is the outcome; a result takes all five (six)
    fetches; and no table of the store is touched. *)
Theorem composition_fetches_buckets_in_order `{F : PyFloat} `{L : AO3.Lib} :
  (forall (self : FandomPy.Fandom) env,
      exists evs,
        trace (snd (FandomPy.getRatingComposition self env)) = trace env ++ evs
        /\ heap (snd (FandomPy.getRatingComposition self env)) = heap env
        /\ first_fetches_of
             (map (fun rating => FandomPy.search self (Some rating) None None "" "" 1)
                [9; 10; 11; 12; 13]) evs
        /\ (length evs <= 5)%nat
        /\ failure_is_last evs (fst (FandomPy.getRatingComposition self env))
        /\ match fst (FandomPy.getRatingComposition self env) with
           | Return report => length evs = 5%nat
           | _ => True
           end)
  /\ (forall (self : FandomPy.Fandom) ratingRestriction env,
        exists evs,
          trace (snd (FandomPy.getWarningComposition self ratingRestriction env))
          = trace env ++ evs
          /\ heap (snd (FandomPy.getWarningComposition self ratingRestriction env)) = heap env
          /\ first_fetches_of
               (map (fun value =>
                       FandomPy.search self ratingRestriction (Some [value]) None "" "" 1)
                  [14; 16; 17; 18; 19; 20]) evs
          /\ (length evs <= 6)%nat
          /\ failure_is_last evs
               (fst (FandomPy.getWarningComposition self ratingRestriction env))
          /\ match fst (FandomPy.getWarningComposition self ratingRestriction env) with
             | Return report => length evs = 6%nat
             | _ => True
             end).
Proof.
  split.
  - intros self env. unfold FandomPy.getRatingComposition.
    match goal with |- context [for_in ?XS ?BODY ?S0 env] =>
      destruct (for_in_fetches
                  (fun i => FandomPy.search self (Some (i + 9)) None None "" "" 1) BODY
                  ltac:(intros x0 s0; eexists; split; [| intros env0; reflexivity];
                        intros u; apply pure_bind; [apply pure_py_truediv |];
                        intros; apply pure_ret) XS S0 env)
        as (evs & Htr & Hh & Hfirst & Hfail & Hlen)
    end.
    exists evs. split; [done |]. split; [done |]. split; [exact Hfirst |].
    split; [apply first_fetches_length in Hfirst; exact Hfirst |].
    split; [done |].
    destruct (fst (for_in _ _ _ env)) eqn:Hout; [| done | done]. by eapply Hlen.
  - intros self rr env. unfold FandomPy.getWarningComposition.
    rewrite bind_pure_fst, bind_pure_snd.
    match goal with |- context [for_in ?XS ?BODY ?S0 env] =>
      destruct (for_in_fetches
                  (fun iv : nat * Z =>
                     FandomPy.search self rr (Some [snd iv]) None "" "" 1) BODY
                  ltac:(intros [i v] s0; eexists; split; [| intros env0; reflexivity];
                        intros u; apply pure_bind; [apply pure_py_truediv |];
                        intros; apply pure_bind; [apply pure_list_get |];
                        intros; apply pure_list_set) XS S0 env)
        as (evs & Htr & Hh & Hfirst & Hfail & Hlen)
    end.
    exists evs. split; [done |]. split; [done |]. split; [exact Hfirst |].
    split; [apply first_fetches_length in Hfirst; exact Hfirst |].
    split; [by apply failure_is_last_map |].
    destruct (fst (for_in _ _ _ env)) eqn:Hout; [| done | done]. by eapply Hlen.
Qed.

(** The composition methods of [AO3_analyzer.py] fetch in the same way. *)
Theorem old_composition_fetches_buckets_in_order `{F : PyFloat} `{L : AO3.Lib} :
  (forall (self : AO3Analyzer.Fandom) env,
      exists evs,
        trace (snd (AO3Analyzer.getRatingComposition self env)) = trace env ++ evs
        /\ heap (snd (AO3Analyzer.getRatingComposition self env)) = heap env
        /\ first_fetches_of
             (map (fun rating =>
                     AO3Analyzer.Search_of self (Some rating) (AO3.warnings AO3.defaults)
                       (AO3.sort_column AO3.defaults) (AO3.sort_direction AO3.defaults)
                       (AO3.page AO3.defaults))
                [9; 10; 11; 12; 13]) evs
        /\ (length evs <= 5)%nat
        /\ failure_is_last evs (fst (AO3Analyzer.getRatingComposition self env))
        /\ match fst (AO3Analyzer.getRatingComposition self env) with
           | Return report => length evs = 5%nat
           | _ => True
           end)
  /\ (forall (self : AO3Analyzer.Fandom) ratingRestriction env,
        exists evs,
          trace (snd (AO3Analyzer.getWarningComposition self ratingRestriction env))
          = trace env ++ evs
          /\ heap (snd (AO3Analyzer.getWarningComposition self ratingRestriction env))
             = heap env
          /\ first_fetches_of
               (map (fun value =>
                       AO3Analyzer.Search_of self ratingRestriction (Some [value])
                         (AO3.sort_column AO3.defaults) (AO3.sort_direction AO3.defaults)
                         (AO3.page AO3.defaults))
                  [14; 16; 17; 18; 19; 20]) evs
          /\ (length evs <= 6)%nat
          /\ failure_is_last evs
               (fst (AO3Analyzer.getWarningComposition self ratingRestriction env))
          /\ match fst (AO3Analyzer.getWarningComposition self ratingRestriction env) with
             | Return report => length evs = 6%nat
             | _ => True
             end).
Proof.
  split.
  - intros self env. unfold AO3Analyzer.getRatingComposition.
    rewrite bind_pure_fst, bind_pure_snd.
    match goal with |- context [for_in ?XS ?BODY ?S0 env] =>
      destruct (for_in_fetches
                  (fun i : nat =>
                     AO3Analyzer.Search_of self (Some (Z.of_nat i + 9))
                       (AO3.warnings AO3.defaults) (AO3.sort_column AO3.defaults)
                       (AO3.sort_direction AO3.defaults) (AO3.page AO3.defaults)) BODY
                  ltac:(intros x0 s0; eexists; split; [| intros env0; reflexivity];
                        intros u; apply pure_bind; [apply pure_py_truediv |];
                        intros; apply pure_bind; [apply pure_list_get |];
                        intros; apply pure_list_set) XS S0 env)
        as (evs & Htr & Hh & Hfirst & Hfail & Hlen)
    end.
    exists evs. split; [done |]. split; [done |]. split; [exact Hfirst |].
    split; [apply first_fetches_length in Hfirst; exact Hfirst |].
    split; [by apply failure_is_last_map |].
    destruct (fst (for_in _ _ _ env)) eqn:Hout; [| done | done]. by eapply Hlen.
  - intros self rr env. unfold AO3Analyzer.getWarningComposition.
    rewrite bind_pure_fst, bind_pure_snd.
    match goal with |- context [for_in ?XS ?BODY ?S0 env] =>
      destruct (for_in_fetches
                  (fun iv : nat * Z =>
                     AO3Analyzer.Search_of self rr (Some [snd iv])
                       (AO3.sort_column AO3.defaults) (AO3.sort_direction AO3.defaults)
                       (AO3.page AO3.defaults)) BODY
                  ltac:(intros [i v] s0; eexists; split; [| intros env0; reflexivity];
                        intros u; apply pure_bind; [apply pure_py_truediv |];
                        intros; apply pure_bind; [apply pure_list_get |];
                        intros; apply pure_list_set) XS S0 env)
        as (evs & Htr & Hh & Hfirst & Hfail & Hlen)
    end.
    exists evs. split; [done |]. split; [done |]. split; [exact Hfirst |].
    split; [apply first_fetches_length in Hfirst; exact Hfirst |].
    split; [by apply failure_is_last_map |].
    destruct (fst (for_in _ _ _ env)) eqn:Hout; [| done | done]. by eapply Hlen.
Qed.

(** ** A table for a kind that the selector leaves out *)

Lemma count_work_unselected `{L : AO3.Lib} type (tagCount : gmap string loc) w vars n env
    kind d :
  unassigned_unless_selected type vars ->
  is_kind kind = true ->
  tagCount !! kind = Some d ->
  selected type kind = false ->
  fst (FandomPy.count_work type tagCount w (vars, n) env) = Raise TypeError.
Proof.
  intros (Hrl & Hcl & Htl) Hkind Hd Hsel. destruct vars as [rl cl tl].
  simpl in Hrl, Hcl, Htl. unfold FandomPy.count_work.
  type_cases type.
  - rewrite Hcl, Htl by reflexivity.
    destruct (is_kind_cases kind Hkind) as [-> | [-> | ->]];
      try (vm_compute in Hsel; discriminate);
      destruct (tagCount !! "relationships") eqn:Er;
      destruct (tagCount !! "characters") eqn:Ec;
      destruct (tagCount !! "tags") eqn:Et; first [congruence | reflexivity].
  - rewrite Hrl, Htl by reflexivity.
    destruct (is_kind_cases kind Hkind) as [-> | [-> | ->]];
      try (vm_compute in Hsel; discriminate);
      destruct (tagCount !! "relationships") eqn:Er;
      destruct (tagCount !! "characters") eqn:Ec;
      destruct (tagCount !! "tags") eqn:Et; first [congruence | reflexivity].
  - rewrite Hrl, Hcl by reflexivity.
    destruct (is_kind_cases kind Hkind) as [-> | [-> | ->]];
      try (vm_compute in Hsel; discriminate);
      destruct (tagCount !! "relationships") eqn:Er;
      destruct (tagCount !! "characters") eqn:Ec;
      destruct (tagCount !! "tags") eqn:Et; first [congruence | reflexivity].
  - rewrite selected_other in Hsel by done. congruence.
Qed.

(** In [fandom.py], a caller's dictionary that has a table for a kind the
    type selector does not select makes the first work of the first page
    fail: the variable of that kind is still [None] and [counter] cannot
    iterate over it.  The run ends in [TypeError] after its one fetch. *)
Theorem unselected_table_raises_TypeError `{L : AO3.Lib} :
  forall fuel (self : FandomPy.Fandom) type rating warnings t sortColumn sortDirection
         startPage waitTime tagCount env kind d u w' work works,
    is_kind kind = true ->
    tagCount !! kind = Some d ->
    selected type kind = false ->
    0 < t ->
    AO3.update (FandomPy.search self rating warnings None sortColumn sortDirection startPage)
      (world env) = (inr u, w') ->
    AO3.results u = work :: works ->
    fst (FandomPy.attributeCounter (S fuel) self type rating warnings (Some t) sortColumn
           sortDirection startPage waitTime (Some tagCount) env) = Raise TypeError
    /\ trace (snd (FandomPy.attributeCounter (S fuel) self type rating warnings (Some t)
                     sortColumn sortDirection startPage waitTime (Some tagCount) env))
       = trace env
         ++ [(FandomPy.search self rating warnings None sortColumn sortDirection startPage,
              inr u)].
Proof.
  intros fuel self type rating warnings t sortColumn sortDirection startPage waitTime
    tagCount env kind d u w' work works Hkind Hd Hsel Ht Hu Hres.
  rewrite attributeCounter_sample, bind_ret_fst, bind_ret_snd, page_loop_unfold.
  destruct (Z.ltb_spec 0 t); [| lia]. rewrite Hu, Hres. cbn [for_in]. unfold bind.
  pose proof (count_work_unselected type tagCount work no_lists 0
                (after_fetch env
                   (FandomPy.search self rating warnings None sortColumn sortDirection
                      startPage) (inr u) w') kind d (no_lists_unassigned type) Hkind Hd Hsel)
    as Hraise.
  pose proof (count_work_spec type tagCount work no_lists 0
                (after_fetch env
                   (FandomPy.search self rating warnings None sortColumn sortDirection
                      startPage) (inr u) w') (no_lists_unassigned type)) as (_ & Htr & _).
  destruct (FandomPy.count_work type tagCount work (no_lists, 0) _) as [[o | e |] env1];
    simpl in Hraise; try discriminate.
  injection Hraise as ->. simpl in Htr. simpl. split; [reflexivity | exact Htr].
Qed.

(** The selector ['tags'] on a dictionary that also has a table of
    relationships. *)
Lemma unselected_table_witness :
  fst (@FandomPy.attributeCounter (Archive.serve [Archive.work1] 0) 1
         (Archive.fandom [Archive.work1] 0 1) "tags" None None (Some 1) "" "" 1 0
         (Some (<["relationships" := 2%positive]> {["tags" := 1%positive]}))
         (Archive.start [Archive.work1] 0 (<[2%positive := ∅]> {[1%positive := ∅]})))
  = Raise TypeError.
Proof.
  exact (proj1
    (@unselected_table_raises_TypeError (Archive.serve [Archive.work1] 0) 0
       (Archive.fandom [Archive.work1] 0 1) "tags" None None 1 "" "" 1 0
       (<["relationships" := 2%positive]> {["tags" := 1%positive]})
       (Archive.start [Archive.work1] 0 (<[2%positive := ∅]> {[1%positive := ∅]}))
       "relationships" 2%positive
       {| AO3.total_results := 1; AO3.results := [Archive.work1] |} tt Archive.work1 []
       eq_refl eq_refl eq_refl eq_refl eq_refl eq_refl)).
Defined.

(** ** Runs of attributeCounter of fandom.py, with or without the caller's tables *)

Lemma with_heap_same `{L : AO3.Lib} (env : Env) : with_heap env (heap env) = env.
Proof. by destruct env. Qed.

Section Runs.
Context `{L : AO3.Lib}.
Variable self : FandomPy.Fandom.
Variable type : string.
Variable rating : option Z.
Variable warnings : option (list Z).
Variables sortColumn sortDirection : string.
Variables startPage waitTime : Z.

Local Abbreviation page_query :=
  (fun p => FandomPy.search self rating warnings None sortColumn sortDirection p).
Local Abbreviation total_query := (FandomPy.search self rating warnings None "" "" 1).
Local Abbreviation run fuel sampleSize tagCount env :=
  (FandomPy.attributeCounter fuel self type rating warnings sampleSize sortColumn
     sortDirection startPage waitTime tagCount env).

(** Every run is a run on some dictionary, in a store that holds its
    tables. *)
Lemma attributeCounter_tables fuel sampleSize tagCount env :
  exists tc h0,
    run fuel sampleSize tagCount env = run fuel sampleSize (Some tc) (with_heap env h0)
    /\ (tables_fit type tagCount -> tables_selected type tc)
    /\ (forall l t, heap env !! l = Some t -> h0 !! l = Some t)
    /\ match tagCount with
       | Some tc' => tc = tc' /\ h0 = heap env
       | None => new_tables type tc (heap env) h0
       end.
Proof.
  destruct tagCount as [tc |].
  - exists tc, (heap env). rewrite with_heap_same. by repeat split.
  - destruct (attributeCounter_new_tables fuel self type rating warnings sampleSize
                sortColumn sortDirection startPage waitTime env) as (tc & h0 & Hnew & Heq).
    exists tc, h0. split; [exact Heq |]. split; [| split; [| exact Hnew]].
    + intros _. by eapply new_tables_selected.
    + by destruct Hnew as (_ & _ & Hext).
Qed.

Lemma page_run_post fuel sampleSize tc env :
  exists evs,
    trace (snd (run fuel sampleSize (Some tc) env)) = trace env ++ evs
    /\ match sampleSize, evs with
       | None, [] => False
       | None, ev :: _ => fst ev = total_query
       | Some _, _ => True
       end
    /\ consecutive_pages page_query startPage (page_fetches sampleSize evs)
    /\ match target_of sampleSize evs with
       | Some t =>
           fetched_while_below 0 t (page_fetches sampleSize evs)
           /\ match fst (run fuel sampleSize (Some tc) env) with
              | Return _ => t <= Z.of_nat (length (consumed (page_fetches sampleSize evs)))
              | _ => True
              end
       | None => page_fetches sampleSize evs = []
       end.
Proof.
  destruct sampleSize as [t |].
  - rewrite attributeCounter_sample, bind_ret_fst, bind_ret_snd.
    destruct (page_loop_post self type rating warnings sortColumn sortDirection waitTime
                tc t fuel no_lists 0 startPage env (no_lists_unassigned type))
      as (evs & Htr & Hcons & _ & Hbelow & Hret & _).
    exists evs. simpl. split; [done |]. split; [done |]. split; [done |].
    split; [done |].
    destruct (fst (FandomPy.page_loop _ _ _ _ _ _ _ _ _ _ _ _ _ env)) as [[] | |];
      [| done | done].
    specialize (Hret eq_refl). lia.
  - rewrite attributeCounter_total.
    destruct (AO3.update total_query (world env)) as [[e | u] w'].
    + exists [(total_query, inl e)]. simpl. by repeat split.
    + rewrite bind_ret_fst, bind_ret_snd.
      destruct (page_loop_post self type rating warnings sortColumn sortDirection waitTime
                  tc (AO3.total_results u) fuel no_lists 0 startPage
                  (after_fetch env total_query (inr u) w') (no_lists_unassigned type))
        as (evs & Htr & Hcons & _ & Hbelow & Hret & _).
      exists ((total_query, inr u) :: evs). simpl.
      split; [rewrite Htr; simpl; by rewrite <- app_assoc |].
      split; [done |]. split; [done |]. split; [done |].
      destruct (fst (FandomPy.page_loop _ _ _ _ _ _ _ _ _ _ _ _ _ _)) as [[] | |];
        [| done | done].
      specialize (Hret eq_refl). lia.
Qed.

End Runs.

(** In [fandom.py] a run of [attributeCounter], with or without the
    caller's tables and whatever its outcome, fetches first the total when
    it has no sample size, and then the pages [startPage], [startPage + 1],
    ... in this order, each with the rating, warnings and sort order of the
    call; every page is fetched while the works consumed so far are fewer
    than the target, and a run that returns has consumed at least the
    target. *)
Theorem pages_in_order_until_target `{L : AO3.Lib} :
  forall fuel (self : FandomPy.Fandom) type rating warnings sampleSize sortColumn
         sortDirection startPage waitTime tagCount env,
    exists evs,
      trace (snd (FandomPy.attributeCounter fuel self type rating warnings sampleSize
                    sortColumn sortDirection startPage waitTime tagCount env))
      = trace env ++ evs
      /\ match sampleSize, evs with
         | None, [] => False
         | None, ev :: _ => fst ev = FandomPy.search self rating warnings None "" "" 1
         | Some _, _ => True
         end
      /\ consecutive_pages
           (fun p => FandomPy.search self rating warnings None sortColumn sortDirection p)
           startPage (page_fetches sampleSize evs)
      /\ match target_of sampleSize evs with
         | Some t =>
             fetched_while_below 0 t (page_fetches sampleSize evs)
             /\ match fst (FandomPy.attributeCounter fuel self type rating warnings
                             sampleSize sortColumn sortDirection startPage waitTime
                             tagCount env) with
                | Return _ =>
                    t <= Z.of_nat (length (consumed (page_fetches sampleSize evs)))
                | _ => True
                end
         | None => page_fetches sampleSize evs = []
         end.
Proof.
  intros fuel self type rating warnings sampleSize sortColumn sortDirection startPage
    waitTime tagCount env.
  destruct (attributeCounter_tables self type rating warnings sortColumn sortDirection
              startPage waitTime fuel sampleSize tagCount env) as (tc & h0 & -> & _).
  apply (page_run_post self type rating warnings sortColumn sortDirection startPage waitTime
           fuel sampleSize tc (with_heap env h0)).
Qed.

(** ** Full pages, empty pages and the wait *)

Section Pages.
Context `{L : AO3.Lib}.
Variable self : FandomPy.Fandom.
Variable type : string.
Variable rating : option Z.
Variable warnings : option (list Z).
Variables sortColumn sortDirection : string.
Variable waitTime : Z.
Variable tagCount : gmap string loc.
Variable totalWorkCount : Z.

Local Abbreviation loop fuel :=
  (FandomPy.page_loop fuel self type rating warnings sortColumn sortDirection waitTime
     tagCount totalWorkCount).
Local Abbreviation page_query :=
  (fun p => FandomPy.search self rating warnings None sortColumn sortDirection p).

Lemma page_loop_full_pages (size : nat) fuel :
  (0 < size)%nat ->
  forall vars n p env,
  full_pages size ->
  unassigned_unless_selected type vars ->
  tables_selected type tagCount ->
  0 <= waitTime ->
  totalWorkCount - n <= Z.of_nat size * Z.of_nat fuel ->
  exists env',
    loop fuel vars n p env = (Return tt, env')
    /\ length (trace env')
       = (length (trace env)
          + Z.to_nat ((totalWorkCount - n + Z.of_nat size - 1) `div` Z.of_nat size))%nat.
Proof.
  intros Hsize.
  assert (Hnone : forall n, totalWorkCount <= n ->
                    Z.to_nat ((totalWorkCount - n + Z.of_nat size - 1) `div` Z.of_nat size)
                    = 0%nat).
  { intros n Hn.
    assert ((totalWorkCount - n + Z.of_nat size - 1) `div` Z.of_nat size < 1)
      by (apply Z.div_lt_upper_bound; lia). lia. }
  revert fuel. induction fuel as [| fuel IH]; intros vars n p env Hfull Hinv Hsel Hwait Hfuel.
  - exists env. rewrite page_loop_done, Hnone by lia. split; [done | lia].
  - destruct (Z.le_gt_cases totalWorkCount n) as [Hge | Hlt].
    + exists env. rewrite page_loop_done, Hnone by lia. split; [done | lia].
    + destruct (Hfull (page_query p) (world env)) as (u & w' & Hu & Hlen).
      destruct (page_loop_step self type rating warnings sortColumn sortDirection waitTime
                  tagCount totalWorkCount fuel vars n p env u w')
        as (vars' & Hinv' & ->); [lia | done | done | done | done |].
      rewrite Hlen.
      edestruct (IH vars' (n + Z.of_nat size) (p + 1)) as (env' & -> & Htr);
        [done | done | done | done | lia |].
      exists env'. split; [done |].
      simpl in Htr. rewrite length_app in Htr. simpl in Htr.
      assert (Hdiv : (totalWorkCount - n + Z.of_nat size - 1) `div` Z.of_nat size
                     = (totalWorkCount - (n + Z.of_nat size) + Z.of_nat size - 1)
                         `div` Z.of_nat size + 1).
      { rewrite <- (Z.div_add _ 1) by lia. f_equal. lia. }
      assert (0 <= (totalWorkCount - (n + Z.of_nat size) + Z.of_nat size - 1)
                     `div` Z.of_nat size)
        by (apply Z.div_pos; lia).
      rewrite Htr, Hdiv. lia.
Qed.

Lemma works_on_cons (pages : Z -> list AO3.Work) (p last : Z) :
  p < last -> works_on pages p last = pages p ++ works_on pages (p + 1) last.
Proof.
  intros Hp. unfold works_on. rewrite seqZ_cons by lia. simpl.
  replace (Z.succ p) with (p + 1) by lia.
  replace (Z.pred (last - p)) with (last - (p + 1)) by lia. reflexivity.
Qed.

Lemma works_on_nil (pages : Z -> list AO3.Work) (p last : Z) :
  last <= p -> works_on pages p last = [].
Proof. intros Hp. unfold works_on. by rewrite seqZ_nil by lia. Qed.

(** A target above the works that the pages from [p] on hold is never
    reached: every iteration fetches one more page, to no end. *)
Lemma page_loop_beyond_the_end (pages : Z -> list AO3.Work) (last : Z) fuel :
  forall vars n p env,
  serves_pages pages p ->
  (forall p', last <= p' -> pages p' = []) ->
  n + Z.of_nat (length (works_on pages p last)) < totalWorkCount ->
  unassigned_unless_selected type vars ->
  tables_selected type tagCount ->
  0 <= waitTime ->
  fst (loop fuel vars n p env) = OutOfFuel
  /\ length (trace (snd (loop fuel vars n p env))) = (length (trace env) + fuel)%nat.
Proof.
  induction fuel as [| fuel IH]; intros vars n p env Hserve Hend Hn Hinv Hsel Hwait.
  - simpl. destruct (Z.ltb_spec n totalWorkCount); [| lia]. simpl. split; [done | lia].
  - destruct (Hserve (page_query p) (world env) (Z.le_refl p)) as (u & w' & Hu & Hres).
    cbn [AO3.page FandomPy.search] in Hres.
    destruct (page_loop_step self type rating warnings sortColumn sortDirection waitTime
                tagCount totalWorkCount fuel vars n p env u w')
      as (vars' & Hinv' & ->); [lia | done | done | done | done |].
    edestruct (IH vars' (n + Z.of_nat (length (AO3.results u))) (p + 1)) as (-> & ->);
      [| exact Hend | | done | done | done |].
    + intros q w Hq. apply Hserve. lia.
    + rewrite Hres. destruct (Z.lt_ge_cases p last) as [Hlt | Hge].
      * rewrite (works_on_cons pages p last Hlt), length_app in Hn. lia.
      * rewrite (Hend p Hge), (works_on_nil pages (p + 1) last) by lia.
        rewrite (works_on_nil pages p last Hge) in Hn. simpl in *. lia.
    + split; [done |]. simpl. rewrite length_app. simpl. lia.
Qed.

Lemma page_loop_negative_wait fuel vars n p env u w' :
  n < totalWorkCount ->
  AO3.update (page_query p) (world env) = (inr u, w') ->
  unassigned_unless_selected type vars ->
  tables_selected type tagCount ->
  waitTime < 0 ->
  loop (S fuel) vars n p env
  = (Raise ValueError,
     with_heap (after_fetch env (page_query p) (inr u) w')
       (heap_after_works tagCount (AO3.results u) (heap env))).
Proof.
  intros Hn Hu Hinv Hsel Hwait. rewrite page_loop_unfold.
  destruct (Z.ltb_spec n totalWorkCount); [| lia]. rewrite Hu.
  destruct (count_page_selected type tagCount (AO3.results u) vars n
              (after_fetch env (page_query p) (inr u) w') Hinv Hsel) as (vars' & _ & ->).
  destruct (Z.ltb_spec waitTime 0); [reflexivity | lia].
Qed.

End Pages.

(** In [fandom.py], when the client answers every fetch with a full page of
    [size] works and no table is for an unselected kind, a run with the
    sample size [t] returns as soon as it is allowed the iterations it
    needs, after exactly as many page fetches as pages of [size] cover [t]
    (none for [t <= 0]). *)
Theorem full_pages_take_ceil_fetches `{L : AO3.Lib} :
  forall (size fuel : nat) (self : FandomPy.Fandom) type rating warnings t sortColumn
         sortDirection startPage waitTime tagCount env,
    (0 < size)%nat ->
    full_pages size ->
    tables_fit type tagCount ->
    0 <= waitTime ->
    t <= Z.of_nat size * Z.of_nat fuel ->
    exists tc,
      fst (FandomPy.attributeCounter fuel self type rating warnings (Some t) sortColumn
             sortDirection startPage waitTime tagCount env) = Return tc
      /\ length (trace (snd (FandomPy.attributeCounter fuel self type rating warnings
                               (Some t) sortColumn sortDirection startPage waitTime
                               tagCount env)))
         = (length (trace env)
            + Z.to_nat ((t + Z.of_nat size - 1) `div` Z.of_nat size))%nat.
Proof.
  intros size fuel self type rating warnings t sortColumn sortDirection startPage waitTime
    tagCount env Hsize Hfull Hfit Hwait Hfuel.
  destruct (attributeCounter_tables self type rating warnings sortColumn sortDirection
              startPage waitTime fuel (Some t) tagCount env)
    as (tc & h0 & -> & Hsel & _).
  rewrite attributeCounter_sample.
  destruct (page_loop_full_pages self type rating warnings sortColumn sortDirection waitTime
              tc t size fuel Hsize no_lists 0 startPage (with_heap env h0) Hfull
              (no_lists_unassigned type) (Hsel Hfit) Hwait) as (env' & Hloop & Hlen);
    [lia |].
  exists tc. unfold bind. rewrite Hloop. split; [reflexivity |].
  simpl. rewrite Hlen. simpl. repeat f_equal. lia.
Qed.

(** Forty-five works asked of pages of twenty: three fetches. *)
Lemma full_pages_witness :
  exists tc,
    fst (@FandomPy.attributeCounter (endless 20) 3 (endless_fandom 20) "all" None None
           (Some 45) "" "" 1 0 None (endless_start 20)) = Return tc
    /\ length (trace (snd (@FandomPy.attributeCounter (endless 20) 3 (endless_fandom 20)
                             "all" None None (Some 45) "" "" 1 0 None (endless_start 20))))
       = (length (trace (endless_start 20))
          + Z.to_nat ((45 + Z.of_nat 20 - 1) `div` Z.of_nat 20))%nat.
Proof.
  apply (@full_pages_take_ceil_fetches (endless 20) 20 3 (endless_fandom 20) "all" None None
           45 "" "" 1 0 None (endless_start 20)).
  - lia.
  - intros q w. eexists _, _. split; reflexivity.
  - exact I.
  - lia.
  - lia.
Defined.

(** In [fandom.py] a sample size above the number of works that the
    archive holds makes [attributeCounter] loop for ever.  When the client
    answers every fetch of a page from [startPage] on with the works of
    that page, the pages from [last] on hold no work, the pages before
    hold fewer works than the sample size [t], no table is for an
    unselected kind and [waitTime] is not negative, a run never returns:
    whatever number of iterations it is allowed it uses up, with one fetch
    for each. *)
Theorem sample_beyond_the_archive_never_returns `{L : AO3.Lib} :
  forall (pages : Z -> list AO3.Work) (last : Z) fuel (self : FandomPy.Fandom) type rating
         warnings t sortColumn sortDirection startPage waitTime tagCount env,
    serves_pages pages startPage ->
    (forall p, last <= p -> pages p = []) ->
    Z.of_nat (length (works_on pages startPage last)) < t ->
    tables_fit type tagCount ->
    0 <= waitTime ->
    fst (FandomPy.attributeCounter fuel self type rating warnings (Some t) sortColumn
           sortDirection startPage waitTime tagCount env) = OutOfFuel
    /\ length (trace (snd (FandomPy.attributeCounter fuel self type rating warnings (Some t)
                             sortColumn sortDirection startPage waitTime tagCount env)))
       = (length (trace env) + fuel)%nat.
Proof.
  intros pages last fuel self type rating warnings t sortColumn sortDirection startPage
    waitTime tagCount env Hserve Hend Ht Hfit Hwait.
  destruct (attributeCounter_tables self type rating warnings sortColumn sortDirection
              startPage waitTime fuel (Some t) tagCount env) as (tc & h0 & -> & Hsel & _).
  rewrite attributeCounter_sample, bind_ret_fst, bind_ret_snd.
  destruct (page_loop_beyond_the_end self type rating warnings sortColumn sortDirection
              waitTime tc t pages last fuel no_lists 0 startPage (with_heap env h0)
              Hserve Hend)
    as (-> & ->); [lia | apply no_lists_unassigned | by apply Hsel | done |].
  split; reflexivity.
Qed.

(** Thirty works asked of an archive that holds twenty-five, on two
    pages: seven iterations, seven fetches, and no end. *)
Lemma sample_beyond_the_archive_witness :
  fst (@FandomPy.attributeCounter (Archive.serve (replicate 25 Archive.work1) 0) 7
         (Archive.fandom (replicate 25 Archive.work1) 0 25) "all" None None (Some 30)
         "" "" 1 0 None (Archive.start (replicate 25 Archive.work1) 0 ∅)) = OutOfFuel
  /\ length (trace (snd (@FandomPy.attributeCounter
                           (Archive.serve (replicate 25 Archive.work1) 0) 7
                           (Archive.fandom (replicate 25 Archive.work1) 0 25) "all" None
                           None (Some 30) "" "" 1 0 None
                           (Archive.start (replicate 25 Archive.work1) 0 ∅))))
     = (length (trace (Archive.start (replicate 25 Archive.work1) 0 ∅)) + 7)%nat.
Proof.
  apply (@sample_beyond_the_archive_never_returns
           (Archive.serve (replicate 25 Archive.work1) 0)
           (Archive.page_of (replicate 25 Archive.work1)) 3 7
           (Archive.fandom (replicate 25 Archive.work1) 0 25) "all" None None 30 "" "" 1 0
           None (Archive.start (replicate 25 Archive.work1) 0 ∅)).
  - intros q w Hq.
    exists {| AO3.total_results := 25;
              AO3.results := Archive.page_of (replicate 25 Archive.work1) (AO3.page q) |}, w.
    split; [| reflexivity]. cbn [AO3.update AO3.Session Archive.serve] in Hq |- *.
    match goal with
    | |- context [if ?x =? 0 then _ else _] =>
        destruct (Z.eqb_spec x 0); [lia | reflexivity]
    end.
  - intros p Hp. unfold Archive.page_of. rewrite drop_ge; [reflexivity |].
    rewrite length_replicate. lia.
  - vm_compute. reflexivity.
  - exact I.
  - lia.
Defined.

(** In [fandom.py] a negative [waitTime] is not rejected at the call: the
    first page is fetched and counted into the tables, and only then does
    [time.sleep] raise [ValueError], which ends the run. *)
Theorem negative_wait_raises_after_first_page `{L : AO3.Lib} :
  forall fuel (self : FandomPy.Fandom) type rating warnings t sortColumn sortDirection
         startPage waitTime tagCount env u w',
    0 < t ->
    waitTime < 0 ->
    tables_selected type tagCount ->
    AO3.update (FandomPy.search self rating warnings None sortColumn sortDirection startPage)
      (world env) = (inr u, w') ->
    FandomPy.attributeCounter (S fuel) self type rating warnings (Some t) sortColumn
      sortDirection startPage waitTime (Some tagCount) env
    = (Raise ValueError,
       with_heap
         (after_fetch env
            (FandomPy.search self rating warnings None sortColumn sortDirection startPage)
            (inr u) w')
         (heap_after_works tagCount (AO3.results u) (heap env))).
Proof.
  intros fuel self type rating warnings t sortColumn sortDirection startPage waitTime
    tagCount env u w' Ht Hwait Hsel Hu.
  rewrite attributeCounter_sample. unfold bind.
  rewrite (page_loop_negative_wait self type rating warnings sortColumn sortDirection
             waitTime tagCount t fuel no_lists 0 startPage env u w')
    by (done || apply no_lists_unassigned).
  reflexivity.
Qed.

(** A wait of [-1] on the caller's table of tags. *)
Lemma negative_wait_witness :
  fst (@FandomPy.attributeCounter (Archive.serve [Archive.work1] 0) 1
         (Archive.fandom [Archive.work1] 0 1) "tags" None None (Some 1) "" "" 1 (-1)
         (Some {["tags" := 1%positive]})
         (Archive.start [Archive.work1] 0 {[1%positive := ∅]}))
  = Raise ValueError.
Proof.
  refine (f_equal fst
    (@negative_wait_raises_after_first_page (Archive.serve [Archive.work1] 0) 0
       (Archive.fandom [Archive.work1] 0 1) "tags" None None 1 "" "" 1 (-1)
       {["tags" := 1%positive]} (Archive.start [Archive.work1] 0 {[1%positive := ∅]})
       {| AO3.total_results := 1; AO3.results := [Archive.work1] |} tt _ _ _ eq_refl)).
  - lia.
  - lia.
  - apply tags_table_selected. by left.
Defined.

(** ** What a run adds to the caller's tables, and what it leaves alone *)

(** In [fandom.py], a run on the caller's dictionary that returns has added
    to each of its tables, when the tables of the three kinds are different
    objects, exactly the occurrences in the works it consumed: an entry
    that was there has grown by their number, an absent one has been
    created with it, and the others are as they were.  A later run on the
    same dictionary therefore carries on from the counts of an earlier
    one. *)
Theorem caller_tables_gain_the_occurrences `{L : AO3.Lib} :
  forall fuel (self : FandomPy.Fandom) type rating warnings sampleSize sortColumn
         sortDirection startPage waitTime tagCount env tc env' kind d t0,
    FandomPy.attributeCounter fuel self type rating warnings sampleSize sortColumn
      sortDirection startPage waitTime (Some tagCount) env = (Return tc, env') ->
    distinct_tables tagCount ->
    is_kind kind = true ->
    tagCount !! kind = Some d ->
    heap env !! d = Some t0 ->
    exists evs t',
      trace env' = trace env ++ evs
      /\ tc = tagCount
      /\ heap env' !! d = Some t'
      /\ forall k,
           t' !! k
           = added_entry (t0 !! k)
               (occurrences k
                  (concat (map (kind_list kind) (consumed (page_fetches sampleSize evs))))).
Proof.
  intros fuel self type rating warnings sampleSize sortColumn sortDirection startPage
    waitTime tagCount env tc env' kind d t0 Hrun Hdist Hkind Hd Ht0.
  destruct (attributeCounter_post self type rating warnings sortColumn sortDirection
              startPage waitTime fuel sampleSize tagCount env)
    as (evs & Htr & _ & _ & Hheap).
  pose proof (attributeCounter_returns_tagCount fuel self type rating warnings sampleSize
                sortColumn sortDirection startPage waitTime tagCount env tc) as Htc.
  rewrite Hrun in Htr, Hheap, Htc. cbn [fst snd] in Htr, Hheap, Htc.
  specialize (Htc eq_refl). subst tc.
  assert (Hok : Return tagCount <> (Raise TypeError : Outcome (gmap string loc)))
    by (intros Hc; inversion Hc).
  specialize (Hheap (or_introl Hok)).
  exists evs, (FandomPy.counter_items t0
                 (concat (map (kind_list kind) (consumed (page_fetches sampleSize evs))))).
  split; [exact Htr |]. split; [reflexivity |]. split.
  - rewrite Hheap, (heap_after_works_lookup _ _ _ kind) by done. by rewrite Ht0.
  - intros k. apply counter_items_lookup.
Qed.

(** A second run on a table that already holds ["fluff": 3]. *)
Lemma caller_tables_witness :
  exists evs t',
    trace (snd (@FandomPy.attributeCounter (Archive.serve [Archive.work1] 0) 1
                  (Archive.fandom [Archive.work1] 0 1) "tags" None None (Some 1) "" "" 1 0
                  (Some {["tags" := 7%positive]})
                  (Archive.start [Archive.work1] 0 {[7%positive := {["fluff" := 3]}]})))
    = trace (Archive.start [Archive.work1] 0 {[7%positive := {["fluff" := 3]}]}) ++ evs
    /\ ({["tags" := 7%positive]} : gmap string loc) = {["tags" := 7%positive]}
    /\ heap (snd (@FandomPy.attributeCounter (Archive.serve [Archive.work1] 0) 1
                    (Archive.fandom [Archive.work1] 0 1) "tags" None None (Some 1) "" "" 1 0
                    (Some {["tags" := 7%positive]})
                    (Archive.start [Archive.work1] 0 {[7%positive := {["fluff" := 3]}]})))
       !! 7%positive = Some t'
    /\ forall k,
         t' !! k
         = added_entry (({["fluff" := 3]} : gmap string Z) !! k)
             (occurrences k
                (concat (map (kind_list "tags") (consumed (page_fetches (Some 1) evs))))).
Proof.
  apply (@caller_tables_gain_the_occurrences (Archive.serve [Archive.work1] 0) 1
           (Archive.fandom [Archive.work1] 0 1) "tags" None None (Some 1) "" "" 1 0
           {["tags" := 7%positive]}
           (Archive.start [Archive.work1] 0 {[7%positive := {["fluff" := 3]}]})
           {["tags" := 7%positive]} _ "tags" 7%positive {["fluff" := 3]}).
  - apply surjective_pairing.
  - intros k1 k2 d _ _ H1 H2.
    apply lookup_singleton_Some in H1 as [<- _].
    apply lookup_singleton_Some in H2 as [<- _]. reflexivity.
  - reflexivity.
  - reflexivity.
  - reflexivity.
Defined.

Section Frame.
Context `{L : AO3.Lib}.
Variable l : loc.

Lemma keeps_ret {A} (a : A) : keeps l (ret a).
Proof. by intros env. Qed.

Lemma keeps_raise {A} (e : PyExn) : keeps l (raise e : M A).
Proof. by intros env. Qed.

Lemma keeps_out_of_fuel {A} : keeps l (out_of_fuel : M A).
Proof. by intros env. Qed.

Lemma keeps_bind {A B} (c : M A) (k : A -> M B) :
  keeps l c -> (forall a, keeps l (k a)) -> keeps l (bind c k).
Proof.
  intros Hc Hk env. unfold bind. specialize (Hc env).
  destruct (c env) as [[a | e |] env1]; simpl in *; [| done | done].
  by rewrite Hk.
Qed.

Lemma keeps_Search_update (q : AO3.Search AO3.Session) : keeps l (Search_update q).
Proof. intros env. by rewrite Search_update_eq. Qed.

Lemma keeps_sleep (secs : Z) : keeps l (sleep secs).
Proof. unfold sleep. destruct (secs <? 0); [apply keeps_raise | apply keeps_ret]. Qed.

Lemma keeps_counter (d : loc) (itemList : option (list string)) :
  d <> l -> keeps l (FandomPy.counter d itemList).
Proof.
  intros Hne. destruct itemList as [items |]; [| apply keeps_raise].
  intros env. simpl. by rewrite lookup_alter_ne.
Qed.

Lemma keeps_for_in {A S} (xs : list A) (body : A -> S -> M S) (s : S) :
  (forall x s, keeps l (body x s)) -> keeps l (for_in xs body s).
Proof.
  intros Hbody. revert s. induction xs as [| x xs IH]; intros s; simpl.
  - apply keeps_ret.
  - apply keeps_bind; [apply Hbody | exact IH].
Qed.

Lemma keeps_count_work type (tagCount : gmap string loc) w st :
  not_a_table tagCount l ->
  keeps l (FandomPy.count_work type tagCount w st).
Proof.
  intros Hnot. destruct st as [vars n]. unfold FandomPy.count_work.
  apply keeps_bind.
  { destruct (tagCount !! "relationships") as [d |] eqn:E; [| apply keeps_ret].
    apply keeps_counter. intros ->. by apply (Hnot "relationships"). }
  intros _. apply keeps_bind.
  { destruct (tagCount !! "characters") as [d |] eqn:E; [| apply keeps_ret].
    apply keeps_counter. intros ->. by apply (Hnot "characters"). }
  intros _. apply keeps_bind.
  { destruct (tagCount !! "tags") as [d |] eqn:E; [| apply keeps_ret].
    apply keeps_counter. intros ->. by apply (Hnot "tags"). }
  intros _. apply keeps_ret.
Qed.

Lemma keeps_page_loop fuel self type rating warnings sortColumn sortDirection waitTime
    tagCount totalWorkCount vars ficsCounted pageNumber :
  not_a_table tagCount l ->
  keeps l (FandomPy.page_loop fuel self type rating warnings sortColumn sortDirection
             waitTime tagCount totalWorkCount vars ficsCounted pageNumber).
Proof.
  intros Hnot. revert vars ficsCounted pageNumber.
  induction fuel as [| fuel IH]; intros vars ficsCounted pageNumber; simpl;
    destruct (ficsCounted <? totalWorkCount); try apply keeps_ret.
  - apply keeps_out_of_fuel.
  - apply keeps_bind; [apply keeps_Search_update | intros currentPage].
    apply keeps_bind; [apply keeps_for_in; intros; by apply keeps_count_work |].
    intros [vars' n']. apply keeps_bind; [apply keeps_sleep | intros _; apply IH].
Qed.

Lemma keeps_attributeCounter fuel self type rating warnings sampleSize sortColumn
    sortDirection startPage waitTime tagCount :
  not_a_table tagCount l ->
  keeps l (FandomPy.attributeCounter fuel self type rating warnings sampleSize sortColumn
             sortDirection startPage waitTime (Some tagCount)).
Proof.
  intros Hnot env. destruct sampleSize as [t |].
  - rewrite attributeCounter_sample, bind_ret_snd. by apply keeps_page_loop.
  - rewrite attributeCounter_total.
    destruct (AO3.update _ (world env)) as [[e | u] w']; [reflexivity |].
    rewrite bind_ret_snd. by rewrite keeps_page_loop.
Qed.

End Frame.

(** In [fandom.py] a run of [attributeCounter] changes no table but those
    of its dictionary, whatever its outcome: on the caller's dictionary,
    every table of the store that is not the dictionary's table of tags,
    relationships or characters is left as it was; without the caller's
    dictionary, every table the store held is left as it was. *)
Theorem only_the_dictionary_tables_change `{L : AO3.Lib} :
  forall fuel (self : FandomPy.Fandom) type rating warnings sampleSize sortColumn
         sortDirection startPage waitTime tagCount env l t,
    heap env !! l = Some t ->
    match tagCount with
    | Some tc => not_a_table tc l
    | None => True
    end ->
    heap (snd (FandomPy.attributeCounter fuel self type rating warnings sampleSize
                 sortColumn sortDirection startPage waitTime tagCount env)) !! l = Some t.
Proof.
  intros fuel self type rating warnings sampleSize sortColumn sortDirection startPage
    waitTime tagCount env l t Hl Hnot.
  destruct tagCount as [tc |].
  - rewrite keeps_attributeCounter; done.
  - destruct (attributeCounter_new_tables fuel self type rating warnings sampleSize
                sortColumn sortDirection startPage waitTime env)
      as (tc & h0 & (_ & Hkinds & Hext) & ->).
    rewrite keeps_attributeCounter; [by apply Hext |].
    intros kind Hkind Hd. specialize (Hkinds kind Hkind).
    destruct (selected type kind); [| congruence].
    destruct Hkinds as (d & Hd' & Hnone & _). congruence.
Qed.

(** A table beside the caller's dictionary, and a run that counts into the
    dictionary. *)
Lemma only_the_dictionary_witness :
  heap (snd (@FandomPy.attributeCounter (Archive.serve [Archive.work1] 0) 1
               (Archive.fandom [Archive.work1] 0 1) "tags" None None (Some 1) "" "" 1 0
               (Some {["tags" := 7%positive]})
               (Archive.start [Archive.work1] 0
                  (<[8%positive := {["angst" := 5]}]> {[7%positive := {["fluff" := 3]}]}))))
    !! 8%positive = Some {["angst" := 5]}.
Proof.
  apply (@only_the_dictionary_tables_change (Archive.serve [Archive.work1] 0) 1
           (Archive.fandom [Archive.work1] 0 1) "tags" None None (Some 1) "" "" 1 0
           (Some {["tags" := 7%positive]})).
  - reflexivity.
  - intros kind _ Hd. destruct (decide (kind = "tags")) as [-> | Hne].
    + rewrite lookup_singleton_eq in Hd. discriminate.
    + rewrite lookup_singleton_ne in Hd by done. discriminate.
Defined.

(** ** The runs of attributeCounter of AO3_analyzer.py *)

Section OldRuns.
Context `{L : AO3.Lib}.
Variable self : AO3Analyzer.Fandom.
Variable type : string.
Variable rating : option Z.
Variable warnings : option (list Z).
Variables sortColumn sortDirection : string.

Local Abbreviation old_loop fuel :=
  (AO3Analyzer.page_loop fuel self type rating warnings sortColumn sortDirection).
Local Abbreviation old_query :=
  (fun p => AO3Analyzer.Search_of self rating warnings sortColumn sortDirection p).

Lemma old_count_page_table ws t n env :
  for_in ws (AO3Analyzer.count_work type) (t, n) env
  = (Return (FandomPy.counter_items t (concat (map (old_list type) ws)),
             n + Z.of_nat (length ws)), env).
Proof.
  revert t n. induction ws as [| w ws IH]; intros t n.
  - simpl. rewrite Z.add_0_r. reflexivity.
  - cbn [for_in]. unfold bind. cbn [AO3Analyzer.count_work ret].
    etransitivity; [apply IH |].
    change (concat (map (old_list type) (w :: ws)))
      with (old_list type w ++ concat (map (old_list type) ws)).
    rewrite counter_items_app, <- (attribute_loop_counter_items (old_list type w) t).
    simpl length.
    replace (n + 1 + Z.of_nat (length ws)) with (n + Z.of_nat (S (length ws))) by lia.
    reflexivity.
Qed.

Lemma old_page_loop_post fuel : forall total t n p env,
  exists evs,
    trace (snd (old_loop fuel (Some total) t n p env)) = trace env ++ evs
    /\ heap (snd (old_loop fuel (Some total) t n p env)) = heap env
    /\ consecutive_pages old_query p evs
    /\ failure_is_last evs (fst (old_loop fuel (Some total) t n p env))
    /\ fetched_while_at_most n total evs
    /\ match fst (old_loop fuel (Some total) t n p env) with
       | Return t' =>
           total < n + Z.of_nat (length (consumed evs))
           /\ t' = FandomPy.counter_items t (concat (map (old_list type) (consumed evs)))
       | _ => True
       end.
Proof.
  induction fuel as [| fuel IH]; intros total t n p env.
  - exists []. simpl. unfold bind, ret. destruct (Z.leb_spec n total); simpl;
      (split; [by rewrite app_nil_r |]); (split; [done |]); (split; [done |]);
      (split; [by intros [] ? ? ? ? |]); (split; [by intros [] ? ? ? |]);
      first [done | split; [lia | done]].
  - rewrite old_page_loop_unfold. destruct (Z.leb_spec n total) as [Hle | Hgt].
    2:{ exists []. simpl.
        (split; [by rewrite app_nil_r |]); (split; [done |]); (split; [done |]);
        (split; [by intros [] ? ? ? ? |]); (split; [by intros [] ? ? ? |]).
        split; [lia | done]. }
    destruct (AO3.update (old_query p) (world env)) as [[e | u] w'] eqn:Hu.
    { exists [(old_query p, inl e)]. simpl.
      split; [done |]. split; [done |]. split; [done |].
      split. { intros [| ? [| ? ?]] q0 e0 evs2 Heq; simplify_eq/=. done. }
      split; [| done]. intros [| ? [| ? ?]] ev evs2 Heq; simplify_eq/=. lia. }
    rewrite old_count_page_table.
    destruct (IH total (FandomPy.counter_items t (concat (map (old_list type) (AO3.results u))))
                (n + Z.of_nat (length (AO3.results u))) (p + 1)
                (after_fetch env (old_query p) (inr u) w'))
      as (evs & Htr & Hh & Hcons & Hfail & Hmost & Hret).
    exists ((old_query p, inr u) :: evs).
    split. { rewrite Htr. simpl. by rewrite <- app_assoc. }
    split; [exact Hh |]. split; [done |].
    split. { intros [| ev1 evs1] q0 e0 evs2 Heq; simpl in Heq; simplify_eq. by eapply Hfail. }
    split.
    { intros [| ev1 evs1] ev evs2 Heq; simpl in Heq; simplify_eq; [simpl; lia |].
      specialize (Hmost evs1 ev evs2 eq_refl).
      rewrite consumed_cons, length_app. simpl. lia. }
    destruct (fst (old_loop fuel _ _ _ _ _)) as [t' | |]; [| done | done].
    destruct Hret as [Hlt ->]. rewrite consumed_cons, length_app, map_app, concat_app.
    simpl. split; [lia |]. by rewrite counter_items_app.
Qed.

Lemma old_page_loop_full_pages (size : nat) fuel :
  (0 < size)%nat ->
  forall total t n p env,
  full_pages size ->
  n <= total ->
  total - n < Z.of_nat size * Z.of_nat fuel ->
  exists t' env',
    old_loop fuel (Some total) t n p env = (Return t', env')
    /\ length (trace env')
       = (length (trace env) + Z.to_nat ((total - n) `div` Z.of_nat size) + 1)%nat.
Proof.
  intros Hsize. induction fuel as [| fuel IH]; intros total t n p env Hfull Hn Hfuel.
  - lia.
  - rewrite old_page_loop_unfold. destruct (Z.leb_spec n total) as [_ | Hgt]; [| lia].
    destruct (Hfull (old_query p) (world env)) as (u & w' & -> & Hlen).
    rewrite old_count_page_table, Hlen.
    destruct (Z.le_gt_cases (n + Z.of_nat size) total) as [Hmore | Hdone].
    + destruct (IH total
                  (FandomPy.counter_items t (concat (map (old_list type) (AO3.results u))))
                  (n + Z.of_nat size) (p + 1) (after_fetch env (old_query p) (inr u) w')
                  Hfull Hmore) as (t' & env' & -> & Htr); [lia |].
      exists t', env'. split; [done |]. rewrite Htr. simpl. rewrite length_app. simpl.
      assert (Hdiv : (total - n) `div` Z.of_nat size
                     = (total - (n + Z.of_nat size)) `div` Z.of_nat size + 1).
      { rewrite <- (Z.div_add _ 1) by lia. f_equal. lia. }
      assert (0 <= (total - (n + Z.of_nat size)) `div` Z.of_nat size)
        by (apply Z.div_pos; lia).
      rewrite Hdiv. lia.
    + eexists _, _. destruct fuel; simpl; unfold bind, ret;
        (destruct (Z.leb_spec (n + Z.of_nat size) total); [lia |]);
        (split; [reflexivity |]); simpl; rewrite length_app; simpl;
        rewrite Z.div_small by lia; lia.
Qed.

End OldRuns.

(** In [AO3_analyzer.py] a run of [attributeCounter] with a sample size
    fetches the pages 1, 2, ... in this order and stops at a fetch that
    fails, with its error; each page is fetched while the works consumed so
    far are at most the sample size, not fewer than it, so that a run that
    returns has consumed more works than were asked for. *)
Theorem old_run_goes_past_the_target `{L : AO3.Lib} :
  forall fuel (self : AO3Analyzer.Fandom) type rating warnings t sortColumn sortDirection env,
    exists evs,
      trace (snd (AO3Analyzer.attributeCounter fuel self type rating warnings (Some t)
                    sortColumn sortDirection env)) = trace env ++ evs
      /\ heap (snd (AO3Analyzer.attributeCounter fuel self type rating warnings (Some t)
                      sortColumn sortDirection env)) = heap env
      /\ consecutive_pages
           (fun p => AO3Analyzer.Search_of self rating warnings sortColumn sortDirection p)
           1 evs
      /\ failure_is_last evs
           (fst (AO3Analyzer.attributeCounter fuel self type rating warnings (Some t)
                   sortColumn sortDirection env))
      /\ fetched_while_at_most 0 t evs
      /\ match fst (AO3Analyzer.attributeCounter fuel self type rating warnings (Some t)
                      sortColumn sortDirection env) with
         | Return _ => t < Z.of_nat (length (consumed evs))
         | _ => True
         end.
Proof.
  intros fuel self type rating warnings t sortColumn sortDirection env.
  change (AO3Analyzer.attributeCounter fuel self type rating warnings (Some t)
            sortColumn sortDirection env)
    with (AO3Analyzer.page_loop fuel self type rating warnings sortColumn sortDirection
            (Some t) ∅ 0 1 env).
  destruct (old_page_loop_post self type rating warnings sortColumn sortDirection fuel
              t ∅ 0 1 env) as (evs & Htr & Hh & Hcons & Hfail & Hmost & Hret).
  exists evs. split; [done |]. split; [done |]. split; [done |]. split; [done |].
  split; [done |].
  destruct (fst (AO3Analyzer.page_loop _ _ _ _ _ _ _ _ _ _ _ _)); [| done | done].
  destruct Hret as [Hlt _]. lia.
Qed.

(** In [AO3_analyzer.py] the table that a run with a sample size returns
    holds, for every attribute, the number of its occurrences in the
    selected list of the works the run consumed, and no entry for an
    attribute that does not occur. *)
Theorem old_table_counts_the_occurrences `{L : AO3.Lib} :
  forall fuel (self : AO3Analyzer.Fandom) type rating warnings t sortColumn sortDirection
         env tagCount env',
    AO3Analyzer.attributeCounter fuel self type rating warnings (Some t) sortColumn
      sortDirection env = (Return tagCount, env') ->
    exists evs,
      trace env' = trace env ++ evs
      /\ forall k,
           tagCount !! k
           = count_entry (occurrences k (concat (map (old_list type) (consumed evs)))).
Proof.
  intros fuel self type rating warnings t sortColumn sortDirection env tagCount env' Hrun.
  change (AO3Analyzer.attributeCounter fuel self type rating warnings (Some t)
            sortColumn sortDirection env)
    with (AO3Analyzer.page_loop fuel self type rating warnings sortColumn sortDirection
            (Some t) ∅ 0 1 env) in Hrun.
  destruct (old_page_loop_post self type rating warnings sortColumn sortDirection fuel
              t ∅ 0 1 env) as (evs & Htr & _ & _ & _ & _ & Hret).
  rewrite Hrun in Htr, Hret. cbn [fst snd] in Htr, Hret. destruct Hret as [_ ->].
  exists evs. split; [exact Htr |]. intros k. apply counter_items_fresh.
Qed.

(** A run over the one work of an archive, counting characters. *)
Lemma old_table_witness :
  exists evs,
    trace (snd (@AO3Analyzer.attributeCounter (Archive.serve [Archive.work1] 0) 1
                  (Archive.old_fandom [Archive.work1] 0 1) "characters" None None (Some 0)
                  "" "" (Archive.start [Archive.work1] 0 ∅)))
    = trace (Archive.start [Archive.work1] 0 ∅) ++ evs
    /\ forall k,
         (<["b" := 1]> {["a" := 1]} : gmap string Z) !! k
         = count_entry (occurrences k (concat (map (old_list "characters") (consumed evs)))).
Proof.
  apply (@old_table_counts_the_occurrences (Archive.serve [Archive.work1] 0) 1
           (Archive.old_fandom [Archive.work1] 0 1) "characters" None None 0 "" ""
           (Archive.start [Archive.work1] 0 ∅)).
  apply surjective_pairing.
Defined.

(** In [AO3_analyzer.py], when the client answers every fetch with a full
    page of [size] works, a run with a sample size [t] that is not negative
    returns after one fetch more than the full pages that fit in [t]: one
    fetch for 0, two for a sample size of one page. *)
Theorem old_full_pages_take_one_more_fetch `{L : AO3.Lib} :
  forall (size fuel : nat) (self : AO3Analyzer.Fandom) type rating warnings t sortColumn
         sortDirection env,
    (0 < size)%nat ->
    full_pages size ->
    0 <= t ->
    t < Z.of_nat size * Z.of_nat fuel ->
    exists tagCount,
      fst (AO3Analyzer.attributeCounter fuel self type rating warnings (Some t) sortColumn
             sortDirection env) = Return tagCount
      /\ length (trace (snd (AO3Analyzer.attributeCounter fuel self type rating warnings
                               (Some t) sortColumn sortDirection env)))
         = (length (trace env) + Z.to_nat (t `div` Z.of_nat size) + 1)%nat.
Proof.
  intros size fuel self type rating warnings t sortColumn sortDirection env Hsize Hfull
    Ht Hfuel.
  change (AO3Analyzer.attributeCounter fuel self type rating warnings (Some t)
            sortColumn sortDirection env)
    with (AO3Analyzer.page_loop fuel self type rating warnings sortColumn sortDirection
            (Some t) ∅ 0 1 env).
  destruct (old_page_loop_full_pages self type rating warnings sortColumn sortDirection
              size fuel Hsize t ∅ 0 1 env Hfull Ht) as (t' & env' & -> & Hlen); [lia |].
  exists t'. split; [reflexivity |]. simpl. rewrite Hlen. repeat f_equal. lia.
Qed.

(** Twenty works asked of pages of twenty: two fetches. *)
Lemma old_full_pages_witness :
  exists tagCount,
    fst (@AO3Analyzer.attributeCounter (endless 20) 3 (endless_old_fandom 20) "tags" None
           None (Some 20) "" "" (endless_start 20)) = Return tagCount
    /\ length (trace (snd (@AO3Analyzer.attributeCounter (endless 20) 3
                             (endless_old_fandom 20) "tags" None None (Some 20) "" ""
                             (endless_start 20))))
       = (length (trace (endless_start 20)) + Z.to_nat (20 `div` Z.of_nat 20) + 1)%nat.
Proof.
  apply (@old_full_pages_take_one_more_fetch (endless 20) 20 3 (endless_old_fandom 20)
           "tags" None None 20 "" "" (endless_start 20)).
  - lia.
  - intros q w. eexists _, _. split; reflexivity.
  - lia.
  - lia.
Defined.

(** ** The order of the values does not matter to counter *)

Lemma occurrences_Permutation (k : string) (xs ys : list string) :
  xs ≡ₚ ys -> occurrences k xs = occurrences k ys.
Proof.
  induction 1 as [| x xs ys _ IH | x y xs | xs ys zs _ IH1 _ IH2]; simpl.
  - reflexivity.
  - by rewrite IH.
  - lia.
  - by rewrite IH1.
Qed.

Lemma occurrences_positive_iff (k : string) (items : list string) :
  occurrences k items <> 0 <-> k ∈ items.
Proof.
  induction items as [| item rest IH]; simpl.
  - split; [done | by intros ?%elem_of_nil].
  - pose proof (occurrences_nonneg k rest). rewrite elem_of_cons.
    case_bool_decide; subst.
    + split; [by left | lia].
    + rewrite Z.add_0_l, IH. split; [by right | by intros [-> |]].
Qed.

(** [counter] (and the same loop written out in [AO3_analyzer.py]) counts
    a list whatever its order: lists that are permutations of each other
    leave the same table.  The keys of the table it leaves are those it had
    and the values of the list; and in a table built from nothing every
    entry is at least one and is of a value of the list. *)
Theorem counter_ignores_the_order :
  (forall (d : gmap string Z) xs ys,
      xs ≡ₚ ys ->
      FandomPy.counter_items d xs = FandomPy.counter_items d ys
      /\ AO3Analyzer.attribute_loop d xs = AO3Analyzer.attribute_loop d ys)
  /\ (forall (d : gmap string Z) xs,
        dom (FandomPy.counter_items d xs) = dom d ∪ list_to_set xs)
  /\ (forall xs k,
        match FandomPy.counter_items ∅ xs !! k with
        | Some v => 1 <= v /\ k ∈ xs
        | None => k ∉ xs
        end).
Proof.
  split; [| split].
  - intros d xs ys Hperm.
    assert (Heq : FandomPy.counter_items d xs = FandomPy.counter_items d ys).
    { apply map_eq. intros k.
      by rewrite !counter_items_lookup, (occurrences_Permutation k xs ys Hperm). }
    split; [exact Heq |]. by rewrite !attribute_loop_counter_items.
  - intros d xs. apply set_eq. intros k.
    rewrite elem_of_union, !elem_of_dom, elem_of_list_to_set, counter_items_lookup.
    rewrite <- occurrences_positive_iff.
    destruct (Z.eqb_spec (occurrences k xs) 0) as [H0 | H0].
    + split; [by left | by intros [? | ?]].
    + split; [by right | by intros _].
  - intros xs k. rewrite counter_items_fresh. unfold count_entry.
    pose proof (occurrences_nonneg k xs).
    destruct (Z.eqb_spec (occurrences k xs) 0) as [H0 | H0].
    + intros Hin. by apply occurrences_positive_iff in Hin.
    + split; [lia | by apply occurrences_positive_iff].
Qed.

(** The tags of a work in two orders. *)
Lemma counter_order_witness :
  FandomPy.counter_items {["fluff" := 3]} ["fluff"; "angst"]
  = FandomPy.counter_items {["fluff" := 3]} ["angst"; "fluff"]
  /\ AO3Analyzer.attribute_loop {["fluff" := 3]} ["fluff"; "angst"]
     = AO3Analyzer.attribute_loop {["fluff" := 3]} ["angst"; "fluff"].
Proof.
  apply (proj1 counter_ignores_the_order). apply perm_swap.
Defined.

(** ** The constructor and the searches of its object *)

(** In both files the constructor makes exactly one fetch, and it is the
    search that the object it builds makes with the client's defaults for
    rating, warnings, sort order and page: [totalWorks] is the total of the
    very filters that every later fetch of the object carries.  When that
    fetch fails the constructor raises the client's error and builds no
    object. *)
Theorem constructor_counts_with_the_filters_it_stores `{L : AO3.Lib} :
  (forall fandomName session singleChapter wordCountMin wordCountMax language
          minHits maxHits minBookmarks maxBookmarks minComments maxComments
          crossover completionStatus revisedAt characters relationships tags env,
      match FandomPy.__init__ fandomName session singleChapter wordCountMin wordCountMax
              language minHits maxHits minBookmarks maxBookmarks minComments maxComments
              crossover completionStatus revisedAt characters relationships tags env with
      | (Return self, env') =>
          exists u,
            fst (AO3.update
                   (FandomPy.search self (AO3.rating AO3.defaults)
                      (AO3.warnings AO3.defaults) None (AO3.sort_column AO3.defaults)
                      (AO3.sort_direction AO3.defaults) (AO3.page AO3.defaults))
                   (world env)) = inr u
            /\ FandomPy.totalWorks self = AO3.total_results u
            /\ env' = after_fetch env
                        (FandomPy.search self (AO3.rating AO3.defaults)
                           (AO3.warnings AO3.defaults) None (AO3.sort_column AO3.defaults)
                           (AO3.sort_direction AO3.defaults) (AO3.page AO3.defaults))
                        (inr u)
                        (snd (AO3.update
                                (FandomPy.search self (AO3.rating AO3.defaults)
                                   (AO3.warnings AO3.defaults) None
                                   (AO3.sort_column AO3.defaults)
                                   (AO3.sort_direction AO3.defaults)
                                   (AO3.page AO3.defaults))
                                (world env)))
      | (Raise e, env') =>
          exists q, fst (AO3.update q (world env)) = inl e
                    /\ env' = after_fetch env q (inl e) (snd (AO3.update q (world env)))
      | (OutOfFuel, env') => False
      end)
  /\ (forall fandomName session singleChapter wordCountMin wordCountMax language
            minHits maxHits minBookmarks maxBookmarks minComments maxComments
            crossover completionStatus revisedAt env,
        match AO3Analyzer.__init__ fandomName session singleChapter wordCountMin
                wordCountMax language minHits maxHits minBookmarks maxBookmarks
                minComments maxComments crossover completionStatus revisedAt env with
        | (Return self, env') =>
            exists u,
              fst (AO3.update
                     (AO3Analyzer.Search_of self (AO3.rating AO3.defaults)
                        (AO3.warnings AO3.defaults) (AO3.sort_column AO3.defaults)
                        (AO3.sort_direction AO3.defaults) (AO3.page AO3.defaults))
                     (world env)) = inr u
              /\ AO3Analyzer.totalWorks self = AO3.total_results u
              /\ env' = after_fetch env
                          (AO3Analyzer.Search_of self (AO3.rating AO3.defaults)
                             (AO3.warnings AO3.defaults) (AO3.sort_column AO3.defaults)
                             (AO3.sort_direction AO3.defaults) (AO3.page AO3.defaults))
                          (inr u)
                          (snd (AO3.update
                                  (AO3Analyzer.Search_of self (AO3.rating AO3.defaults)
                                     (AO3.warnings AO3.defaults)
                                     (AO3.sort_column AO3.defaults)
                                     (AO3.sort_direction AO3.defaults)
                                     (AO3.page AO3.defaults))
                                  (world env)))
        | (Raise e, env') =>
            exists q, fst (AO3.update q (world env)) = inl e
                      /\ env' = after_fetch env q (inl e) (snd (AO3.update q (world env)))
        | (OutOfFuel, env') => False
        end).
Proof.
  split; intros.
  - unfold FandomPy.__init__, bind. rewrite Search_update_eq.
    match goal with |- context [AO3.update ?q ?w] =>
      destruct (AO3.update q w) as [[e | u] w'] eqn:Hu; cbn [fst snd] end.
    + eexists. rewrite Hu. split; reflexivity.
    + exists u. unfold FandomPy.search. cbn. rewrite Hu. repeat split.
  - unfold AO3Analyzer.__init__, bind. rewrite Search_update_eq.
    match goal with |- context [AO3.update ?q ?w] =>
      destruct (AO3.update q w) as [[e | u] w'] eqn:Hu; cbn [fst snd] end.
    + eexists. rewrite Hu. split; reflexivity.
    + exists u. unfold AO3Analyzer.Search_of. cbn. rewrite Hu. repeat split.
Qed.
